(** * ReportsApp: the local store and the synchronisation engine

    A shallow embedding of [src/database/database.ts] (class
    [DatabaseService]), [src/services/syncService.ts] (class [SyncService])
    and of [login]/[register] of [src/contexts/AuthContext.tsx], followed by
    the properties of the offline-first data layer.  The definitions end
    with the handlers of two screens that call these services: [handleSync]
    of the profile screen, and the loading and saving of a draft in the
    screen that fills a report.

    Conventions of the embedding:
    - a SQLite table is the list of its rows in insertion (rowid) order;
    - a JavaScript exception is a [Throw] result; the state reached when it
      was raised is kept, as in JavaScript;
    - [new Date()], [generateId()] and the simulated HTTP request (which
      draws [Math.random()]) read oracles of the environment, each with its
      own counter;
    - calls to SQLite itself succeed unless they break a PRIMARY KEY or
      UNIQUE constraint; foreign keys are declared but SQLite does not
      enforce them without [PRAGMA foreign_keys], which the code never sets;
    - an [async] function that is awaited runs to completion at the call; a
      call that is not awaited runs its synchronous prefix only, and the
      rest of it is a separate step ([SyncService.startSync_pass]), run
      from the state the call left or from a state of its own: operations
      that interleave with a pass in flight are outside the model. *)

From Stdlib Require Import List String Ascii ZArith Bool Lia.
From Stdlib Require Import Permutation Sorted.
Import ListNotations.
Open Scope string_scope.
Open Scope list_scope.
Open Scope Z_scope.

(** ** JavaScript values *)

(** JSON-shaped data ([Record<string, any>], and the columns declared
    [TEXT -- JSON string]).  A column written with [JSON.stringify] and read
    with [JSON.parse] is represented by the value itself; a key whose value
    is [undefined] is dropped by [JSON.stringify], so such objects are built
    without it. *)
#[local] Set Warnings "-register-all".
Inductive json : Type :=
| JNull
| JBool (b : bool)
| JNum (n : Z)
| JStr (s : string)
| JArr (l : list json)
| JObj (l : list (string * json)).

(** A thrown [Error]; [message] is [error.message]. *)
Inductive Exn : Type :=
| Error (message : string).

Definition message (e : Exn) : string :=
  match e with Error m => m end.

Inductive Result (A : Type) : Type :=
| Ok (a : A)
| Throw (e : Exn).
Arguments Ok {A} a.
Arguments Throw {A} e.

(** [s || null] on an optional string: the empty string is falsy. *)
Definition or_null (s : option string) : option string :=
  match s with
  | Some EmptyString => None
  | _ => s
  end.

(** [s || ""] on an optional string. *)
Definition or_empty (s : option string) : string :=
  match s with
  | Some t => t
  | None => EmptyString
  end.

(** Truthiness of an optional string ([if (token && ...)]). *)
Definition truthy (s : option string) : bool :=
  match or_null s with
  | Some _ => true
  | None => false
  end.

(** [email.split('@')[0]]: the text before the first ['@'], the whole string
    when there is none. *)
Fixpoint split_at_0 (s : string) : string :=
  match s with
  | EmptyString => EmptyString
  | String c r => if Ascii.eqb c "@" then EmptyString else String c (split_at_0 r)
  end.

(** ** [src/types]: the entities *)

Inductive Role : Type := role_admin | role_user.

Inductive ReportStatus : Type := report_draft | report_active | report_archived.

Inductive SubmissionStatus : Type := draft | submitted | approved | rejected.

Inductive SyncStatus : Type := synced | pending | error.

Inductive SyncType : Type := t_submission | t_report | t_user | t_project.

Inductive SyncAction : Type := a_create | a_update | a_delete.

Definition SyncStatus_eqb (a b : SyncStatus) : bool :=
  match a, b with
  | synced, synced | pending, pending | error, error => true
  | _, _ => false
  end.

Definition SubmissionStatus_eqb (a b : SubmissionStatus) : bool :=
  match a, b with
  | draft, draft | submitted, submitted | approved, approved | rejected, rejected => true
  | _, _ => false
  end.

Definition SubmissionStatus_str (s : SubmissionStatus) : string :=
  match s with
  | draft => "draft"
  | submitted => "submitted"
  | approved => "approved"
  | rejected => "rejected"
  end.

Record User : Type := mkUser {
  u_id : string;
  u_email : string;
  u_name : string;
  u_role : Role;
  u_createdAt : string;
  u_updatedAt : string
}.

Record Project : Type := mkProject {
  p_id : string;
  p_name : string;
  p_description : string;
  p_ownerId : string;
  p_settings : json;
  p_createdAt : string;
  p_updatedAt : string
}.

Record Report : Type := mkReport {
  r_id : string;
  r_projectId : string;
  r_title : string;
  r_description : string;
  r_fields : json;
  r_permissions : json;
  r_status : ReportStatus;
  r_createdAt : string;
  r_updatedAt : string;
  r_createdBy : string
}.

Record ReportSubmission : Type := mkSubmission {
  s_id : string;
  s_reportId : string;
  s_userId : string;
  s_data : json;
  s_status : SubmissionStatus;
  s_submittedAt : option string;
  s_lastModified : string;
  s_version : Z;
  s_isOffline : bool;
  s_syncStatus : SyncStatus
}.

Record SyncQueue : Type := mkSyncQueue {
  q_id : string;
  q_type : SyncType;
  q_action : SyncAction;
  q_entityId : string;
  q_data : json;
  q_attempts : Z;
  q_lastAttempt : option string;
  q_error : option string;
  q_createdAt : string
}.

(** [Partial<ReportSubmission>]: every field may be supplied or left
    [undefined]. *)
Record PartialSubmission : Type := mkPartialSubmission {
  ps_id : option string;
  ps_reportId : option string;
  ps_userId : option string;
  ps_data : option json;
  ps_status : option SubmissionStatus;
  ps_submittedAt : option string;
  ps_lastModified : option string;
  ps_version : option Z;
  ps_isOffline : option bool;
  ps_syncStatus : option SyncStatus
}.

Definition no_fields : PartialSubmission :=
  mkPartialSubmission None None None None None None None None None None.

(** [{ syncStatus: st }] *)
Definition only_syncStatus (st : SyncStatus) : PartialSubmission :=
  mkPartialSubmission None None None None None None None None None (Some st).

(** [Partial<Report>] *)
Record PartialReport : Type := mkPartialReport {
  pr_id : option string;
  pr_projectId : option string;
  pr_title : option string;
  pr_description : option string;
  pr_fields : option json;
  pr_permissions : option json;
  pr_status : option ReportStatus;
  pr_createdAt : option string;
  pr_updatedAt : option string;
  pr_createdBy : option string
}.

Definition no_report_fields : PartialReport :=
  mkPartialReport None None None None None None None None None None.

(** [AuthState], [LoginCredentials], [RegisterData] *)
Record AuthState : Type := mkAuthState {
  isAuthenticated : bool;
  auth_user : option User;
  token : option string;
  refreshToken : option string
}.

Record LoginCredentials : Type := mkCredentials {
  lc_email : string;
  lc_password : string
}.

Record RegisterData : Type := mkRegisterData {
  rd_email : string;
  rd_password : string;
  rd_name : string
}.

(** ** The state of the application *)

(** The tables of [reports.db] that have operations.  [report_versions] and
    [notifications] are created by [createTables] and emptied by
    [clearAllData], and nothing else reads or writes them. *)
Record Tables : Type := mkTables {
  users : list User;
  projects : list Project;
  reports : list Report;
  report_submissions : list ReportSubmission;
  sync_queue : list SyncQueue
}.

Definition no_tables : Tables := mkTables [] [] [] [] [].

Inductive Platform : Type := web | native.

(** [DatabaseService]: [db_handle] is [this.db !== null]; [reports_db] is
    the content of the database file, which outlives the handle. *)
Record DatabaseService : Type := mkDatabaseService {
  platform : Platform;
  db_handle : bool;
  reports_db : Tables
}.

(** [SyncService]: [syncInterval] is [true] when the 30 s timer is armed. *)
Record SyncService : Type := mkSyncService {
  isOnline : bool;
  syncInProgress : bool;
  syncInterval : bool
}.

(** One reading of the clock: the digits of [Date.now()] and the text of
    [new Date().toISOString()]. *)
Record Instant : Type := mkInstant {
  millis : string;
  iso : string
}.

(** The environment: the clock, the identifiers that [generateId] draws and
    the outcome of each simulated request ([true]: [Math.random() > 0.1],
    the request resolves), each with the number of readings made so far. *)
Record Env : Type := mkEnv {
  clock : nat -> Instant;
  ticks : nat;
  idgen : nat -> string;
  drawn : nat;
  net : nat -> bool;
  requests : nat
}.

(** The three keys of [SecureStore] that the application uses; [user_data]
    holds the user whose JSON text is stored. *)
Record SecureStore : Type := mkSecureStore {
  auth_token : option string;
  refresh_token : option string;
  user_data : option User
}.

(** [AuthProvider]: the reducer state, the [isLoading] flag and the secure
    store. *)
Record AuthProvider : Type := mkAuthProvider {
  state : AuthState;
  isLoading : bool;
  secure : SecureStore
}.

Record World : Type := mkWorld {
  dbs : DatabaseService;
  sync : SyncService;
  env : Env;
  authp : AuthProvider
}.

Definition set_dbs (f : DatabaseService -> DatabaseService) (w : World) : World :=
  mkWorld (f (dbs w)) (sync w) (env w) (authp w).

Definition set_sync (f : SyncService -> SyncService) (w : World) : World :=
  mkWorld (dbs w) (f (sync w)) (env w) (authp w).

Definition set_env (f : Env -> Env) (w : World) : World :=
  mkWorld (dbs w) (sync w) (f (env w)) (authp w).

Definition set_authp (f : AuthProvider -> AuthProvider) (w : World) : World :=
  mkWorld (dbs w) (sync w) (env w) (f (authp w)).

Definition tables (w : World) : Tables := reports_db (dbs w).

Definition set_tables (f : Tables -> Tables) (w : World) : World :=
  set_dbs (fun d => mkDatabaseService (platform d) (db_handle d) (f (reports_db d))) w.

Definition set_handle (b : bool) (w : World) : World :=
  set_dbs (fun d => mkDatabaseService (platform d) b (reports_db d)) w.

Definition set_users (f : list User -> list User) : World -> World :=
  set_tables (fun t => mkTables (f (users t)) (projects t) (reports t)
                         (report_submissions t) (sync_queue t)).

Definition set_projects (f : list Project -> list Project) : World -> World :=
  set_tables (fun t => mkTables (users t) (f (projects t)) (reports t)
                         (report_submissions t) (sync_queue t)).

Definition set_reports (f : list Report -> list Report) : World -> World :=
  set_tables (fun t => mkTables (users t) (projects t) (f (reports t))
                         (report_submissions t) (sync_queue t)).

Definition set_submissions (f : list ReportSubmission -> list ReportSubmission) :
  World -> World :=
  set_tables (fun t => mkTables (users t) (projects t) (reports t)
                         (f (report_submissions t)) (sync_queue t)).

Definition set_queue (f : list SyncQueue -> list SyncQueue) : World -> World :=
  set_tables (fun t => mkTables (users t) (projects t) (reports t)
                         (report_submissions t) (f (sync_queue t))).

(** One more reading of the clock, of [generateId], of [Math.random()] in a
    request. *)
Definition tick : World -> World :=
  set_env (fun e => mkEnv (clock e) (S (ticks e)) (idgen e) (drawn e) (net e) (requests e)).

Definition draw : World -> World :=
  set_env (fun e => mkEnv (clock e) (ticks e) (idgen e) (S (drawn e)) (net e) (requests e)).

Definition request : World -> World :=
  set_env (fun e => mkEnv (clock e) (ticks e) (idgen e) (drawn e) (net e) (S (requests e))).

(** The same state with other outcomes of the requests. *)
Definition with_net (outcome : nat -> bool) : World -> World :=
  set_env (fun e => mkEnv (clock e) (ticks e) (idgen e) (drawn e) outcome (requests e)).

(** The text of [new Date().toISOString()], the next identifier and the
    outcome of the next request, in a state. *)
Definition now_of (w : World) : string := iso (clock (env w) (ticks (env w))).

Definition next_id (w : World) : string := idgen (env w) (drawn (env w)).

Definition next_outcome (w : World) : bool := net (env w) (requests (env w)).

(** ** Computations that read and write the state and may throw *)

Definition M (A : Type) : Type := World -> Result A * World.

Definition ret {A : Type} (a : A) : M A := fun w => (Ok a, w).

Definition throw {A : Type} (e : Exn) : M A := fun w => (Throw e, w).

Definition bind {A B : Type} (m : M A) (k : A -> M B) : M B :=
  fun w =>
    match m w with
    | (Ok a, w1) => k a w1
    | (Throw e, w1) => (Throw e, w1)
    end.

Notation "x <- m ;; k" := (bind m (fun x => k))
  (at level 61, m at next level, right associativity).
Notation "m ;; k" := (bind m (fun _ => k))
  (at level 61, right associativity).

(** [try { m } catch (error) { h error }] *)
Definition try_catch {A : Type} (m : M A) (h : Exn -> M A) : M A :=
  fun w =>
    match m w with
    | (Ok a, w1) => (Ok a, w1)
    | (Throw e, w1) => h e w1
    end.

(** [try { m } finally { f }], where [f] cannot throw. *)
Definition finally {A : Type} (m : M A) (f : World -> World) : M A :=
  fun w => let (r, w1) := m w in (r, f w1).

Definition modify (f : World -> World) : M unit := fun w => (Ok tt, f w).

Definition gets {A : Type} (f : World -> A) : M A := fun w => (Ok (f w), w).

(** [for (const x of l) { body x }]: an exception leaves the loop. *)
Fixpoint for_of {A : Type} (l : list A) (body : A -> M unit) : M unit :=
  match l with
  | [] => ret tt
  | x :: r => body x ;; for_of r body
  end.

(** [new Date().toISOString()] *)
Definition new_Date : M string :=
  fun w => (Ok (now_of w), tick w).

(** [Date.now()], as the digits that a template string prints. *)
Definition Date_now : M string :=
  fun w => (Ok (millis (clock (env w) (ticks (env w)))), tick w).

(** ** SQL on a table *)

(** [ORDER BY]: a stable insertion sort, [le a b] meaning that [a] may come
    before [b].  SQLite leaves the order of rows with equal keys open; the
    properties below do not depend on it. *)
Fixpoint insert_by {A : Type} (le : A -> A -> bool) (x : A) (l : list A) : list A :=
  match l with
  | [] => [x]
  | y :: r => if le x y then x :: y :: r else y :: insert_by le x r
  end.

Fixpoint order_by {A : Type} (le : A -> A -> bool) (l : list A) : list A :=
  match l with
  | [] => []
  | x :: r => insert_by le x (order_by le r)
  end.

(** Comparison of two [TEXT] values (BINARY collation). *)
Definition asc {A : Type} (key : A -> string) (a b : A) : bool :=
  String.leb (key a) (key b).

Definition desc {A : Type} (key : A -> string) (a b : A) : bool :=
  String.leb (key b) (key a).

(** [WHERE col = ?] on a text column. *)
Definition where_eq {A : Type} (col : A -> string) (v : string) (l : list A) : list A :=
  filter (fun r => String.eqb (col r) v) l.

(** [DELETE FROM t WHERE col = ?] *)
Definition delete_where {A : Type} (col : A -> string) (v : string) (l : list A) : list A :=
  filter (fun r => negb (String.eqb (col r) v)) l.

(** [UPDATE t SET ... WHERE col = ?] *)
Definition update_where {A : Type} (col : A -> string) (v : string) (f : A -> A)
  (l : list A) : list A :=
  map (fun r => if String.eqb (col r) v then f r else r) l.

(** [getFirstAsync]: the first row of the result, or [null]. *)
Definition first_row {A : Type} (l : list A) : option A := hd_error l.

(** Does a row with this value of a PRIMARY KEY or UNIQUE column exist? *)
Definition taken {A : Type} (col : A -> string) (v : string) (l : list A) : bool :=
  existsb (fun r => String.eqb (col r) v) l.

#[global] Arguments taken : simpl never.
#[global] Arguments where_eq : simpl never.
#[global] Arguments delete_where : simpl never.
#[global] Arguments update_where : simpl never.
#[global] Arguments order_by : simpl never.
#[global] Arguments now_of : simpl never.

(** ** [class DatabaseService] *)

Module DatabaseService.

Definition isInitialized (w : World) : bool := db_handle (dbs w).

(** [if (!this.db) throw new Error("Database not initialized")] *)
Definition require_db : M unit :=
  fun w =>
    if isInitialized w then (Ok tt, w)
    else (Throw (Error "Database not initialized"), w).

(** [init]: on the web the handle stays [null]; elsewhere the file is opened
    and [createTables] runs, every statement of which is
    [CREATE ... IF NOT EXISTS] and keeps the rows that exist. *)
Definition init : M unit :=
  fun w =>
    match platform (dbs w) with
    | web => (Ok tt, set_handle false w)
    | native => (Ok tt, set_handle true w)
    end.

Definition ensureInitialized : M unit :=
  fun w =>
    match isInitialized w, platform (dbs w) with
    | false, native => init w
    | _, _ => (Ok tt, w)
    end.

(** [generateId]: the next identifier of the environment. *)
Definition generateId : M string :=
  fun w => (Ok (next_id w), draw w).

(** *** users *)

(** [INSERT INTO users]: [id] is the PRIMARY KEY and [email] is UNIQUE. *)
Definition insert_user (u : User) : M unit :=
  fun w =>
    if taken u_id (u_id u) (users (tables w)) then
      (Throw (Error "UNIQUE constraint failed: users.id"), w)
    else if taken u_email (u_email u) (users (tables w)) then
      (Throw (Error "UNIQUE constraint failed: users.email"), w)
    else
      (Ok tt, set_users (fun l => l ++ [u]) w).

(** [createUser(user)]: [user.createdAt] and [user.updatedAt] are not read,
    both columns receive [now]. *)
Definition createUser (email name : string) (role : Role) : M string :=
  require_db ;;
  id <- generateId ;;
  now <- new_Date ;;
  insert_user (mkUser id email name role now now) ;;
  ret id.

Definition getUserByEmail (email : string) : M (option User) :=
  require_db ;;
  gets (fun w => first_row (where_eq u_email email (users (tables w)))).

Definition getUserById (id : string) : M (option User) :=
  require_db ;;
  gets (fun w => first_row (where_eq u_id id (users (tables w)))).

(** *** projects *)

Definition insert_project (p : Project) : M unit :=
  fun w =>
    if taken p_id (p_id p) (projects (tables w)) then
      (Throw (Error "UNIQUE constraint failed: projects.id"), w)
    else
      (Ok tt, set_projects (fun l => l ++ [p]) w).

Definition createProject (name : string) (description : option string)
  (ownerId : string) (settings : json) : M string :=
  require_db ;;
  id <- generateId ;;
  now <- new_Date ;;
  insert_project (mkProject id name (or_empty description) ownerId settings now now) ;;
  ret id.

Definition getProjectsByUserId (userId : string) : M (list Project) :=
  ensureInitialized ;;
  fun w =>
    if isInitialized w then
      (Ok (order_by (desc p_createdAt) (where_eq p_ownerId userId (projects (tables w)))), w)
    else (Ok [], w).

Definition getProjectById (id : string) : M (option Project) :=
  ensureInitialized ;;
  fun w =>
    if isInitialized w then
      (Ok (first_row (where_eq p_id id (projects (tables w)))), w)
    else (Ok None, w).

(** *** reports *)

Definition insert_report (r : Report) : M unit :=
  fun w =>
    if taken r_id (r_id r) (reports (tables w)) then
      (Throw (Error "UNIQUE constraint failed: reports.id"), w)
    else
      (Ok tt, set_reports (fun l => l ++ [r]) w).

Definition createReport (projectId title : string) (description : option string)
  (fields permissions : json) (status : ReportStatus) (createdBy : string) : M string :=
  require_db ;;
  id <- generateId ;;
  now <- new_Date ;;
  insert_report (mkReport id projectId title (or_empty description) fields permissions
                   status now now createdBy) ;;
  ret id.

Definition getReportsByProjectId (projectId : string) : M (list Report) :=
  require_db ;;
  gets (fun w => order_by (desc r_createdAt) (where_eq r_projectId projectId (reports (tables w)))).

Definition getAllReports : M (list Report) :=
  ensureInitialized ;;
  fun w =>
    if isInitialized w then (Ok (order_by (desc r_createdAt) (reports (tables w))), w)
    else (Ok [], w).

Definition getReportById (id : string) : M (option Report) :=
  ensureInitialized ;;
  fun w =>
    if isInitialized w then
      (Ok (first_row (where_eq r_id id (reports (tables w)))), w)
    else (Ok None, w).

(** The [SET] clause that [updateReport] builds: one assignment for each of
    [title], [description], [fields], [permissions], [status] that is not
    [undefined], then [updated_at = now]. *)
Definition set_report (report : PartialReport) (now : string) (r : Report) : Report :=
  mkReport (r_id r) (r_projectId r)
    (match pr_title report with Some v => v | None => r_title r end)
    (match pr_description report with Some v => v | None => r_description r end)
    (match pr_fields report with Some v => v | None => r_fields r end)
    (match pr_permissions report with Some v => v | None => r_permissions r end)
    (match pr_status report with Some v => v | None => r_status r end)
    (r_createdAt r) now (r_createdBy r).

Definition updateReport (id : string) (report : PartialReport) : M unit :=
  ensureInitialized ;;
  require_db ;;
  now <- new_Date ;;
  modify (set_reports (update_where r_id id (set_report report now))).

(** [deleteReport]: the submissions of the report first, then the report. *)
Definition deleteReport (id : string) : M unit :=
  ensureInitialized ;;
  require_db ;;
  modify (set_submissions (delete_where s_reportId id)) ;;
  modify (set_reports (delete_where r_id id)).

(** *** report_submissions *)

Definition getSubmissionsByReportId (reportId : string) : M (list ReportSubmission) :=
  require_db ;;
  gets (fun w => order_by (desc s_lastModified)
                   (where_eq s_reportId reportId (report_submissions (tables w)))).

Definition insert_submission (s : ReportSubmission) : M unit :=
  fun w =>
    if taken s_id (s_id s) (report_submissions (tables w)) then
      (Throw (Error "UNIQUE constraint failed: report_submissions.id"), w)
    else
      (Ok tt, set_submissions (fun l => l ++ [s]) w).

(** [createSubmission(submission)]: [submission.lastModified] is not read,
    the column receives [now]; [submission.submittedAt || null]. *)
Definition createSubmission (reportId userId : string) (data : json)
  (status : SubmissionStatus) (submittedAt : option string) (version : Z)
  (isOffline : bool) (syncStatus : SyncStatus) : M string :=
  require_db ;;
  id <- generateId ;;
  now <- new_Date ;;
  insert_submission (mkSubmission id reportId userId data status (or_null submittedAt)
                       now version isOffline syncStatus) ;;
  ret id.

(** The [SET] clause that [updateSubmission] builds: one assignment for each
    of [data], [status], [submittedAt], [syncStatus] that is not [undefined],
    then [last_modified = now].  The other fields of the argument are not
    read. *)
Definition set_submission (data : PartialSubmission) (now : string)
  (s : ReportSubmission) : ReportSubmission :=
  mkSubmission (s_id s) (s_reportId s) (s_userId s)
    (match ps_data data with Some v => v | None => s_data s end)
    (match ps_status data with Some v => v | None => s_status s end)
    (match ps_submittedAt data with Some v => Some v | None => s_submittedAt s end)
    now (s_version s) (s_isOffline s)
    (match ps_syncStatus data with Some v => v | None => s_syncStatus s end).

Definition updateSubmission (id : string) (data : PartialSubmission) : M unit :=
  require_db ;;
  now <- new_Date ;;
  modify (set_submissions (update_where s_id id (set_submission data now))).

Definition getSubmissionsByUserId (userId : string) : M (list ReportSubmission) :=
  ensureInitialized ;;
  fun w =>
    if isInitialized w then
      (Ok (order_by (desc s_lastModified)
             (where_eq s_userId userId (report_submissions (tables w)))), w)
    else (Ok [], w).

(** *** sync_queue *)

(** [SELECT * FROM sync_queue WHERE attempts < 3 ORDER BY created_at ASC] *)
Definition getPendingSyncItems : M (list SyncQueue) :=
  require_db ;;
  gets (fun w => order_by (asc q_createdAt)
                   (filter (fun q => q_attempts q <? 3) (sync_queue (tables w)))).

Definition insert_sync_queue (q : SyncQueue) : M unit :=
  fun w =>
    if taken q_id (q_id q) (sync_queue (tables w)) then
      (Throw (Error "UNIQUE constraint failed: sync_queue.id"), w)
    else
      (Ok tt, set_queue (fun l => l ++ [q]) w).

(** [addToSyncQueue(item)]: [item.createdAt] is not read, the column receives
    [now]; [item.lastAttempt || null], [item.error || null]. *)
Definition addToSyncQueue (type : SyncType) (action : SyncAction) (entityId : string)
  (data : json) (attempts : Z) (lastAttempt error : option string) : M string :=
  require_db ;;
  id <- generateId ;;
  now <- new_Date ;;
  insert_sync_queue (mkSyncQueue id type action entityId data attempts
                       (or_null lastAttempt) (or_null error) now) ;;
  ret id.

(** [UPDATE sync_queue SET attempts = ?, last_attempt = ?, error = ?] *)
Definition set_attempt (attempts : Z) (now : string) (error : option string)
  (q : SyncQueue) : SyncQueue :=
  mkSyncQueue (q_id q) (q_type q) (q_action q) (q_entityId q) (q_data q)
    attempts (Some now) (or_null error) (q_createdAt q).

Definition updateSyncQueueItem (id : string) (attempts : Z) (error : option string) : M unit :=
  require_db ;;
  now <- new_Date ;;
  modify (set_queue (update_where q_id id (set_attempt attempts now error))).

Definition removeSyncQueueItem (id : string) : M unit :=
  require_db ;;
  modify (set_queue (delete_where q_id id)).

(** [clearAllData]: [DELETE FROM] each table. *)
Definition clearAllData : M unit :=
  require_db ;;
  modify (set_tables (fun _ => no_tables)).

Definition close : M unit :=
  fun w => if isInitialized w then (Ok tt, set_handle false w) else (Ok tt, w).

End DatabaseService.

(** ** [class SyncService] *)

Module SyncService.

Definition set_isOnline (b : bool) (w : World) : World :=
  set_sync (fun s => mkSyncService b (syncInProgress s) (syncInterval s)) w.

Definition set_syncInProgress (b : bool) (w : World) : World :=
  set_sync (fun s => mkSyncService (isOnline s) b (syncInterval s)) w.

Definition set_syncInterval (b : bool) (w : World) : World :=
  set_sync (fun s => mkSyncService (isOnline s) (syncInProgress s) b) w.

(** [clearInterval] of the timer, if one is armed. *)
Definition stopSync : M unit := modify (set_syncInterval false).

(** [scheduleSyncInterval]: the former timer is cleared, a new one armed. *)
Definition scheduleSyncInterval : M unit :=
  stopSync ;; modify (set_syncInterval true).

Definition baseUrl : string := "https://api.reportsapp.com".

(** The [default] branches of the two [switch]es are out of reach of a
    value of the union types. *)
Definition getEndpointForItem (item : SyncQueue) : string :=
  match q_type item with
  | t_submission => (baseUrl ++ "/submissions/" ++ q_entityId item)%string
  | t_report => (baseUrl ++ "/reports/" ++ q_entityId item)%string
  | t_user => (baseUrl ++ "/users/" ++ q_entityId item)%string
  | t_project => (baseUrl ++ "/projects/" ++ q_entityId item)%string
  end.

Definition getMethodForAction (action : SyncAction) : string :=
  match action with
  | a_create => "POST"
  | a_update => "PUT"
  | a_delete => "DELETE"
  end.

(** [makeHttpRequest]: the simulated request resolves when its draw of
    [Math.random()] is above 0.1 and rejects with
    [new Error('Network error')] otherwise; the arguments are not read. *)
Definition makeHttpRequest (url method : string) (data : json) : M unit :=
  fun w =>
    if next_outcome w then (Ok tt, request w)
    else (Throw (Error "Network error"), request w).

Definition syncItem (item : SyncQueue) : M unit :=
  makeHttpRequest (getEndpointForItem item) (getMethodForAction (q_action item)) (q_data item).

(** The body of the loop of [processSyncQueue]; every thrown value of the
    model is an [Error], so the recorded text is [error.message]. *)
Definition process_item (item : SyncQueue) : M unit :=
  try_catch
    (syncItem item ;;
     DatabaseService.removeSyncQueueItem (q_id item))
    (fun error =>
       DatabaseService.updateSyncQueueItem (q_id item) (q_attempts item + 1)
         (Some (message error))).

Definition processSyncQueue : M unit :=
  pendingItems <- DatabaseService.getPendingSyncItems ;;
  for_of pendingItems process_item.

Definition syncSubmission (submission : ReportSubmission) : M unit :=
  makeHttpRequest
    ("https://api.reportsapp.com/submissions/" ++ s_id submission)%string
    (if s_isOffline submission then "POST" else "PUT")
    (JObj [("reportId", JStr (s_reportId submission));
           ("userId", JStr (s_userId submission));
           ("data", s_data submission);
           ("status", JStr (SubmissionStatus_str (s_status submission)));
           ("submittedAt", match s_submittedAt submission with
                           | Some t => JStr t
                           | None => JNull
                           end);
           ("version", JNum (s_version submission))]).

(** The body of the loop of [syncPendingSubmissions]. *)
Definition sync_pending (submission : ReportSubmission) : M unit :=
  try_catch
    (syncSubmission submission ;;
     DatabaseService.updateSubmission (s_id submission) (only_syncStatus synced))
    (fun _ =>
       DatabaseService.updateSubmission (s_id submission) (only_syncStatus error)).

(** [syncPendingSubmissions]: the user is the literal ['current_user_id']
    (the source marks it [TODO: pegar ID do usuário atual]). *)
Definition syncPendingSubmissions : M unit :=
  submissions <- DatabaseService.getSubmissionsByUserId "current_user_id" ;;
  let pendingSubmissions :=
    filter (fun s => SyncStatus_eqb (s_syncStatus s) pending) submissions in
  for_of pendingSubmissions sync_pending.

(** [startSync], in two parts.  [startSync_launch] is what runs before the
    first [await]: the guard, [syncInProgress = true], and the check of the
    database, after which [finally] resets the flag when the pass is
    skipped.  It tells whether a pass is now in flight. *)
Definition startSync_launch (w : World) : World * bool :=
  if negb (isOnline (sync w)) || syncInProgress (sync w) then (w, false)
  else if negb (DatabaseService.isInitialized w) then
    (set_syncInProgress false (set_syncInProgress true w), false)
  else (set_syncInProgress true w, true).

(** The pass in flight: the rest of the [try] block, the [catch] that only
    logs, and the [finally]. *)
Definition startSync_pass : M unit :=
  finally
    (try_catch
       (processSyncQueue ;;
        syncPendingSubmissions ;;
        scheduleSyncInterval)
       (fun _ => ret tt))
    (set_syncInProgress false).

(** [await this.startSync()] *)
Definition startSync : M unit :=
  fun w =>
    let (w1, go) := startSync_launch w in
    if go then startSync_pass w1 else (Ok tt, w1).

(** [this.startSync()] without [await]: the promise is dropped; when a pass
    was launched it completes later, by [startSync_pass]. *)
Definition spawn_startSync : M unit :=
  fun w => (Ok tt, fst (startSync_launch w)).

(** The listener given to [NetInfo.addEventListener]; [isConnected] is
    [state.isConnected], a boolean or [null]. *)
Definition onNetInfo (isConnected : option bool) : M unit :=
  fun w =>
    let wasOffline := negb (isOnline (sync w)) in
    let online := match isConnected with Some b => b | None => false end in
    let w1 := set_isOnline online w in
    let w2 := if wasOffline && online then snd (spawn_startSync w1) else w1 in
    if negb online then stopSync w2 else (Ok tt, w2).

(** The callback of [setInterval], which runs while the timer is armed. *)
Definition onInterval : M unit :=
  fun w =>
    if syncInterval (sync w) then
      if isOnline (sync w) && negb (syncInProgress (sync w)) then spawn_startSync w
      else (Ok tt, w)
    else (Ok tt, w).

(** [addToSyncQueue]: [createdAt: new Date().toISOString()] is evaluated and
    then ignored by the store. *)
Definition addToSyncQueue (type : SyncType) (action : SyncAction) (entityId : string)
  (data : json) : M unit :=
  new_Date ;;
  DatabaseService.addToSyncQueue type action entityId data 0 None None ;;
  fun w =>
    if isOnline (sync w) && negb (syncInProgress (sync w)) then spawn_startSync w
    else (Ok tt, w).

(** The parameter [status: 'draft' | 'submitted']. *)
Inductive FillStatus : Type := fill_draft | fill_submitted.

Definition status_of (s : FillStatus) : SubmissionStatus :=
  match s with
  | fill_draft => draft
  | fill_submitted => submitted
  end.

(** [status === 'submitted' ? new Date().toISOString() : undefined] *)
Definition submittedAt_of (status : FillStatus) : M (option string) :=
  match status with
  | fill_submitted => now <- new_Date ;; ret (Some now)
  | fill_draft => ret None
  end.

(** The payload [{ reportId, userId, data, status, submittedAt }]. *)
Definition create_payload (reportId userId : string) (data : json) (status : FillStatus)
  (submittedAt : option string) : json :=
  JObj ([("reportId", JStr reportId);
         ("userId", JStr userId);
         ("data", data);
         ("status", JStr (SubmissionStatus_str (status_of status)))]
        ++ match submittedAt with
           | Some t => [("submittedAt", JStr t)]
           | None => []
           end).

Definition saveSubmissionOffline (reportId userId : string) (data : json)
  (status : FillStatus) : M string :=
  submittedAt <- submittedAt_of status ;;
  new_Date ;;
  submissionId <- DatabaseService.createSubmission reportId userId data (status_of status)
                    submittedAt 1 true pending ;;
  submittedAt' <- submittedAt_of status ;;
  addToSyncQueue t_submission a_create submissionId
    (create_payload reportId userId data status submittedAt') ;;
  ret submissionId.

(** [updateData] of [updateSubmissionOffline]. *)
Definition updateData_of (data : json) (status : option FillStatus)
  (submittedAt : option string) : PartialSubmission :=
  mkPartialSubmission None None None (Some data)
    (match status with Some s => Some (status_of s) | None => None end)
    submittedAt None None None (Some pending).

(** The payload [{ data, status }]. *)
Definition update_payload (data : json) (status : option FillStatus) : json :=
  JObj ([("data", data)]
        ++ match status with
           | Some s => [("status", JStr (SubmissionStatus_str (status_of s)))]
           | None => []
           end).

Definition updateSubmissionOffline (submissionId : string) (data : json)
  (status : option FillStatus) : M unit :=
  submittedAt <- match status with
                 | Some s => submittedAt_of s
                 | None => ret None
                 end ;;
  DatabaseService.updateSubmission submissionId (updateData_of data status submittedAt) ;;
  addToSyncQueue t_submission a_update submissionId (update_payload data status).

Definition isConnected (w : World) : bool := isOnline (sync w).

Definition forcSync : M unit :=
  fun w =>
    if negb (isOnline (sync w)) then (Throw (Error "Cannot sync while offline"), w)
    else startSync w.

Record SyncStats : Type := mkSyncStats {
  pendingItems : nat;
  failedItems : nat;
  lastSyncTime : option string
}.

Definition getSyncStats : M SyncStats :=
  pending_items <- DatabaseService.getPendingSyncItems ;;
  let failed_items := filter (fun item => q_attempts item >=? 3) pending_items in
  ret (mkSyncStats (List.length pending_items) (List.length failed_items) None).

Definition clearFailedSyncItems : M unit :=
  pendingItems <- DatabaseService.getPendingSyncItems ;;
  let failedItems := filter (fun item => q_attempts item >=? 3) pendingItems in
  for_of failedItems (fun item => DatabaseService.removeSyncQueueItem (q_id item)).

End SyncService.

(** ** [AuthProvider] of [src/contexts/AuthContext.tsx] *)

Module Auth.

Inductive AuthAction : Type :=
| SET_LOADING (payload : bool)
| LOGIN_SUCCESS (user : User) (token refreshToken : string)
| LOGOUT
| UPDATE_USER (payload : User).

Definition initialState : AuthState := mkAuthState false None None None.

Definition authReducer (st : AuthState) (action : AuthAction) : AuthState :=
  match action with
  | LOGIN_SUCCESS user tok refresh => mkAuthState true (Some user) (Some tok) (Some refresh)
  | LOGOUT => initialState
  | UPDATE_USER user => mkAuthState (isAuthenticated st) (Some user) (token st) (refreshToken st)
  | SET_LOADING _ => st
  end.

Definition dispatch (action : AuthAction) : M unit :=
  modify (set_authp (fun a => mkAuthProvider (authReducer (state a) action) (isLoading a)
                                (secure a))).

Definition setIsLoading (b : bool) : World -> World :=
  set_authp (fun a => mkAuthProvider (state a) b (secure a)).

(** The three [SecureStore.setItemAsync] of [login] and [register]. *)
Definition save_session (tok refresh : string) (user : User) : M unit :=
  modify (set_authp (fun a => mkAuthProvider (state a) (isLoading a)
                                (mkSecureStore (Some tok) (Some refresh) (Some user)))).

(** The end of [login] and [register]: the tokens are made from the clock,
    stored, and [LOGIN_SUCCESS] is dispatched.  No password is involved. *)
Definition open_session (user : User) : M unit :=
  t <- Date_now ;;
  r <- Date_now ;;
  let tok := ("token_" ++ t)%string in
  let refresh := ("refresh_" ++ r)%string in
  save_session tok refresh user ;;
  dispatch (LOGIN_SUCCESS user tok refresh).

(** [checkAuthState], run when the provider mounts: a stored token and a
    stored user restore the session; [refreshToken || '']. *)
Definition checkAuthState : M unit :=
  finally
    (fun w =>
       let store := secure (authp w) in
       match or_null (auth_token store), user_data store with
       | Some tok, Some user =>
           dispatch (LOGIN_SUCCESS user tok (or_empty (refresh_token store))) w
       | _, _ => (Ok tt, w)
       end)
    (setIsLoading false).

Definition login (credentials : LoginCredentials) : M unit :=
  modify (setIsLoading true) ;;
  finally
    (try_catch
       (found <- DatabaseService.getUserByEmail (lc_email credentials) ;;
        user <- match found with
                | Some u => ret (Some u)
                | None =>
                    new_Date ;;
                    new_Date ;;
                    userId <- DatabaseService.createUser (lc_email credentials)
                                (split_at_0 (lc_email credentials)) role_admin ;;
                    DatabaseService.getUserById userId
                end ;;
        match user with
        | None => throw (Error "Falha ao criar/encontrar usuário")
        | Some u => open_session u
        end)
       (fun error => throw error))
    (setIsLoading false).

Definition register (data : RegisterData) : M unit :=
  modify (setIsLoading true) ;;
  finally
    (try_catch
       (existingUser <- DatabaseService.getUserByEmail (rd_email data) ;;
        match existingUser with
        | Some _ => throw (Error "Usuário já existe com este email")
        | None =>
            new_Date ;;
            new_Date ;;
            userId <- DatabaseService.createUser (rd_email data) (rd_name data) role_user ;;
            user <- DatabaseService.getUserById userId ;;
            match user with
            | None => throw (Error "Falha ao criar usuário")
            | Some u => open_session u
            end
        end)
       (fun error => throw error))
    (setIsLoading false).

Definition logout : M unit :=
  modify (set_authp (fun a => mkAuthProvider (state a) (isLoading a)
                                (mkSecureStore None None None))) ;;
  dispatch LOGOUT.

Definition loginWithGoogle : M unit :=
  login (mkCredentials "google@example.com" "google").

Definition loginWithMicrosoft : M unit :=
  login (mkCredentials "microsoft@example.com" "microsoft").

End Auth.

(** ** The operations of the application

    Every public method of the store, of the sync service and of the
    provider, and the three events: the connectivity listener, the 30 s
    timer, and the completion of a pass that was launched without [await].
    [step] runs one operation from a state to its end, with nothing else
    running meanwhile; for [Sync_pass_completes] that is the pass reading
    the queue and the submissions as they are in that state. *)
Inductive Op : Type :=
| Db_init
| Db_close
| Db_clearAllData
| Db_createUser (email name : string) (role : Role)
| Db_getUserByEmail (email : string)
| Db_getUserById (id : string)
| Db_createProject (name : string) (description : option string) (ownerId : string)
    (settings : json)
| Db_getProjectsByUserId (userId : string)
| Db_getProjectById (id : string)
| Db_createReport (projectId title : string) (description : option string)
    (fields permissions : json) (status : ReportStatus) (createdBy : string)
| Db_getReportsByProjectId (projectId : string)
| Db_getAllReports
| Db_getReportById (id : string)
| Db_updateReport (id : string) (report : PartialReport)
| Db_deleteReport (id : string)
| Db_getSubmissionsByReportId (reportId : string)
| Db_createSubmission (reportId userId : string) (data : json) (status : SubmissionStatus)
    (submittedAt : option string) (version : Z) (isOffline : bool) (syncStatus : SyncStatus)
| Db_updateSubmission (id : string) (data : PartialSubmission)
| Db_getSubmissionsByUserId (userId : string)
| Db_getPendingSyncItems
| Db_addToSyncQueue (type : SyncType) (action : SyncAction) (entityId : string)
    (data : json) (attempts : Z) (lastAttempt error : option string)
| Db_updateSyncQueueItem (id : string) (attempts : Z) (error : option string)
| Db_removeSyncQueueItem (id : string)
| Sync_startSync
| Sync_pass_completes
| Sync_onNetInfo (isConnected : option bool)
| Sync_onInterval
| Sync_addToSyncQueue (type : SyncType) (action : SyncAction) (entityId : string)
    (data : json)
| Sync_saveSubmissionOffline (reportId userId : string) (data : json)
    (status : SyncService.FillStatus)
| Sync_updateSubmissionOffline (submissionId : string) (data : json)
    (status : option SyncService.FillStatus)
| Sync_forcSync
| Sync_getSyncStats
| Sync_clearFailedSyncItems
| Auth_checkAuthState
| Auth_login (credentials : LoginCredentials)
| Auth_register (data : RegisterData)
| Auth_logout
| Auth_loginWithGoogle
| Auth_loginWithMicrosoft.

(** The state after a computation, whether it returned or threw. *)
Definition after {A : Type} (m : M A) (w : World) : World := snd (m w).

Definition step (o : Op) (w : World) : World :=
  match o with
  | Db_init => after DatabaseService.init w
  | Db_close => after DatabaseService.close w
  | Db_clearAllData => after DatabaseService.clearAllData w
  | Db_createUser e n r => after (DatabaseService.createUser e n r) w
  | Db_getUserByEmail e => after (DatabaseService.getUserByEmail e) w
  | Db_getUserById i => after (DatabaseService.getUserById i) w
  | Db_createProject n d o s => after (DatabaseService.createProject n d o s) w
  | Db_getProjectsByUserId u => after (DatabaseService.getProjectsByUserId u) w
  | Db_getProjectById i => after (DatabaseService.getProjectById i) w
  | Db_createReport p t d f pm s c => after (DatabaseService.createReport p t d f pm s c) w
  | Db_getReportsByProjectId p => after (DatabaseService.getReportsByProjectId p) w
  | Db_getAllReports => after DatabaseService.getAllReports w
  | Db_getReportById i => after (DatabaseService.getReportById i) w
  | Db_updateReport i r => after (DatabaseService.updateReport i r) w
  | Db_deleteReport i => after (DatabaseService.deleteReport i) w
  | Db_getSubmissionsByReportId r => after (DatabaseService.getSubmissionsByReportId r) w
  | Db_createSubmission r u d s sa v o ss =>
      after (DatabaseService.createSubmission r u d s sa v o ss) w
  | Db_updateSubmission i d => after (DatabaseService.updateSubmission i d) w
  | Db_getSubmissionsByUserId u => after (DatabaseService.getSubmissionsByUserId u) w
  | Db_getPendingSyncItems => after DatabaseService.getPendingSyncItems w
  | Db_addToSyncQueue t a e d n la er =>
      after (DatabaseService.addToSyncQueue t a e d n la er) w
  | Db_updateSyncQueueItem i n e => after (DatabaseService.updateSyncQueueItem i n e) w
  | Db_removeSyncQueueItem i => after (DatabaseService.removeSyncQueueItem i) w
  | Sync_startSync => after SyncService.startSync w
  | Sync_pass_completes =>
      if syncInProgress (sync w) then after SyncService.startSync_pass w else w
  | Sync_onNetInfo c => after (SyncService.onNetInfo c) w
  | Sync_onInterval => after SyncService.onInterval w
  | Sync_addToSyncQueue t a e d => after (SyncService.addToSyncQueue t a e d) w
  | Sync_saveSubmissionOffline r u d s => after (SyncService.saveSubmissionOffline r u d s) w
  | Sync_updateSubmissionOffline i d s => after (SyncService.updateSubmissionOffline i d s) w
  | Sync_forcSync => after SyncService.forcSync w
  | Sync_getSyncStats => after SyncService.getSyncStats w
  | Sync_clearFailedSyncItems => after SyncService.clearFailedSyncItems w
  | Auth_checkAuthState => after Auth.checkAuthState w
  | Auth_login c => after (Auth.login c) w
  | Auth_register d => after (Auth.register d) w
  | Auth_logout => after Auth.logout w
  | Auth_loginWithGoogle => after Auth.loginWithGoogle w
  | Auth_loginWithMicrosoft => after Auth.loginWithMicrosoft w
  end.

(** A drain pass runs in these operations. *)
Definition is_sync (o : Op) : bool :=
  match o with
  | Sync_startSync | Sync_pass_completes | Sync_forcSync => true
  | _ => false
  end.

(** A local edit of an existing submission. *)
Definition is_local_edit (o : Op) : bool :=
  match o with
  | Sync_updateSubmissionOffline _ _ _ => true
  | _ => false
  end.

(** A direct call of the store's [updateSubmission]. *)
Definition is_direct_update (o : Op) : bool :=
  match o with
  | Db_updateSubmission _ _ => true
  | _ => false
  end.

(** ** Invariants of the store *)

(** [id] is the PRIMARY KEY of [report_submissions] and of [sync_queue]. *)
Definition submission_ids_unique (w : World) : Prop :=
  NoDup (map s_id (report_submissions (tables w))).

Definition queue_ids_unique (w : World) : Prop :=
  NoDup (map q_id (sync_queue (tables w))).

Definition ids_unique (w : World) : Prop :=
  submission_ids_unique w /\ queue_ids_unique w.

(** The submission with a given id, as the fill screen looks it up:
    [getSubmissionsByUserId(userId)] then [find(s => s.id === id)]. *)
Definition getById (userId id : string) : M (option ReportSubmission) :=
  l <- DatabaseService.getSubmissionsByUserId userId ;;
  ret (find (fun s => String.eqb (s_id s) id) l).

(** The active entries of the queue that refer to an entity. *)
Definition active_entries_for (entityId : string) (w : World) : list SyncQueue :=
  filter (fun q => (q_attempts q <? 3) && String.eqb (q_entityId q) entityId)
    (sync_queue (tables w)).

(** ** Sample states *)

Definition digit (n : nat) : string :=
  String (ascii_of_nat (48 + Nat.modulo n 10)) EmptyString.

Definition sample_clock (n : nat) : Instant :=
  mkInstant ("170000000000" ++ digit n) ("2024-01-01T00:00:0" ++ digit n ++ ".000Z").

Definition sample_id (n : nat) : string := ("lr" ++ digit n ++ "k0x")%string.

(** A device whose database is open and empty; [online] is the
    connectivity, [outcome] the outcome of each request. *)
Definition device (online : bool) (outcome : nat -> bool) : World :=
  mkWorld (mkDatabaseService native true no_tables)
    (mkSyncService online false false)
    (mkEnv sample_clock 0 sample_id 0 outcome 0)
    (mkAuthProvider Auth.initialState true (mkSecureStore None None None)).

(** The browser: no SQLite, and [init] has run. *)
Definition browser : World :=
  mkWorld (mkDatabaseService web false no_tables)
    (mkSyncService true false false)
    (mkEnv sample_clock 0 sample_id 0 (fun _ => true) 0)
    (mkAuthProvider Auth.initialState true (mkSecureStore None None None)).

Definition with_tables (t : Tables) (w : World) : World := set_tables (fun _ => t) w.

(** A queue entry that has failed three times. *)
Definition exhausted_entry : SyncQueue :=
  mkSyncQueue "q1" t_submission a_create "s1" (JObj []) 3
    (Some "2024-01-01T00:00:03.000Z") (Some "Network error") "2024-01-01T00:00:00.000Z".

Definition exhausted_world : World :=
  with_tables (mkTables [] [] [] [] [exhausted_entry]) (device true (fun _ => true)).

(** A pending draft of the user of the session, with its queue entry. *)
Definition ana : User :=
  mkUser "u1" "ana@example.com" "ana" role_admin
    "2024-01-01T00:00:00.000Z" "2024-01-01T00:00:00.000Z".

Definition ana_draft : ReportSubmission :=
  mkSubmission "s1" "r1" "u1" (JObj [("f1", JStr "hello")]) draft None
    "2024-01-01T00:00:01.000Z" 1 true pending.

Definition ana_entry : SyncQueue :=
  mkSyncQueue "q1" t_submission a_create "s1" (JObj []) 0 None None
    "2024-01-01T00:00:01.000Z".

Definition ana_world (outcome : nat -> bool) : World :=
  mkWorld (mkDatabaseService native true (mkTables [ana] [] [] [ana_draft] [ana_entry]))
    (mkSyncService true false false)
    (mkEnv sample_clock 0 sample_id 0 outcome 0)
    (mkAuthProvider (mkAuthState true (Some ana) (Some "token_1") (Some "refresh_1")) false
       (mkSecureStore (Some "token_1") (Some "refresh_1") (Some ana))).

(** A queue with an exhausted entry, a late entry and an early one. *)
Definition late_entry : SyncQueue :=
  mkSyncQueue "q2" t_report a_update "r7" (JObj []) 0 None None "2024-01-01T00:00:05.000Z".

Definition early_entry : SyncQueue :=
  mkSyncQueue "q3" t_submission a_update "s1" (JObj []) 2
    (Some "2024-01-01T00:00:04.000Z") (Some "Network error") "2024-01-01T00:00:02.000Z".

Definition queue_world (outcome : nat -> bool) : World :=
  with_tables (mkTables [] [] [] [] [exhausted_entry; late_entry; early_entry])
    (device true outcome).

(** A pending submission whose [userId] is the literal that
    [syncPendingSubmissions] queries, a report, and the submission after a
    pass whose request resolved. *)
Definition literal_submission : ReportSubmission :=
  mkSubmission "s9" "r1" "current_user_id" (JObj []) submitted
    (Some "2024-01-01T00:00:01.000Z") "2024-01-01T00:00:01.000Z" 1 true pending.

Definition sample_report : Report :=
  mkReport "r1" "p1" "Inspection" "" (JArr []) (JObj []) report_active
    "2024-01-01T00:00:00.000Z" "2024-01-01T00:00:00.000Z" "u1".

Definition literal_world : World :=
  with_tables (mkTables [ana] [] [sample_report] [literal_submission] [])
    (device true (fun _ => true)).

Definition literal_submission_synced : ReportSubmission :=
  mkSubmission "s9" "r1" "current_user_id" (JObj []) submitted
    (Some "2024-01-01T00:00:01.000Z") "2024-01-01T00:00:00.000Z" 1 true synced.

(** A draft saved online while every request fails, after the pass that the
    save launched and two more passes. *)
Definition three_failures : World :=
  step Sync_startSync
    (step Sync_startSync
       (step Sync_pass_completes
          (step (Sync_saveSubmissionOffline "r1" "u1" (JObj []) SyncService.fill_draft)
             (device true (fun _ => false))))).

(** ** Notions used in the proofs *)

Ltac open_world w :=
  destruct w as [[?pl ?h [?us ?ps ?rs ?ss ?qs]] [?on ?ip ?iv] [?ck ?tk ?ig ?dr ?nt ?rq]
                 [?st ?il ?se]].

(** Unfolds the operations down to the tables; the queries on the tables
    stay folded. *)
Ltac crunch :=
  cbv beta iota zeta delta
    [bind ret throw try_catch finally modify gets after fst snd
     tables set_tables set_handle set_dbs set_sync set_env set_authp
     set_users set_projects set_reports set_submissions set_queue with_tables with_net
     tick draw request now_of next_id next_outcome new_Date Date_now
     dbs sync env authp platform db_handle reports_db
     users projects reports report_submissions sync_queue no_tables
     isOnline syncInProgress syncInterval
     clock ticks idgen drawn net requests state isLoading secure
     DatabaseService.isInitialized DatabaseService.require_db DatabaseService.init
     DatabaseService.ensureInitialized DatabaseService.generateId
     DatabaseService.insert_user DatabaseService.createUser
     DatabaseService.getUserByEmail DatabaseService.getUserById
     DatabaseService.insert_project DatabaseService.createProject
     DatabaseService.getProjectsByUserId DatabaseService.getProjectById
     DatabaseService.insert_report DatabaseService.createReport
     DatabaseService.getReportsByProjectId DatabaseService.getAllReports
     DatabaseService.getReportById DatabaseService.updateReport
     DatabaseService.deleteReport DatabaseService.getSubmissionsByReportId
     DatabaseService.insert_submission DatabaseService.createSubmission
     DatabaseService.updateSubmission DatabaseService.getSubmissionsByUserId
     DatabaseService.getPendingSyncItems DatabaseService.insert_sync_queue
     DatabaseService.addToSyncQueue DatabaseService.updateSyncQueueItem
     DatabaseService.removeSyncQueueItem DatabaseService.clearAllData
     DatabaseService.close
     SyncService.set_isOnline SyncService.set_syncInProgress SyncService.set_syncInterval
     SyncService.stopSync SyncService.scheduleSyncInterval
     SyncService.makeHttpRequest SyncService.syncItem SyncService.process_item
     SyncService.syncSubmission SyncService.sync_pending
     SyncService.startSync_launch SyncService.spawn_startSync
     SyncService.onNetInfo SyncService.onInterval SyncService.addToSyncQueue
     SyncService.submittedAt_of SyncService.saveSubmissionOffline
     SyncService.updateSubmissionOffline SyncService.isConnected
     SyncService.getSyncStats
     Auth.dispatch Auth.setIsLoading Auth.save_session Auth.open_session
     Auth.checkAuthState Auth.login Auth.register Auth.logout Auth.loginWithGoogle Auth.loginWithMicrosoft
     negb andb orb];
  cbn [u_id u_email u_name u_role u_createdAt u_updatedAt
       p_id r_id s_id s_reportId s_userId s_data s_status s_submittedAt s_lastModified
       s_version s_isOffline s_syncStatus
       q_id q_type q_action q_entityId q_data q_attempts q_lastAttempt q_error q_createdAt
       or_null SyncService.status_of lc_email lc_password rd_email rd_name rd_password].


(** What one entry of the pass leaves of the state. *)
Record item_step (item : SyncQueue) (w w1 : World) : Prop := mk_item_step {
  is_ok : SyncService.process_item item w = (Ok tt, w1);
  is_open : DatabaseService.isInitialized w1 = true;
  is_requests : requests (env w1) = S (requests (env w));
  is_net : net (env w1) = net (env w);
  is_clock : clock (env w1) = clock (env w);
  is_ticks : (ticks (env w) <= ticks (env w1))%nat;
  is_others : forall q, In q (sync_queue (tables w)) -> q_id q <> q_id item ->
                In q (sync_queue (tables w1));
  is_ids : forall i, In i (map q_id (sync_queue (tables w1))) ->
             In i (map q_id (sync_queue (tables w)));
  is_removed : next_outcome w = true -> ~ In (q_id item) (map q_id (sync_queue (tables w1)));
  is_retried : next_outcome w = false -> In item (sync_queue (tables w)) ->
                 In (DatabaseService.set_attempt (q_attempts item + 1) (now_of w) (Some "Network error") item)
                   (sync_queue (tables w1))
}.

(** Case analysis on every test that the unfolded operation makes. *)
Ltac case_split :=
  repeat (crunch;
          match goal with
          | |- context [match ?c with _ => _ end] =>
              lazymatch c with
              | context [match _ with _ => _ end] => fail
              | _ => destruct c eqn:?
              end
          end);
  crunch.

(** One row before and after the loop of [syncPendingSubmissions] over the
    submissions with the given ids: only [lastModified] and [syncStatus] may
    differ, and [syncStatus] only for those ids. *)
Definition synced_by (ids : list string) (s s' : ReportSubmission) : Prop :=
  s_id s' = s_id s
  /\ s_userId s' = s_userId s
  /\ (s' = s
      \/ (In (s_id s) ids /\ (s_syncStatus s' = synced \/ s_syncStatus s' = error))).

(** One row before and after a drain pass. *)
Definition pushed_by_pass (s s' : ReportSubmission) : Prop :=
  s_id s' = s_id s
  /\ (s' = s
      \/ (s_syncStatus s = pending /\ s_userId s = "current_user_id"
          /\ (s_syncStatus s' = synced \/ s_syncStatus s' = error))).

(** ** Further notions *)

(** An entry of the queue after a pass, against the entry it comes from:
    the same entry, or the entry after one more failed attempt. *)
Definition attempt_step (q q' : SyncQueue) : Prop :=
  q_id q' = q_id q /\ q_type q' = q_type q /\ q_action q' = q_action q
  /\ q_entityId q' = q_entityId q /\ q_data q' = q_data q
  /\ q_createdAt q' = q_createdAt q
  /\ (q' = q \/ (q_attempts q < 3 /\ q_attempts q' = q_attempts q + 1)).

(** The entries that [processSyncQueue] sends, in the order it sends them. *)
Definition active_entries (w : World) : list SyncQueue :=
  order_by (asc q_createdAt) (filter (fun q => q_attempts q <? 3) (sync_queue (tables w))).

(** The submissions that [syncPendingSubmissions] pushes. *)
Definition pushed_submissions (w : World) : list ReportSubmission :=
  filter (fun s => SyncStatus_eqb (s_syncStatus s) pending)
    (order_by (desc s_lastModified)
       (where_eq s_userId "current_user_id" (report_submissions (tables w)))).

(** One iteration of either loop of a pass on an open database: it returns,
    makes one request, and keeps the database open and the flags. *)
Definition one_request (body : M unit) : Prop :=
  forall w, DatabaseService.isInitialized w = true ->
    fst (body w) = Ok tt
    /\ DatabaseService.isInitialized (after body w) = true
    /\ requests (env (after body w)) = S (requests (env w))
    /\ sync (after body w) = sync w.

(** What the first loop of a pass keeps, from the queue of [w0] on: every
    entry of the current queue comes from an entry of [w0], and every
    exhausted entry of [w0] is still there. *)
Definition queue_inv (w0 w : World) : Prop :=
  (forall q', In q' (sync_queue (tables w)) ->
     exists q, In q (sync_queue (tables w0)) /\ attempt_step q q')
  /\ (forall q, In q (sync_queue (tables w0)) -> 3 <= q_attempts q ->
        In q (sync_queue (tables w))).

(** The columns of a submission that no operation should change. *)
Definition same_identity (s s' : ReportSubmission) : Prop :=
  s_id s' = s_id s /\ s_reportId s' = s_reportId s /\ s_userId s' = s_userId s
  /\ s_version s' = s_version s /\ s_isOffline s' = s_isOffline s.

(** [report_submissions] after an operation: the same rows up to a relation
    that keeps the id, or one more row under a new id, or fewer rows. *)
Inductive evolves_by (R : ReportSubmission -> ReportSubmission -> Prop)
  (l : list ReportSubmission) : list ReportSubmission -> Prop :=
| by_rows (l' : list ReportSubmission) : Forall2 R l l' -> evolves_by R l l'
| by_insert (x : ReportSubmission) : taken s_id (s_id x) l = false -> evolves_by R l (l ++ [x])
| by_delete (p : ReportSubmission -> bool) : evolves_by R l (filter p l).

(** ** [ProfileScreen] of [src/screens/ProfileScreen.tsx] *)

Module ProfileScreen.

(** [handleSync]: the alert that is shown, as [(title, message)]. *)
Definition handleSync : World -> (string * string) * World :=
  fun w =>
    if negb (SyncService.isConnected w) then
      (("Erro", "Você está offline. Conecte-se à internet para sincronizar."), w)
    else
      match SyncService.forcSync w with
      | (Ok _, w1) => (("Sucesso", "Sincronização concluída com sucesso!"), w1)
      | (Throw _, w1) => (("Erro", "Falha na sincronização. Tente novamente."), w1)
      end.

End ProfileScreen.

(** ** A new process

    What a restart of the application keeps is the database file and the
    secure store; the fields of the three objects start from the values
    their declarations give them: [db = null], [isOnline = false],
    [syncInProgress = false], [syncInterval = null], [initialState] and
    [isLoading = true]. *)
Definition restart (w : World) : World :=
  mkWorld (mkDatabaseService (platform (dbs w)) false (reports_db (dbs w)))
    (mkSyncService false false false)
    (env w)
    (mkAuthProvider Auth.initialState true (secure (authp w))).

(** ** [FillReportScreen] of [src/screens/FillReportScreen.tsx]

    The handlers that load and save a draft.  A handler reads the values of
    the hooks of the render it was created in, which is the argument
    [Screen]; the handlers run one after the other.  The 30 s timer of the
    component, [handleFieldChange], [validateForm] and [handleSubmit]
    (which goes through [validateForm], whose outcome rests on JavaScript's
    property lookup in the form data) are not part of the model. *)

Module FillReportScreen.

(** The component: the two parameters of the route, the values of its
    [useState] hooks, the alerts it has shown as [(title, message)], oldest
    first, and whether it called [navigation.goBack()]. *)
Record Screen : Type := mkScreen {
  reportId : string;
  submissionId : option string;
  loading : bool;
  saving : bool;
  report : option Report;
  submission : option ReportSubmission;
  formData : json;
  alerts : list (string * string);
  wentBack : bool
}.

(** The component when it mounts. *)
Definition mount (reportId : string) (submissionId : option string) : Screen :=
  mkScreen reportId submissionId true false None None (JObj []) [] false.

Definition setLoading (b : bool) (sc : Screen) : Screen :=
  mkScreen (reportId sc) (submissionId sc) b (saving sc) (report sc) (submission sc)
    (formData sc) (alerts sc) (wentBack sc).

Definition setSaving (b : bool) (sc : Screen) : Screen :=
  mkScreen (reportId sc) (submissionId sc) (loading sc) b (report sc) (submission sc)
    (formData sc) (alerts sc) (wentBack sc).

Definition setReport (r : Report) (sc : Screen) : Screen :=
  mkScreen (reportId sc) (submissionId sc) (loading sc) (saving sc) (Some r) (submission sc)
    (formData sc) (alerts sc) (wentBack sc).

Definition setSubmission (s : ReportSubmission) (sc : Screen) : Screen :=
  mkScreen (reportId sc) (submissionId sc) (loading sc) (saving sc) (report sc) (Some s)
    (formData sc) (alerts sc) (wentBack sc).

Definition setFormData (data : json) (sc : Screen) : Screen :=
  mkScreen (reportId sc) (submissionId sc) (loading sc) (saving sc) (report sc)
    (submission sc) data (alerts sc) (wentBack sc).

(** [Alert.alert(title, message)] *)
Definition alert (title message : string) (sc : Screen) : Screen :=
  mkScreen (reportId sc) (submissionId sc) (loading sc) (saving sc) (report sc)
    (submission sc) (formData sc) (alerts sc ++ [(title, message)]) (wentBack sc).

(** [navigation.goBack()] *)
Definition goBack (sc : Screen) : Screen :=
  mkScreen (reportId sc) (submissionId sc) (loading sc) (saving sc) (report sc)
    (submission sc) (formData sc) (alerts sc) true.

(** [s => s.reportId === reportData.id && s.status === 'draft'] *)
Definition is_draft_of (reportData : Report) (s : ReportSubmission) : bool :=
  String.eqb (s_reportId s) (r_id reportData) && SubmissionStatus_eqb (s_status s) draft.

(** [loadReportAndSubmission], run when the component mounts.  With a
    [submissionId] in the route nothing is loaded (the source leaves it as a
    TODO); without one, the first draft of the user for this report is. *)
Definition loadReportAndSubmission (sc : Screen) (w : World) : Screen * World :=
  match DatabaseService.getReportById (reportId sc) w with
  | (Throw _, w1) => (setLoading false (alert "Erro" "Falha ao carregar relatório" sc), w1)
  | (Ok None, w1) =>
      (setLoading false (goBack (alert "Erro" "Relatório não encontrado" sc)), w1)
  | (Ok (Some reportData), w1) =>
      let sc1 := setReport reportData sc in
      if truthy (submissionId sc) then (setLoading false sc1, w1)
      else
        match auth_user (state (authp w)) with
        | None => (setLoading false sc1, w1)
        | Some user =>
            match DatabaseService.getSubmissionsByUserId (u_id user) w1 with
            | (Throw _, w2) =>
                (setLoading false (alert "Erro" "Falha ao carregar relatório" sc1), w2)
            | (Ok userSubmissions, w2) =>
                match find (is_draft_of reportData) userSubmissions with
                | Some draftSubmission =>
                    (setLoading false
                       (setFormData (s_data draftSubmission)
                          (setSubmission draftSubmission sc1)), w2)
                | None => (setLoading false sc1, w2)
                end
            end
        end
  end.

(** [autoSave]: the [catch] only logs. *)
Definition autoSave (sc : Screen) (w : World) : Result unit * (Screen * World) :=
  match report sc, auth_user (state (authp w)) with
  | Some r, Some user =>
      match submission sc with
      | Some s =>
          match SyncService.updateSubmissionOffline (s_id s) (formData sc) None w with
          | (Ok _, w1) => (Ok tt, (sc, w1))
          | (Throw _, w1) => (Ok tt, (sc, w1))
          end
      | None =>
          match SyncService.saveSubmissionOffline (r_id r) (u_id user) (formData sc)
                  SyncService.fill_draft w with
          | (Throw _, w1) => (Ok tt, (sc, w1))
          | (Ok submissionId, w1) =>
              match DatabaseService.getSubmissionsByUserId (u_id user) w1 with
              | (Throw _, w2) => (Ok tt, (sc, w2))
              | (Ok newSubmission, w2) =>
                  match find (fun s => String.eqb (s_id s) submissionId) newSubmission with
                  | Some createdSubmission =>
                      (Ok tt, (setSubmission createdSubmission sc, w2))
                  | None => (Ok tt, (sc, w2))
                  end
              end
          end
      end
  | _, _ => (Ok tt, (sc, w))
  end.

(** [handleSaveDraft], the button "Salvar Rascunho". *)
Definition handleSaveDraft (sc : Screen) (w : World) : Screen * World :=
  match report sc, auth_user (state (authp w)) with
  | Some _, Some _ =>
      match autoSave (setSaving true sc) w with
      | (Ok _, (sc1, w1)) =>
          (setSaving false (alert "Sucesso" "Rascunho salvo com sucesso!" sc1), w1)
      | (Throw _, (sc1, w1)) =>
          (setSaving false (alert "Erro" "Falha ao salvar rascunho" sc1), w1)
      end
  | _, _ => (sc, w)
  end.

End FillReportScreen.

(** ** More sample states *)

(** A device whose database holds rows and has been closed. *)
Definition closed_device : World := snd (DatabaseService.close literal_world).

(** The user [ana] signed in on a device that holds a report, without and
    with a draft of hers for it; and the form of that report, filled. *)
Definition ana_signed_in : World :=
  with_tables (mkTables [ana] [] [sample_report] [] []) (ana_world (fun _ => true)).

Definition ana_with_draft : World :=
  with_tables (mkTables [ana] [] [sample_report] [ana_draft] [ana_entry])
    (ana_world (fun _ => true)).

Definition sample_form : FillReportScreen.Screen :=
  FillReportScreen.mkScreen "r1" None false false (Some sample_report) None
    (JObj [("f1", JStr "hello")]) [] false.

Definition carla : RegisterData :=
  mkRegisterData "carla@example.com" "secret" "Carla".

(** A queue that already holds the id that the second [generateId] of a
    save will draw. *)
Definition clashing_entry : SyncQueue :=
  mkSyncQueue "lr1k0x" t_report a_update "r7" (JObj []) 0 None None
    "2024-01-01T00:00:00.000Z".

Definition clash_world : World :=
  with_tables (mkTables [] [] [] [] [clashing_entry]) (device true (fun _ => true)).

(** ** The requests of a pass

    A pass that runs from [w] on an open database makes one request for
    each entry that [getPendingSyncItems] lists, in that order, and then one
    for each pending submission that [getSubmissionsByUserId] lists for
    ['current_user_id'], in that order ([active_entries] and
    [pushed_submissions]). *)

(** The place of the first submission with a given id in a list. *)
Fixpoint index_of (id : string) (l : list ReportSubmission) : option nat :=
  match l with
  | [] => None
  | x :: r =>
      if String.eqb (s_id x) id then Some 0%nat
      else match index_of id r with
           | Some k => Some (S k)
           | None => None
           end
  end.

(** The outcome of the request that a pass run from [w] makes for a
    submission, when it makes one. *)
Definition push_outcome (w : World) (s : ReportSubmission) : option bool :=
  match index_of (s_id s) (pushed_submissions w) with
  | Some k =>
      Some (net (env w) (requests (env w) + List.length (active_entries w) + k)%nat)
  | None => None
  end.

(** Does the operation run a pass from [w]?  [startSync] and [forcSync] do
    when the service is online, no pass is in flight and the database is
    open; the completion of a pass in flight does when the database is
    open. *)
Definition runs_pass (o : Op) (w : World) : bool :=
  match o with
  | Sync_startSync | Sync_forcSync =>
      isOnline (sync w) && negb (syncInProgress (sync w)) && DatabaseService.isInitialized w
  | Sync_pass_completes => syncInProgress (sync w) && DatabaseService.isInitialized w
  | _ => false
  end.

(** [syncStatus] of a stored submission after an operation run from [w]: a
    pass sets it by the outcome of the request it makes for the submission;
    a local edit of the submission sets it to [pending]; a direct
    [updateSubmission] sets it to what its argument carries; nothing else
    changes it. *)
Definition status_after (o : Op) (w : World) (s : ReportSubmission) : SyncStatus :=
  match o with
  | Sync_startSync | Sync_forcSync | Sync_pass_completes =>
      if runs_pass o w then
        match push_outcome w s with
        | Some true => synced
        | Some false => error
        | None => s_syncStatus s
        end
      else s_syncStatus s
  | Sync_updateSubmissionOffline i _ _ =>
      if DatabaseService.isInitialized w && String.eqb (s_id s) i then pending
      else s_syncStatus s
  | Db_updateSubmission i d =>
      if DatabaseService.isInitialized w && String.eqb (s_id s) i then
        match ps_syncStatus d with
        | Some st => st
        | None => s_syncStatus s
        end
      else s_syncStatus s
  | _ => s_syncStatus s
  end.

(** One row before and after the loop of [syncPendingSubmissions] over the
    list [L], whose first request is the request number [R]. *)
Definition pushed_row (outcome : nat -> bool) (R : nat) (L : list ReportSubmission)
  (s s' : ReportSubmission) : Prop :=
  s_id s' = s_id s
  /\ s_syncStatus s' = match index_of (s_id s) L with
                       | Some k => if outcome (R + k)%nat then synced else error
                       | None => s_syncStatus s
                       end.

(** The state after [n] passes, each run to its end. *)
Fixpoint passes (n : nat) (w : World) : World :=
  match n with
  | O => w
  | S m => after SyncService.startSync_pass (passes m w)
  end.

(** One row before and after a pass run from [w]. *)
Definition pass_row (w : World) (s s' : ReportSubmission) : Prop :=
  s_id s' = s_id s
  /\ s_syncStatus s' = match push_outcome w s with
                       | Some true => synced
                       | Some false => error
                       | None => s_syncStatus s
                       end.

(** One row before and after an operation run from [w]. *)
Definition op_row (o : Op) (w : World) (s s' : ReportSubmission) : Prop :=
  s_id s' = s_id s /\ s_syncStatus s' = status_after o w s.

(** The draft of [three_failures], saved while every request resolves,
    after the same passes. *)
Definition three_successes : World :=
  step Sync_startSync
    (step Sync_startSync
       (step Sync_pass_completes
          (step (Sync_saveSubmissionOffline "r1" "u1" (JObj []) SyncService.fill_draft)
             (device true (fun _ => true))))).

(** [literal_submission] after a pass whose request failed. *)
Definition literal_submission_failed : ReportSubmission :=
  mkSubmission "s9" "r1" "current_user_id" (JObj []) submitted
    (Some "2024-01-01T00:00:01.000Z") "2024-01-01T00:00:00.000Z" 1 true error.

(** Projects of two owners and submissions of two users to two reports,
    stored out of the order of their timestamps. *)
Definition project_old : Project :=
  mkProject "p1" "Roads" "" "u1" (JObj []) "2024-01-01T00:00:01.000Z"
    "2024-01-01T00:00:01.000Z".

Definition project_other : Project :=
  mkProject "p2" "Bridges" "" "u2" (JObj []) "2024-01-01T00:00:02.000Z"
    "2024-01-01T00:00:02.000Z".

Definition project_new : Project :=
  mkProject "p3" "Parks" "" "u1" (JObj []) "2024-01-01T00:00:03.000Z"
    "2024-01-01T00:00:03.000Z".

Definition other_submission : ReportSubmission :=
  mkSubmission "s2" "r1" "u2" (JObj []) submitted (Some "2024-01-01T00:00:02.000Z")
    "2024-01-01T00:00:02.000Z" 1 true pending.

Definition late_submission : ReportSubmission :=
  mkSubmission "s3" "r2" "u1" (JObj []) draft None "2024-01-01T00:00:03.000Z" 1 true
    pending.

Definition listing_world : World :=
  with_tables
    (mkTables [ana] [project_old; project_other; project_new] [sample_report]
       [ana_draft; other_submission; late_submission] [])
    (device true (fun _ => true)).

(** * Properties *)

(** ** SQL on a table *)

Section OrderBy.

Context {A : Type} (le : A -> A -> bool).

Hypothesis le_total : forall a b, le a b = true \/ le b a = true.

Lemma insert_by_perm (x : A) (l : list A) : Permutation (insert_by le x l) (x :: l).
Proof.
  induction l as [|y r IH]; simpl.
  - apply Permutation_refl.
  - destruct (le x y).
    + apply Permutation_refl.
    + eapply perm_trans; [apply perm_skip, IH | apply perm_swap].
Qed.

Lemma order_by_perm (l : list A) : Permutation (order_by le l) l.
Proof.
  induction l as [|x r IH]; simpl.
  - apply perm_nil.
  - eapply perm_trans; [apply insert_by_perm | apply perm_skip, IH].
Qed.

Lemma insert_by_HdRel (a x : A) (l : list A) :
  le a x = true ->
  HdRel (fun a b => le a b = true) a l ->
  HdRel (fun a b => le a b = true) a (insert_by le x l).
Proof.
  intros Hax Hl. destruct l as [|y r]; simpl.
  - constructor. exact Hax.
  - destruct (le x y); constructor.
    + exact Hax.
    + inversion Hl; assumption.
Qed.

Lemma insert_by_sorted (x : A) (l : list A) :
  Sorted (fun a b => le a b = true) l ->
  Sorted (fun a b => le a b = true) (insert_by le x l).
Proof.
  induction l as [|y r IH]; simpl; intros Hs.
  - repeat constructor.
  - destruct (le x y) eqn:Hxy.
    + constructor; [exact Hs | constructor; exact Hxy].
    + inversion Hs as [|? ? Hr Hhd]; subst.
      constructor; [apply IH; exact Hr|].
      apply insert_by_HdRel; [|exact Hhd].
      destruct (le_total x y) as [H|H]; [congruence | exact H].
Qed.

Lemma order_by_sorted (l : list A) :
  Sorted (fun a b => le a b = true) (order_by le l).
Proof.
  induction l as [|x r IH]; simpl.
  - constructor.
  - apply insert_by_sorted, IH.
Qed.

Lemma order_by_In (x : A) (l : list A) : In x (order_by le l) <-> In x l.
Proof.
  split; apply Permutation_in; [|apply Permutation_sym]; apply order_by_perm.
Qed.

End OrderBy.

Lemma String_leb_trans (s1 s2 s3 : string) :
  String.leb s1 s2 = true -> String.leb s2 s3 = true -> String.leb s1 s3 = true.
Proof.
  unfold String.leb. revert s2 s3.
  induction s1 as [|c1 r1 IH]; intros [|c2 r2] [|c3 r3]; simpl; try congruence.
  unfold Ascii.compare.
  destruct (N.compare_spec (N_of_ascii c1) (N_of_ascii c2)) as [E12|L12|G12];
  destruct (N.compare_spec (N_of_ascii c2) (N_of_ascii c3)) as [E23|L23|G23];
  try congruence.
  - rewrite E12, E23, N.compare_refl. apply IH.
  - rewrite E12. intros _ _. apply N.compare_lt_iff in L23. rewrite L23. reflexivity.
  - rewrite <- E23. intros _ _. apply N.compare_lt_iff in L12. rewrite L12. reflexivity.
  - intros _ _. assert (H : (N_of_ascii c1 < N_of_ascii c3)%N) by lia.
    apply N.compare_lt_iff in H. rewrite H. reflexivity.
Qed.

Lemma asc_total {A : Type} (key : A -> string) (a b : A) :
  asc key a b = true \/ asc key b a = true.
Proof. apply String.leb_total. Qed.

Lemma desc_total {A : Type} (key : A -> string) (a b : A) :
  desc key a b = true \/ desc key b a = true.
Proof. apply String.leb_total. Qed.

Lemma taken_false_iff {A : Type} (col : A -> string) (v : string) (l : list A) :
  taken col v l = false <-> ~ In v (map col l).
Proof.
  unfold taken. induction l as [|x r IH]; simpl.
  - tauto.
  - rewrite orb_false_iff, IH, String.eqb_neq. tauto.
Qed.

Lemma where_eq_In {A : Type} (col : A -> string) (v : string) (l : list A) (x : A) :
  In x (where_eq col v l) <-> In x l /\ col x = v.
Proof. unfold where_eq. rewrite filter_In, String.eqb_eq. tauto. Qed.

Lemma where_eq_absent {A : Type} (col : A -> string) (v : string) (l : list A) :
  taken col v l = false -> where_eq col v l = [].
Proof.
  unfold taken, where_eq. induction l as [|x r IH]; simpl; [reflexivity|].
  intros H. apply orb_false_iff in H as [Hx Hr]. rewrite Hx. auto.
Qed.

Lemma update_where_absent {A : Type} (col : A -> string) (v : string) (f : A -> A)
  (l : list A) :
  taken col v l = false -> update_where col v f l = l.
Proof.
  unfold taken, update_where. induction l as [|x r IH]; simpl; [reflexivity|].
  intros H. apply orb_false_iff in H as [Hx Hr]. rewrite Hx. f_equal. auto.
Qed.

Lemma delete_where_ids {A : Type} (col : A -> string) (v : string) (l : list A) :
  ~ In v (map col (delete_where col v l)).
Proof.
  unfold delete_where. intros H. apply in_map_iff in H as (x & Hx & Hin).
  apply filter_In in Hin as [_ Hne]. subst v. rewrite String.eqb_refl in Hne. discriminate.
Qed.

(** A selection of the rows of a table with unique keys has unique keys. *)
Lemma unique_keys_filter {Row : Type} (key : Row -> string) (keep : Row -> bool) :
  forall rows : list Row,
    NoDup (map key rows) -> NoDup (map key (filter keep rows)).
Proof.
  intros rows. induction rows as [|x r IH]; simpl; intros H; [constructor|].
  inversion H as [|? ? Hn Hr]; subst. destruct (keep x); simpl; auto.
  constructor; auto. intros Hin. apply Hn.
  apply in_map_iff in Hin as (y & Hy & Hin). apply filter_In in Hin as [Hin _].
  apply in_map_iff. eauto.
Qed.

(** Two rows of a table with the same key are the same row. *)
Lemma same_key_same_row {Row : Type} (key : Row -> string) (rows : list Row) :
  NoDup (map key rows) ->
  forall x y : Row, In x rows -> In y rows -> key x = key y -> x = y.
Proof.
  induction rows as [|a r IH]; simpl; intros Hnd x y Hx Hy Hf; [contradiction|].
  inversion Hnd as [|? ? Hn Hr]; subst.
  destruct Hx as [->|Hx], Hy as [->|Hy]; auto.
  - exfalso. apply Hn. rewrite Hf. apply in_map, Hy.
  - exfalso. apply Hn. rewrite <- Hf. apply in_map, Hx.
Qed.

(** ** The store when the database is open *)

Lemma require_db_ok (w : World) :
  DatabaseService.isInitialized w = true -> DatabaseService.require_db w = (Ok tt, w).
Proof. unfold DatabaseService.require_db. intros ->. reflexivity. Qed.

Lemma getPendingSyncItems_ok (w : World) :
  DatabaseService.isInitialized w = true ->
  DatabaseService.getPendingSyncItems w =
  (Ok (order_by (asc q_createdAt)
         (filter (fun q => q_attempts q <? 3) (sync_queue (tables w)))), w).
Proof.
  intros H. unfold DatabaseService.getPendingSyncItems, bind.
  rewrite (require_db_ok w H). reflexivity.
Qed.

(** *** C7 *)

(** C7. [getPendingSyncItems] ([listActive(3)]) on an open database returns
    exactly the entries of the queue whose [attempts] is below 3, each as
    often as it is stored, in non-decreasing order of [createdAt], and
    leaves the store as it was: the entries at or above the cap are not
    returned and stay in [sync_queue]. *)
Theorem getPendingSyncItems_active_fifo (w : World) :
  DatabaseService.isInitialized w = true ->
  exists l,
    DatabaseService.getPendingSyncItems w = (Ok l, w)
    /\ Permutation l (filter (fun q => q_attempts q <? 3) (sync_queue (tables w)))
    /\ (forall q, In q l <-> In q (sync_queue (tables w)) /\ q_attempts q < 3)
    /\ StronglySorted (fun a b => String.leb (q_createdAt a) (q_createdAt b) = true) l.
Proof.
  intros H. eexists. split; [apply getPendingSyncItems_ok, H|].
  split; [apply order_by_perm|]. split.
  - intros q. rewrite order_by_In, filter_In, Z.ltb_lt. tauto.
  - apply Sorted_StronglySorted.
    + intros a b c. apply String_leb_trans.
    + apply (order_by_sorted (asc q_createdAt)). intros a b. apply asc_total.
Qed.

(** ** The queue *)

Lemma filter_none {A : Type} (p : A -> bool) (l : list A) :
  (forall x, In x l -> p x = false) -> filter p l = [].
Proof.
  induction l as [|x r IH]; simpl; intros H; [reflexivity|].
  rewrite (H x (or_introl eq_refl)). apply IH. intros y Hy. apply H. right. exact Hy.
Qed.

(** No entry that [getPendingSyncItems] returns has reached the cap. *)
Lemma no_failed_among_pending (l : list SyncQueue) :
  filter (fun item => q_attempts item >=? 3)
    (order_by (asc q_createdAt) (filter (fun q => q_attempts q <? 3) l)) = [].
Proof.
  apply filter_none. intros x Hx.
  apply order_by_In, filter_In in Hx as [_ Hx].
  apply Z.ltb_lt in Hx. rewrite Z.geb_leb. apply Z.leb_gt. lia.
Qed.

(** [clearFailedSyncItems] removes nothing, whatever the queue holds. *)
Lemma clearFailedSyncItems_changes_nothing (w : World) :
  DatabaseService.isInitialized w = true ->
  SyncService.clearFailedSyncItems w = (Ok tt, w).
Proof.
  intros H. unfold SyncService.clearFailedSyncItems, bind.
  rewrite (getPendingSyncItems_ok w H), no_failed_among_pending. reflexivity.
Qed.

(** [getSyncStats] counts no failed item, whatever the queue holds. *)
Lemma getSyncStats_failedItems (w : World) :
  DatabaseService.isInitialized w = true ->
  exists n, SyncService.getSyncStats w = (Ok (SyncService.mkSyncStats n 0 None), w).
Proof.
  intros H. unfold SyncService.getSyncStats, bind.
  rewrite (getPendingSyncItems_ok w H), no_failed_among_pending. eexists. reflexivity.
Qed.

(** *** C1 *)

(** C1. A queue that holds one entry with [attempts = 3]: after
    [clearFailedSyncItems] the entry is still in [sync_queue], where the
    specification wants every entry with [attempts >= 3] deleted. *)
Theorem clearFailedSyncItems_keeps_exhausted :
  q_attempts exhausted_entry >= 3
  /\ sync_queue (tables exhausted_world) = [exhausted_entry]
  /\ fst (SyncService.clearFailedSyncItems exhausted_world) = Ok tt
  /\ sync_queue (tables (after SyncService.clearFailedSyncItems exhausted_world))
     = [exhausted_entry].
Proof.
  unfold after. rewrite clearFailedSyncItems_changes_nothing by reflexivity.
  repeat split. simpl. lia.
Qed.

(** *** One entry of a drain pass *)

Lemma process_item_success (item : SyncQueue) (w : World) :
  DatabaseService.isInitialized w = true ->
  next_outcome w = true ->
  SyncService.process_item item w
  = (Ok tt, set_queue (delete_where q_id (q_id item)) (request w)).
Proof.
  open_world w. unfold next_outcome. cbn. intros -> Hn.
  unfold SyncService.process_item, SyncService.syncItem, SyncService.makeHttpRequest,
    try_catch, bind, next_outcome. cbn. rewrite Hn. reflexivity.
Qed.

Lemma process_item_failure (item : SyncQueue) (w : World) :
  DatabaseService.isInitialized w = true ->
  next_outcome w = false ->
  SyncService.process_item item w
  = (Ok tt,
     set_queue (update_where q_id (q_id item)
                  (DatabaseService.set_attempt (q_attempts item + 1) (now_of w) (Some "Network error")))
       (tick (request w))).
Proof.
  open_world w. unfold next_outcome. cbn. intros -> Hn.
  unfold SyncService.process_item, SyncService.syncItem, SyncService.makeHttpRequest,
    try_catch, bind, next_outcome. cbn. rewrite Hn. reflexivity.
Qed.

Lemma update_where_ids {A : Type} (col : A -> string) (v : string) (f : A -> A)
  (l : list A) :
  (forall r, col (f r) = col r) -> map col (update_where col v f l) = map col l.
Proof.
  intros Hf. unfold update_where. rewrite map_map. apply map_ext.
  intros r. destruct (String.eqb (col r) v); auto.
Qed.

Lemma update_where_other {A : Type} (col : A -> string) (v : string) (f : A -> A)
  (l : list A) (r : A) :
  In r l -> col r <> v -> In r (update_where col v f l).
Proof.
  intros Hin Hne. unfold update_where. apply in_map_iff. exists r. split; [|exact Hin].
  apply String.eqb_neq in Hne. rewrite Hne. reflexivity.
Qed.

Lemma update_where_hit {A : Type} (col : A -> string) (f : A -> A) (l : list A) (r : A) :
  In r l -> In (f r) (update_where col (col r) f l).
Proof.
  intros Hin. unfold update_where. apply in_map_iff. exists r. split; [|exact Hin].
  rewrite String.eqb_refl. reflexivity.
Qed.

Lemma delete_where_other {A : Type} (col : A -> string) (v : string) (l : list A) (r : A) :
  In r l -> col r <> v -> In r (delete_where col v l).
Proof.
  intros Hin Hne. unfold delete_where. apply filter_In. split; [exact Hin|].
  apply String.eqb_neq in Hne. rewrite Hne. reflexivity.
Qed.

Lemma delete_where_sub {A : Type} (col : A -> string) (v : string) (l : list A) (i : string) :
  In i (map col (delete_where col v l)) -> In i (map col l).
Proof.
  unfold delete_where. intros H. apply in_map_iff in H as (x & Hx & Hin).
  apply filter_In in Hin as [Hin _]. apply in_map_iff. eauto.
Qed.

Lemma process_item_step (item : SyncQueue) (w : World) :
  DatabaseService.isInitialized w = true ->
  exists w1, item_step item w w1.
Proof.
  intros H. destruct (next_outcome w) eqn:Hn.
  - eexists. constructor; [apply process_item_success; assumption | ..];
      open_world w; cbn in *; auto; try congruence.
    + intros q Hq Hne. apply delete_where_other; assumption.
    + apply delete_where_sub.
    + intros _. apply delete_where_ids.
  - eexists. constructor; [apply process_item_failure; assumption | ..];
      open_world w; cbn in *; auto; try congruence.
    + intros q Hq Hne. apply update_where_other; assumption.
    + intros i. rewrite update_where_ids; auto.
    + intros _ Hin. apply (update_where_hit q_id) with (r := item). exact Hin.
Qed.

(** The loop of [processSyncQueue] over entries with distinct ids: the
    [k]-th entry makes the [k]-th request of the loop, is deleted when the
    request resolves, and is kept with its attempt recorded otherwise. *)
Lemma for_of_process_items (L : list SyncQueue) : forall w : World,
  DatabaseService.isInitialized w = true ->
  NoDup (map q_id L) ->
  exists w',
    for_of L SyncService.process_item w = (Ok tt, w')
    /\ DatabaseService.isInitialized w' = true
    /\ net (env w') = net (env w)
    /\ clock (env w') = clock (env w)
    /\ (forall q, In q (sync_queue (tables w)) -> ~ In (q_id q) (map q_id L) ->
          In q (sync_queue (tables w')))
    /\ (forall i, In i (map q_id (sync_queue (tables w'))) ->
          In i (map q_id (sync_queue (tables w))))
    /\ (forall k item, nth_error L k = Some item ->
          (net (env w) (requests (env w) + k)%nat = true ->
             ~ In (q_id item) (map q_id (sync_queue (tables w'))))
          /\ (net (env w) (requests (env w) + k)%nat = false ->
              In item (sync_queue (tables w)) ->
              exists n, (ticks (env w) <= n)%nat
                /\ In (DatabaseService.set_attempt (q_attempts item + 1)
                         (iso (clock (env w) n)) (Some "Network error") item)
                     (sync_queue (tables w')))).
Proof.
  induction L as [|x L IH]; intros w Hopen Hnd.
  - exists w. simpl. repeat split; auto; destruct k; discriminate.
  - simpl in Hnd. inversion Hnd as [|? ? Hx HL]; subst.
    destruct (process_item_step x w Hopen) as [w1 S1].
    destruct (IH w1 (is_open _ _ _ S1) HL)
      as (w' & Hrun & Hopen' & Hnet & Hclock & Hothers & Hids & Hk).
    exists w'. simpl. unfold bind at 1. rewrite (is_ok _ _ _ S1).
    split; [exact Hrun|]. split; [exact Hopen'|].
    split; [rewrite Hnet; apply (is_net _ _ _ S1)|].
    split; [rewrite Hclock; apply (is_clock _ _ _ S1)|].
    split; [|split].
    + intros q Hq Hnot. apply Hothers.
      * apply (is_others _ _ _ S1); auto.
      * intros Hin. apply Hnot. right. exact Hin.
    + intros i Hi. apply (is_ids _ _ _ S1), Hids, Hi.
    + intros [|k] item Hnth; simpl in Hnth.
      * injection Hnth as <-. rewrite Nat.add_0_r. split.
        -- intros Hn Hin. apply (is_removed _ _ _ S1 Hn), Hids, Hin.
        -- intros Hn Hin. exists (ticks (env w)). split; [lia|].
           apply Hothers; [apply (is_retried _ _ _ S1 Hn Hin) | exact Hx].
      * destruct (Hk k item Hnth) as [Hgood Hbad].
        rewrite (is_net _ _ _ S1), (is_requests _ _ _ S1) in Hgood, Hbad.
        rewrite (is_clock _ _ _ S1) in Hbad.
        replace (requests (env w) + S k)%nat with (S (requests (env w)) + k)%nat by lia.
        split; [exact Hgood|].
        intros Hn Hin.
        assert (Hne : q_id item <> q_id x).
        { intros E. apply Hx. rewrite <- E. apply in_map.
          eapply nth_error_In; eassumption. }
        destruct (Hbad Hn (is_others _ _ _ S1 item Hin Hne)) as (n & Hle & Hin').
        exists n. split; [|exact Hin'].
        pose proof (is_ticks _ _ _ S1). lia.
Qed.

Lemma pending_ids_unique (l : list SyncQueue) :
  NoDup (map q_id l) ->
  NoDup (map q_id (order_by (asc q_createdAt) (filter (fun q => q_attempts q <? 3) l))).
Proof.
  intros H. eapply Permutation_NoDup.
  - apply Permutation_map, Permutation_sym, order_by_perm.
  - apply unique_keys_filter, H.
Qed.

(** *** C8 *)

(** C8. A drain pass over a queue with unique ids: the [k]-th entry that
    [getPendingSyncItems] returns makes the [k]-th request of the pass; when
    the request resolves no row with its id is left in [sync_queue]; when it
    fails the entry is kept with [attempts] one higher, [lastAttempt] a
    reading of the clock, [error] the message of the failure, and every
    other column as it was. *)
Theorem processSyncQueue_records_attempts (w : World) :
  DatabaseService.isInitialized w = true ->
  queue_ids_unique w ->
  exists pendingItems w',
    DatabaseService.getPendingSyncItems w = (Ok pendingItems, w)
    /\ SyncService.processSyncQueue w = (Ok tt, w')
    /\ forall k item, nth_error pendingItems k = Some item ->
         (net (env w) (requests (env w) + k)%nat = true ->
            ~ In (q_id item) (map q_id (sync_queue (tables w'))))
         /\ (net (env w) (requests (env w) + k)%nat = false ->
             exists n, (ticks (env w) <= n)%nat
               /\ In (mkSyncQueue (q_id item) (q_type item) (q_action item) (q_entityId item)
                        (q_data item) (q_attempts item + 1)
                        (Some (iso (clock (env w) n))) (Some "Network error")
                        (q_createdAt item))
                    (sync_queue (tables w'))).
Proof.
  intros Hopen Hnd.
  destruct (for_of_process_items _ w Hopen (pending_ids_unique _ Hnd))
    as (w' & Hrun & _ & _ & _ & _ & _ & Hk).
  eexists. exists w'. split; [apply getPendingSyncItems_ok, Hopen|].
  split.
  - unfold SyncService.processSyncQueue, bind.
    rewrite (getPendingSyncItems_ok w Hopen). exact Hrun.
  - intros k item Hnth. destruct (Hk k item Hnth) as [Hgood Hbad].
    split; [exact Hgood|]. intros Hn. apply Hbad; [exact Hn|].
    apply nth_error_In in Hnth. apply order_by_In, filter_In in Hnth. tauto.
Qed.

(** ** Saving a submission *)

Lemma find_the_one {A : Type} (p : A -> bool) (l : list A) (x : A) :
  In x l -> p x = true -> (forall y, In y l -> p y = true -> y = x) -> find p l = Some x.
Proof.
  induction l as [|a r IH]; simpl; intros Hin Hp Huniq; [contradiction|].
  destruct (p a) eqn:Hpa.
  - f_equal. apply Huniq; auto.
  - destruct Hin as [->|Hin]; [congruence|]. apply IH; auto.
Qed.

Lemma filter_app_one {A : Type} (p : A -> bool) (l : list A) (x : A) :
  (forall y, In y l -> p y = false) -> p x = true -> filter p (l ++ [x]) = [x].
Proof.
  intros Hl Hx. rewrite filter_app, (filter_none p l Hl). simpl. rewrite Hx. reflexivity.
Qed.

(** What [saveSubmissionOffline] leaves when the two identifiers it draws
    are new: the submission and its queue entry are appended, and no request
    has been made. *)
Lemma saveSubmissionOffline_run (reportId userId : string) (data : json)
  (status : SyncService.FillStatus) (w : World) :
  DatabaseService.isInitialized w = true ->
  taken s_id (next_id w) (report_submissions (tables w)) = false ->
  taken q_id (next_id (draw w)) (sync_queue (tables w)) = false ->
  let w1 := after (SyncService.saveSubmissionOffline reportId userId data status) w in
  exists submittedAt lastModified payload createdAt,
    (forall outcome,
       SyncService.saveSubmissionOffline reportId userId data status (with_net outcome w)
       = (Ok (next_id w), with_net outcome w1))
    /\ DatabaseService.isInitialized w1 = true
    /\ report_submissions (tables w1)
       = report_submissions (tables w)
         ++ [mkSubmission (next_id w) reportId userId data (SyncService.status_of status)
               submittedAt lastModified 1 true pending]
    /\ sync_queue (tables w1)
       = sync_queue (tables w)
         ++ [mkSyncQueue (next_id (draw w)) t_submission a_create (next_id w) payload 0
               None None createdAt]
    /\ requests (env w1) = requests (env w).
Proof.
  open_world w. crunch. intros -> Hs Hq.
  destruct status, on, ip; rewrite Hs, Hq; do 4 eexists;
    (split; [intros outcome; reflexivity|]);
    repeat split; reflexivity.
Qed.

Lemma with_net_same (w : World) : with_net (net (env w)) w = w.
Proof. open_world w. reflexivity. Qed.

(** *** C6 *)

(** C6. [saveSubmissionOffline] on an open database, when the identifier
    drawn for the submission is new in [report_submissions] and is the
    [entityId] of no queue entry, and the identifier drawn for the entry is
    new in [sync_queue]: the call returns the submission id; looking the
    submission up by that id right away yields a submission holding the
    data given, with [syncStatus = pending]; and the active entries of the
    queue for that id are exactly one entry, with [type = submission],
    [action = create], [entityId] the new id and [attempts = 0]. *)
Theorem saveDraft_then_getById (reportId userId : string) (data : json)
  (status : SyncService.FillStatus) (w : World) :
  DatabaseService.isInitialized w = true ->
  taken s_id (next_id w) (report_submissions (tables w)) = false ->
  taken q_id (next_id (draw w)) (sync_queue (tables w)) = false ->
  taken q_entityId (next_id w) (sync_queue (tables w)) = false ->
  exists w1 s q,
    SyncService.saveSubmissionOffline reportId userId data status w = (Ok (next_id w), w1)
    /\ fst (getById userId (next_id w) w1) = Ok (Some s)
    /\ s_id s = next_id w /\ s_reportId s = reportId /\ s_userId s = userId
    /\ s_data s = data /\ s_status s = SyncService.status_of status
    /\ s_syncStatus s = pending
    /\ active_entries_for (next_id w) w1 = [q]
    /\ q_type q = t_submission /\ q_action q = a_create
    /\ q_entityId q = next_id w /\ q_attempts q = 0.
Proof.
  intros Hopen Hs Hq He.
  destruct (saveSubmissionOffline_run reportId userId data status w Hopen Hs Hq)
    as (sa & lm & pl & ca & Hrun & Hopen1 & Hsubs & Hqueue & _).
  set (w1 := after (SyncService.saveSubmissionOffline reportId userId data status) w) in *.
  specialize (Hrun (net (env w))). rewrite with_net_same in Hrun. clearbody w1.
  exists (with_net (net (env w)) w1).
  exists (mkSubmission (next_id w) reportId userId data (SyncService.status_of status)
            sa lm 1 true pending).
  exists (mkSyncQueue (next_id (draw w)) t_submission a_create (next_id w) pl 0
            None None ca).
  split; [exact Hrun|].
  assert (Hsubs' : report_submissions (tables (with_net (net (env w)) w1))
                   = report_submissions (tables w1)) by (open_world w1; reflexivity).
  assert (Hqueue' : sync_queue (tables (with_net (net (env w)) w1))
                    = sync_queue (tables w1)) by (open_world w1; reflexivity).
  assert (Hopen' : DatabaseService.isInitialized (with_net (net (env w)) w1) = true)
    by (open_world w1; exact Hopen1).
  split; [|repeat split].
  - unfold getById, bind, DatabaseService.getSubmissionsByUserId, bind,
      DatabaseService.ensureInitialized.
    rewrite Hopen'. cbn [fst ret]. rewrite Hopen'. unfold ret. cbn [fst].
    rewrite Hsubs', Hsubs. f_equal.
    apply find_the_one.
    + apply order_by_In, where_eq_In. split; [|reflexivity].
      apply in_or_app. right. left. reflexivity.
    + apply String.eqb_refl.
    + intros y Hy Hid. apply order_by_In, where_eq_In in Hy as [Hy _].
      apply String.eqb_eq in Hid.
      apply in_app_or in Hy as [Hy|[Hy|[]]]; [|symmetry; exact Hy].
      exfalso. apply (proj1 (taken_false_iff s_id _ _) Hs).
      rewrite <- Hid. apply in_map, Hy.
  - unfold active_entries_for. rewrite Hqueue', Hqueue.
    apply filter_app_one.
    + intros y Hy. apply andb_false_iff. right. apply String.eqb_neq. intros E.
      apply (proj1 (taken_false_iff q_entityId _ _) He). rewrite <- E. apply in_map, Hy.
    + cbn [q_attempts q_entityId]. rewrite String.eqb_refl. reflexivity.
Qed.

(** ** Transport failures *)

(** A drain pass never throws: the [catch] of [startSync] only logs. *)
Lemma startSync_pass_returns (w : World) : fst (SyncService.startSync_pass w) = Ok tt.
Proof.
  unfold SyncService.startSync_pass, finally, try_catch.
  destruct (bind SyncService.processSyncQueue _ w) as [[[]|e] w1]; reflexivity.
Qed.

Lemma startSync_returns (w : World) : fst (SyncService.startSync w) = Ok tt.
Proof.
  unfold SyncService.startSync.
  destruct (SyncService.startSync_launch w) as [w1 []];
    [apply startSync_pass_returns | reflexivity].
Qed.

(** After three failed passes the entry of a saved draft is stored with
    [attempts = 3] and the error, and is no longer listed as active; the
    draft is still [pending], and [getSyncStats] counts no failed item. *)
Example three_failures_scenario :
  sync_queue (tables three_failures)
  = [mkSyncQueue "lr1k0x" t_submission a_create "lr0k0x"
       (JObj [("reportId", JStr "r1"); ("userId", JStr "u1"); ("data", JObj []);
              ("status", JStr "draft")])
       3 (Some "2024-01-01T00:00:06.000Z") (Some "Network error")
       "2024-01-01T00:00:03.000Z"]
  /\ fst (DatabaseService.getPendingSyncItems three_failures) = Ok []
  /\ map s_syncStatus (report_submissions (tables three_failures)) = [pending]
  /\ fst (SyncService.getSyncStats three_failures) = Ok (SyncService.mkSyncStats 0 0 None).
Proof. repeat split. Qed.

(** What [updateSubmissionOffline] leaves when the identifier it draws for
    the queue entry is new. *)
Lemma updateSubmissionOffline_run (submissionId : string) (data : json)
  (status : option SyncService.FillStatus) (w : World) :
  DatabaseService.isInitialized w = true ->
  taken q_id (next_id w) (sync_queue (tables w)) = false ->
  let w1 := after (SyncService.updateSubmissionOffline submissionId data status) w in
  (forall outcome,
     SyncService.updateSubmissionOffline submissionId data status (with_net outcome w)
     = (Ok tt, with_net outcome w1))
  /\ requests (env w1) = requests (env w).
Proof.
  open_world w. crunch. intros -> Hq.
  destruct status as [[]|], on, ip; crunch; rewrite Hq; split; reflexivity.
Qed.

(** ** The transitions of [syncStatus] *)

Lemma Forall2_same {A : Type} (R : A -> A -> Prop) (l : list A) :
  (forall x, R x x) -> Forall2 R l l.
Proof. intros H. induction l; constructor; auto. Qed.

Lemma Forall2_compose {A : Type} (R S T : A -> A -> Prop) (a b c : list A) :
  (forall x y z, R x y -> S y z -> T x z) ->
  Forall2 R a b -> Forall2 S b c -> Forall2 T a c.
Proof.
  intros H Hab. revert c. induction Hab as [|x y a b Hxy Hab IH]; intros c Hbc.
  - inversion Hbc. constructor.
  - inversion Hbc as [|? z ? c' Hyz Hbc']; subst. constructor; eauto.
Qed.

Lemma Forall2_In_impl {A : Type} (R S : A -> A -> Prop) (a b : list A) :
  (forall x y, In x a -> R x y -> S x y) -> Forall2 R a b -> Forall2 S a b.
Proof.
  intros H Hab. induction Hab as [|x y a b Hxy Hab IH]; constructor.
  - apply H; [left; reflexivity | exact Hxy].
  - apply IH. intros u v Hu. apply H. right. exact Hu.
Qed.

Lemma update_where_Forall2 {A : Type} (R : A -> A -> Prop) (col : A -> string)
  (v : string) (f : A -> A) (l : list A) :
  (forall r, R r r) -> (forall r, col r = v -> R r (f r)) ->
  Forall2 R l (update_where col v f l).
Proof.
  intros Hrefl Hf. unfold update_where. induction l as [|x r IH]; simpl; constructor; auto.
  destruct (String.eqb (col x) v) eqn:E; [apply Hf, String.eqb_eq, E | apply Hrefl].
Qed.

(** Rows related one by one, with their ids kept, in a table with unique
    ids: two rows with the same id are related. *)
Lemma Forall2_by_id (R : ReportSubmission -> ReportSubmission -> Prop)
  (l l' : list ReportSubmission) :
  (forall s s', R s s' -> s_id s' = s_id s) ->
  NoDup (map s_id l) -> Forall2 R l l' ->
  forall s s', In s l -> In s' l' -> s_id s = s_id s' -> R s s'.
Proof.
  intros Hid Hnd H. induction H as [|a a' r r' Ha Hr IH]; intros s s' Hs Hs' E.
  - contradiction.
  - simpl in Hnd. inversion Hnd as [|? ? Hnot Hnd']; subst.
    assert (Hids : map s_id r' = map s_id r).
    { clear -Hr Hid. induction Hr; simpl; f_equal; auto. }
    destruct Hs as [->|Hs], Hs' as [->|Hs'].
    + exact Ha.
    + exfalso. apply Hnot. rewrite E, <- Hids. apply in_map, Hs'.
    + exfalso. apply Hnot. rewrite <- (Hid _ _ Ha), <- E. apply in_map, Hs.
    + apply IH; auto.
Qed.

(** *** The loops of a pass *)

Lemma for_of_invariant {A : Type} (P : World -> Prop) (body : A -> M unit) (L : list A) :
  (forall x w, In x L -> P w -> P (after (body x) w)) ->
  forall w, P w -> P (after (for_of L body) w).
Proof.
  induction L as [|x L IH]; intros Hbody w Hw; [exact Hw|].
  unfold after. simpl. unfold bind at 1.
  pose proof (Hbody x w (or_introl eq_refl) Hw) as H1. unfold after in H1.
  destruct (body x w) as [[[]|e] w1]; simpl in H1.
  - apply IH; [|exact H1]. intros y w' Hy. apply Hbody. right. exact Hy.
  - exact H1.
Qed.

Lemma process_item_submissions (item : SyncQueue) (w : World) :
  report_submissions (tables (after (SyncService.process_item item) w))
  = report_submissions (tables w).
Proof.
  open_world w. crunch. destruct (nt rq), h; reflexivity.
Qed.

Lemma processSyncQueue_submissions (w : World) :
  report_submissions (tables (after SyncService.processSyncQueue w))
  = report_submissions (tables w).
Proof.
  unfold SyncService.processSyncQueue, after, bind.
  destruct (DatabaseService.getPendingSyncItems w) as [[L|e] w1] eqn:E.
  - assert (w1 = w) as ->.
    { revert E. open_world w. crunch. destruct h; congruence. }
    apply (for_of_invariant
             (fun w' => report_submissions (tables w') = report_submissions (tables w))).
    + intros x w' _ Hw'. rewrite process_item_submissions. exact Hw'.
    + reflexivity.
  - revert E. open_world w. crunch. destruct h; [discriminate|].
    intros E. injection E as _ <-. reflexivity.
Qed.

Lemma sync_pending_rows (x : ReportSubmission) (w : World) :
  Forall2 (synced_by [s_id x]) (report_submissions (tables w))
    (report_submissions (tables (after (SyncService.sync_pending x) w))).
Proof.
  assert (Hsame : forall r, synced_by [s_id x] r r) by (intros r; repeat split; auto).
  open_world w. crunch.
  destruct (nt rq), h; crunch; try (apply Forall2_same, Hsame);
    apply update_where_Forall2; auto; intros r Hr; repeat split;
    right; (split; [left; symmetry; exact Hr|]); auto.
Qed.

Lemma synced_by_compose (ids : list string) (i : string) (a b c : ReportSubmission) :
  In i ids -> synced_by ids a b -> synced_by [i] b c -> synced_by ids a c.
Proof.
  intros Hi (Hid & Hu & Hab) (Hid' & Hu' & Hbc).
  split; [congruence|]. split; [congruence|].
  destruct Hbc as [->|[[Hin|[]] Hst]]; [exact Hab|].
  right. split; [rewrite <- Hid, <- Hin; exact Hi | exact Hst].
Qed.

Lemma for_of_sync_pending_rows (L : list ReportSubmission) (w : World) :
  Forall2 (synced_by (map s_id L)) (report_submissions (tables w))
    (report_submissions (tables (after (for_of L SyncService.sync_pending) w))).
Proof.
  apply (for_of_invariant
           (fun w' => Forall2 (synced_by (map s_id L)) (report_submissions (tables w))
                        (report_submissions (tables w')))).
  - intros x w' Hx Hw'.
    eapply Forall2_compose; [|exact Hw'|apply (sync_pending_rows x w')].
    intros a b c. apply synced_by_compose. apply in_map, Hx.
  - apply Forall2_same. intros r. repeat split; auto.
Qed.

Lemma getSubmissionsByUserId_cases (userId : string) (w : World) :
  exists L w1,
    DatabaseService.getSubmissionsByUserId userId w = (Ok L, w1)
    /\ tables w1 = tables w
    /\ forall x, In x L -> In x (report_submissions (tables w)) /\ s_userId x = userId.
Proof.
  open_world w. crunch. destruct h; [|destruct pl]; do 2 eexists;
    (split; [reflexivity|]); (split; [reflexivity|]); intros x Hx;
    try contradiction; apply order_by_In, where_eq_In in Hx; exact Hx.
Qed.

Lemma SyncStatus_eqb_eq (a b : SyncStatus) : SyncStatus_eqb a b = true <-> a = b.
Proof. destruct a, b; simpl; split; congruence. Qed.

(** [syncPendingSubmissions] changes only rows that were pending and belong
    to ['current_user_id']. *)
Lemma syncPendingSubmissions_rows (w : World) :
  exists L,
    (forall x, In x L ->
       In x (report_submissions (tables w))
       /\ s_syncStatus x = pending /\ s_userId x = "current_user_id")
    /\ Forall2 (synced_by (map s_id L)) (report_submissions (tables w))
         (report_submissions (tables (after SyncService.syncPendingSubmissions w))).
Proof.
  destruct (getSubmissionsByUserId_cases "current_user_id" w) as (L & w1 & E & Ht & HL).
  exists (filter (fun s => SyncStatus_eqb (s_syncStatus s) pending) L). split.
  - intros x Hx. apply filter_In in Hx as [Hx Hp]. apply SyncStatus_eqb_eq in Hp.
    destruct (HL x Hx). auto.
  - unfold SyncService.syncPendingSubmissions, after, bind. rewrite E.
    rewrite <- Ht. apply for_of_sync_pending_rows.
Qed.

(** A drain pass changes [syncStatus] only from [pending], and only for the
    submissions of ['current_user_id']. *)
Lemma startSync_pass_rows (w : World) :
  submission_ids_unique w ->
  Forall2 (pushed_by_pass)
    (report_submissions (tables w))
    (report_submissions (tables (after SyncService.startSync_pass w))).
Proof.
  intros Hnd.
  assert (Hsame : Forall2 pushed_by_pass
            (report_submissions (tables w)) (report_submissions (tables w))).
  { apply Forall2_same. intros r. split; auto. }
  unfold SyncService.startSync_pass, after, finally, try_catch, bind.
  pose proof (processSyncQueue_submissions w) as H1. unfold after in H1.
  destruct (SyncService.processSyncQueue w) as [[[]|e] w1]; simpl in H1.
  - destruct (syncPendingSubmissions_rows w1) as (L & HL & H2). unfold after in H2.
    rewrite H1 in H2, HL.
    assert (H3 : Forall2 pushed_by_pass
            (report_submissions (tables w))
            (report_submissions (tables (snd (SyncService.syncPendingSubmissions w1))))).
    { eapply Forall2_In_impl; [|exact H2].
      intros x y Hx (Hid & _ & [->|[Hin Hst]]); split; auto.
      right. apply in_map_iff in Hin as (z & Hz & Hin).
      destruct (HL z Hin) as (Hzin & Hzp & Hzu).
      assert (z = x) as -> by (apply (same_key_same_row s_id _ Hnd z x); auto).
      auto. }
    destruct (SyncService.syncPendingSubmissions w1) as [[[]|e] w2]; simpl in H3.
    + open_world w2. exact H3.
    + open_world w2. exact H3.
  - open_world w1. simpl in *. rewrite H1. exact Hsame.
Qed.

Lemma startSync_launch_tables (w : World) :
  tables (fst (SyncService.startSync_launch w)) = tables w.
Proof. open_world w. crunch. destruct on, ip, h; reflexivity. Qed.

Lemma clearFailedSyncItems_tables (w : World) :
  tables (after SyncService.clearFailedSyncItems w) = tables w.
Proof.
  destruct (DatabaseService.isInitialized w) eqn:E.
  - unfold after. rewrite clearFailedSyncItems_changes_nothing by exact E. reflexivity.
  - unfold after, SyncService.clearFailedSyncItems, bind.
    revert E. open_world w. crunch. intros ->. reflexivity.
Qed.

(** ** The submissions of the user of the session *)

Lemma Forall2_In_left {A : Type} (R : A -> A -> Prop) (l l' : list A) (x : A) :
  Forall2 R l l' -> In x l -> exists y, In y l' /\ R x y.
Proof.
  intros H. induction H as [|a b l l' Hab Hl IH]; intros Hx; [contradiction|].
  destruct Hx as [->|Hx].
  - exists b. split; [left; reflexivity | exact Hab].
  - destruct (IH Hx) as (y & Hy & Hxy). exists y. split; [right; exact Hy | exact Hxy].
Qed.

(** A drain pass leaves every submission of a user other than the literal
    ['current_user_id'] as it is, whatever its [syncStatus]. *)
Lemma startSync_pass_other_users (w : World) (s : ReportSubmission) :
  submission_ids_unique w ->
  In s (report_submissions (tables w)) ->
  s_userId s <> "current_user_id" ->
  In s (report_submissions (tables (after SyncService.startSync_pass w))).
Proof.
  intros Hnd Hs Hu.
  destruct (Forall2_In_left _ _ _ s (startSync_pass_rows w Hnd) Hs)
    as (y & Hy & _ & [->|(_ & Hu' & _)]); [exact Hy | contradiction].
Qed.

(** *** C3 *)

(** C3. The session is the one of user [u1], who has one submission with
    [syncStatus = pending] and its entry in the queue.  A drain pass makes
    one request only, the one of the queue entry: the submission is not
    pushed, and its [syncStatus] is [pending] afterwards whether the
    transport succeeds or fails, where the specification wants it pushed
    and set to [synced] or to [error]. *)
Theorem drain_pass_skips_session_user (outcome : nat -> bool) :
  auth_user (state (authp (ana_world outcome))) = Some ana
  /\ s_userId ana_draft = u_id ana
  /\ s_syncStatus ana_draft = pending
  /\ report_submissions (tables (ana_world outcome)) = [ana_draft]
  /\ fst (SyncService.startSync (ana_world outcome)) = Ok tt
  /\ requests (env (after SyncService.startSync (ana_world outcome))) = 1%nat
  /\ report_submissions (tables (after SyncService.startSync (ana_world outcome)))
     = [ana_draft].
Proof.
  repeat split; cbv; destruct (outcome 0%nat); reflexivity.
Qed.

(** ** Updates *)

(** *** C5 *)

(** C5 as the specification states it fails.  On an id that is absent both
    updates return without raising [NotFound] or anything else; and on an id
    that is present a supplied [version] is not merged. *)
Lemma update_absent_id_returns :
  taken s_id "missing" (report_submissions (tables (device false (fun _ => true)))) = false
  /\ fst (DatabaseService.updateSubmission "missing" (only_syncStatus synced)
            (device false (fun _ => true))) = Ok tt
  /\ taken r_id "missing" (reports (tables (device false (fun _ => true)))) = false
  /\ fst (DatabaseService.updateReport "missing" no_report_fields
            (device false (fun _ => true))) = Ok tt
  /\ map s_version (report_submissions (tables literal_world)) = [1]
  /\ map s_version
       (report_submissions
          (tables (after (DatabaseService.updateSubmission "s9"
                            (mkPartialSubmission None None None None None None None
                               (Some 7) None None))
                     literal_world)))
     = [1].
Proof. repeat split. Qed.

(** C5, amended.  On an open database [updateSubmission] and [updateReport]
    always return.  When no row has the id the tables are left as they were.
    A row that has the id receives the supplied values of [data], [status],
    [submittedAt], [syncStatus] (for a report: [title], [description],
    [fields], [permissions], [status]) and the current time as
    [lastModified] ([updatedAt]); its other columns keep their values, also
    when the argument supplies one.  The rows with another id are kept, and
    the ids of the table are the same, in the same order. *)
Theorem update_merges_supplied_fields (w : World) :
  DatabaseService.isInitialized w = true ->
  (forall id data,
     let w1 := after (DatabaseService.updateSubmission id data) w in
     fst (DatabaseService.updateSubmission id data w) = Ok tt
     /\ (taken s_id id (report_submissions (tables w)) = false -> tables w1 = tables w)
     /\ (forall s, In s (report_submissions (tables w)) -> s_id s = id ->
           In (mkSubmission (s_id s) (s_reportId s) (s_userId s)
                 (match ps_data data with Some v => v | None => s_data s end)
                 (match ps_status data with Some v => v | None => s_status s end)
                 (match ps_submittedAt data with
                  | Some v => Some v
                  | None => s_submittedAt s
                  end)
                 (now_of w) (s_version s) (s_isOffline s)
                 (match ps_syncStatus data with Some v => v | None => s_syncStatus s end))
              (report_submissions (tables w1)))
     /\ (forall s, In s (report_submissions (tables w)) -> s_id s <> id ->
           In s (report_submissions (tables w1)))
     /\ map s_id (report_submissions (tables w1)) = map s_id (report_submissions (tables w)))
  /\ (forall id report,
        let w1 := after (DatabaseService.updateReport id report) w in
        fst (DatabaseService.updateReport id report w) = Ok tt
        /\ (taken r_id id (reports (tables w)) = false -> tables w1 = tables w)
        /\ (forall r, In r (reports (tables w)) -> r_id r = id ->
              In (mkReport (r_id r) (r_projectId r)
                    (match pr_title report with Some v => v | None => r_title r end)
                    (match pr_description report with
                     | Some v => v
                     | None => r_description r
                     end)
                    (match pr_fields report with Some v => v | None => r_fields r end)
                    (match pr_permissions report with
                     | Some v => v
                     | None => r_permissions r
                     end)
                    (match pr_status report with Some v => v | None => r_status r end)
                    (r_createdAt r) (now_of w) (r_createdBy r))
                 (reports (tables w1)))
        /\ (forall r, In r (reports (tables w)) -> r_id r <> id ->
              In r (reports (tables w1)))
        /\ map r_id (reports (tables w1)) = map r_id (reports (tables w))).
Proof.
  open_world w. crunch. intros ->. split; intros id arg; crunch; repeat split.
  - intros Hab. rewrite update_where_absent by exact Hab. reflexivity.
  - intros s Hs <-.
    apply (update_where_hit s_id (DatabaseService.set_submission arg _) ss s Hs).
  - intros s Hs Hne. apply update_where_other; assumption.
  - apply update_where_ids. reflexivity.
  - intros Hab. rewrite update_where_absent by exact Hab. reflexivity.
  - intros r Hr <-.
    apply (update_where_hit r_id (DatabaseService.set_report arg _) rs r Hr).
  - intros r Hr Hne. apply update_where_other; assumption.
  - apply update_where_ids. reflexivity.
Qed.

(** ** Without a database *)

(** *** C4 *)

(** C4 as the specification states it fails in the browser, where the
    handle is absent: [getPendingSyncItems] raises. *)
Lemma getPendingSyncItems_throws_in_browser :
  platform (dbs browser) = web
  /\ DatabaseService.isInitialized browser = false
  /\ fst (DatabaseService.getPendingSyncItems browser)
     = Throw (Error "Database not initialized").
Proof. repeat split. Qed.

(** C4, amended.  On the web, with the handle absent: [init] and [close]
    return and change nothing; [getProjectsByUserId], [getAllReports] and
    [getSubmissionsByUserId] return the empty list, [getProjectById] and
    [getReportById] return [null], none changing anything; every other
    operation of the store raises ["Database not initialized"] and changes
    nothing. *)
Theorem store_without_database (w : World) :
  platform (dbs w) = web ->
  DatabaseService.isInitialized w = false ->
  let absent {A : Type} (m : M A) :=
    m w = (Throw (Error "Database not initialized"), w) in
  DatabaseService.init w = (Ok tt, w)
  /\ DatabaseService.close w = (Ok tt, w)
  /\ (forall u, DatabaseService.getProjectsByUserId u w = (Ok [], w))
  /\ (forall i, DatabaseService.getProjectById i w = (Ok None, w))
  /\ DatabaseService.getAllReports w = (Ok [], w)
  /\ (forall i, DatabaseService.getReportById i w = (Ok None, w))
  /\ (forall u, DatabaseService.getSubmissionsByUserId u w = (Ok [], w))
  /\ (forall e n r, absent (DatabaseService.createUser e n r))
  /\ (forall e, absent (DatabaseService.getUserByEmail e))
  /\ (forall i, absent (DatabaseService.getUserById i))
  /\ (forall n d o s, absent (DatabaseService.createProject n d o s))
  /\ (forall p t d f pm s c, absent (DatabaseService.createReport p t d f pm s c))
  /\ (forall p, absent (DatabaseService.getReportsByProjectId p))
  /\ (forall i r, absent (DatabaseService.updateReport i r))
  /\ (forall i, absent (DatabaseService.deleteReport i))
  /\ (forall r, absent (DatabaseService.getSubmissionsByReportId r))
  /\ (forall r u d s sa v o ss,
        absent (DatabaseService.createSubmission r u d s sa v o ss))
  /\ (forall i d, absent (DatabaseService.updateSubmission i d))
  /\ absent DatabaseService.getPendingSyncItems
  /\ (forall t a e d n la er, absent (DatabaseService.addToSyncQueue t a e d n la er))
  /\ (forall i n e, absent (DatabaseService.updateSyncQueueItem i n e))
  /\ (forall i, absent (DatabaseService.removeSyncQueueItem i))
  /\ absent DatabaseService.clearAllData.
Proof.
  open_world w. crunch. intros -> ->. repeat split.
Qed.

(** ** Authentication *)

Lemma where_eq_new {A : Type} (col : A -> string) (v : string) (l : list A) (x : A) :
  col x = v -> taken col v l = false -> where_eq col v (l ++ [x]) = [x].
Proof.
  intros <- H. unfold where_eq. rewrite filter_app.
  fold (where_eq col (col x) l). rewrite (where_eq_absent col _ l H).
  simpl. rewrite String.eqb_refl. reflexivity.
Qed.

Lemma where_eq_present {A : Type} (col : A -> string) (v : string) (l : list A) :
  taken col v l = true -> exists x, first_row (where_eq col v l) = Some x.
Proof.
  unfold taken, where_eq. induction l as [|a r IH]; simpl; [discriminate|].
  destruct (String.eqb (col a) v); simpl; eauto.
Qed.

(** *** C10 *)

(** C10. On an open database, with the identifier drawn new in [users]:
    [login] with an email that no stored user has returns, having inserted a
    user with that email, the text before the ['@'] as name and role
    [admin], and having made this user the authenticated one; the password
    given plays no part in the outcome.  [register] with an email that a
    stored user has throws and leaves the tables and the authentication as
    they were; with an email that no stored user has it inserts a user with
    the name given and role [user], and authenticates this user. *)
Theorem login_creates_admin_register_creates_user (w : World) :
  DatabaseService.isInitialized w = true ->
  (forall c,
     taken u_email (lc_email c) (users (tables w)) = false ->
     taken u_id (next_id w) (users (tables w)) = false ->
     let now := iso (clock (env w) (2 + ticks (env w))) in
     let u := mkUser (next_id w) (lc_email c) (split_at_0 (lc_email c)) role_admin now now in
     let w1 := after (Auth.login c) w in
     fst (Auth.login c w) = Ok tt
     /\ users (tables w1) = users (tables w) ++ [u]
     /\ isAuthenticated (state (authp w1)) = true
     /\ auth_user (state (authp w1)) = Some u
     /\ user_data (secure (authp w1)) = Some u
     /\ (forall password,
           Auth.login (mkCredentials (lc_email c) password) w = Auth.login c w))
  /\ (forall d,
        taken u_email (rd_email d) (users (tables w)) = true ->
        exists w1,
          Auth.register d w = (Throw (Error "Usuário já existe com este email"), w1)
          /\ tables w1 = tables w
          /\ state (authp w1) = state (authp w))
  /\ (forall d,
        taken u_email (rd_email d) (users (tables w)) = false ->
        taken u_id (next_id w) (users (tables w)) = false ->
        let now := iso (clock (env w) (2 + ticks (env w))) in
        let u := mkUser (next_id w) (rd_email d) (rd_name d) role_user now now in
        let w1 := after (Auth.register d) w in
        fst (Auth.register d w) = Ok tt
        /\ users (tables w1) = users (tables w) ++ [u]
        /\ isAuthenticated (state (authp w1)) = true
        /\ auth_user (state (authp w1)) = Some u).
Proof.
  open_world w. crunch. intros ->. split; [|split].
  - intros [email password] He Hi. cbn [lc_email] in He. crunch.
    rewrite (where_eq_absent u_email email us He). cbn [first_row hd_error].
    rewrite Hi, He.
    rewrite (where_eq_new u_id (ig dr) us (mkUser (ig dr) email (split_at_0 email) role_admin
                                     (iso (ck (S (S tk)))) (iso (ck (S (S tk))))) eq_refl Hi).
    cbn. repeat split.
  - intros [email password name] He. cbn [rd_email] in He. crunch.
    destruct (where_eq_present u_email email us He) as [x ->].
    eexists. repeat split.
  - intros [email password name] He Hi. cbn [rd_email] in He. crunch.
    rewrite (where_eq_absent u_email email us He). cbn [first_row hd_error].
    rewrite Hi, He.
    rewrite (where_eq_new u_id (ig dr) us (mkUser (ig dr) email name role_user
                                     (iso (ck (S (S tk)))) (iso (ck (S (S tk))))) eq_refl Hi).
    cbn. repeat split.
Qed.

(** ** The primary keys stay unique *)

Lemma unique_keys_insert {Row : Type} (key : Row -> string) (rows : list Row) (x : Row) :
  NoDup (map key rows) -> taken key (key x) rows = false ->
  NoDup (map key (rows ++ [x])).
Proof.
  intros Hnd Hx. rewrite map_app. simpl.
  apply NoDup_app; [exact Hnd | repeat constructor; simpl; tauto |].
  intros k Hk [<-|[]]. apply (proj1 (taken_false_iff key _ _) Hx), Hk.
Qed.

Lemma unique_keys_update {Row : Type} (key : Row -> string) (v : string)
  (f : Row -> Row) (rows : list Row) :
  (forall r, key (f r) = key r) ->
  NoDup (map key rows) -> NoDup (map key (update_where key v f rows)).
Proof. intros Hf Hnd. rewrite update_where_ids; assumption. Qed.

Lemma unique_keys_delete {Row : Type} (key col : Row -> string) (v : string)
  (rows : list Row) :
  NoDup (map key rows) -> NoDup (map key (delete_where col v rows)).
Proof. apply unique_keys_filter. Qed.

Ltac keys :=
  unfold ids_unique, submission_ids_unique, queue_ids_unique in *; crunch;
  match goal with H : _ /\ _ |- _ => destruct H end;
  split;
  first [ assumption
        | constructor
        | apply unique_keys_insert; assumption
        | apply unique_keys_update; [reflexivity | assumption]
        | apply unique_keys_delete; assumption ].

Lemma bind_keeps {A B : Type} (P : World -> Prop) (m : M A) (k : A -> M B) :
  (forall w, P w -> P (after m w)) ->
  (forall a w, P w -> P (after (k a) w)) ->
  forall w, P w -> P (after (bind m k) w).
Proof.
  intros Hm Hk w Hw. unfold after, bind. specialize (Hm w Hw). unfold after in Hm.
  destruct (m w) as [[a|e] w1]; simpl in Hm; [apply Hk, Hm | exact Hm].
Qed.

Lemma try_catch_keeps {A : Type} (P : World -> Prop) (m : M A) (h : Exn -> M A) :
  (forall w, P w -> P (after m w)) ->
  (forall e w, P w -> P (after (h e) w)) ->
  forall w, P w -> P (after (try_catch m h) w).
Proof.
  intros Hm Hh w Hw. unfold after, try_catch. specialize (Hm w Hw). unfold after in Hm.
  destruct (m w) as [[a|e] w1]; simpl in Hm; [exact Hm | apply Hh, Hm].
Qed.

Lemma for_of_keeps {A : Type} (P : World -> Prop) (body : A -> M unit) (L : list A) :
  (forall x w, P w -> P (after (body x) w)) ->
  forall w, P w -> P (after (for_of L body) w).
Proof. intros H. apply for_of_invariant. intros x w _. apply H. Qed.

Lemma process_item_keeps (item : SyncQueue) (w : World) :
  ids_unique w -> ids_unique (after (SyncService.process_item item) w).
Proof. open_world w. intros H. case_split; keys. Qed.

Lemma sync_pending_keeps (x : ReportSubmission) (w : World) :
  ids_unique w -> ids_unique (after (SyncService.sync_pending x) w).
Proof. open_world w. intros H. case_split; keys. Qed.

Lemma processSyncQueue_keeps (w : World) :
  ids_unique w -> ids_unique (after SyncService.processSyncQueue w).
Proof.
  apply bind_keeps.
  - intros w'. open_world w'. intros H. case_split; keys.
  - intros L. apply for_of_keeps, process_item_keeps.
Qed.

Lemma syncPendingSubmissions_keeps (w : World) :
  ids_unique w -> ids_unique (after SyncService.syncPendingSubmissions w).
Proof.
  apply bind_keeps.
  - intros w'. open_world w'. intros H. case_split; keys.
  - intros L. apply for_of_keeps, sync_pending_keeps.
Qed.

Lemma startSync_pass_keeps (w : World) :
  ids_unique w -> ids_unique (after SyncService.startSync_pass w).
Proof.
  intros H. unfold SyncService.startSync_pass, after, finally.
  assert (H1 : ids_unique
                 (after (try_catch
                           (SyncService.processSyncQueue ;;
                            SyncService.syncPendingSubmissions ;;
                            SyncService.scheduleSyncInterval)
                           (fun _ => ret tt)) w)).
  { apply try_catch_keeps; [|intros e w' Hw'; exact Hw'|exact H].
    apply bind_keeps; [apply processSyncQueue_keeps|]. intros _.
    apply bind_keeps; [apply syncPendingSubmissions_keeps|]. intros _.
    intros w'. open_world w'. intros H'. keys. }
  unfold after in H1.
  destruct (try_catch _ _ w) as [r w1]. simpl in *.
  open_world w1. exact H1.
Qed.

Lemma startSync_keeps (w : World) :
  ids_unique w -> ids_unique (after SyncService.startSync w).
Proof.
  intros H. unfold after, SyncService.startSync.
  pose proof (startSync_launch_tables w) as Ht.
  destruct (SyncService.startSync_launch w) as [w1 go]. simpl in Ht.
  assert (H1 : ids_unique w1).
  { unfold ids_unique, submission_ids_unique, queue_ids_unique in *.
    rewrite Ht. exact H. }
  destruct go; [apply startSync_pass_keeps, H1 | exact H1].
Qed.

(** Every operation keeps the ids of [report_submissions] and of
    [sync_queue] unique. *)
Lemma step_keeps_ids_unique (o : Op) (w : World) :
  ids_unique w -> ids_unique (step o w).
Proof.
  intros H. destruct o; simpl step; try (apply startSync_keeps, H).
  all: try (open_world w; case_split; keys).
  - destruct (syncInProgress (sync w)); [apply startSync_pass_keeps, H | exact H].
  - unfold after, SyncService.forcSync.
    destruct (negb (isOnline (sync w))); [exact H | apply startSync_keeps, H].
  - unfold ids_unique, submission_ids_unique, queue_ids_unique in *.
    rewrite clearFailedSyncItems_tables. exact H.
Qed.

Lemma empty_ids_unique (w : World) :
  report_submissions (tables w) = [] -> sync_queue (tables w) = [] -> ids_unique w.
Proof.
  intros Hs Hq. unfold ids_unique, submission_ids_unique, queue_ids_unique.
  rewrite Hs, Hq. split; constructor.
Qed.

(** ** The theorems on sample states *)

Lemma getPendingSyncItems_active_fifo_witness :
  DatabaseService.isInitialized (queue_world (fun _ => true)) = true
  /\ exists l,
       DatabaseService.getPendingSyncItems (queue_world (fun _ => true))
       = (Ok l, queue_world (fun _ => true))
       /\ Permutation l
            (filter (fun q => q_attempts q <? 3)
               (sync_queue (tables (queue_world (fun _ => true)))))
       /\ (forall q, In q l <->
             In q (sync_queue (tables (queue_world (fun _ => true)))) /\ q_attempts q < 3)
       /\ StronglySorted (fun a b => String.leb (q_createdAt a) (q_createdAt b) = true) l.
Proof.
  split; [reflexivity|].
  apply (getPendingSyncItems_active_fifo (queue_world (fun _ => true))). reflexivity.
Defined.

Lemma queue_world_ids_unique (outcome : nat -> bool) : queue_ids_unique (queue_world outcome).
Proof.
  unfold queue_ids_unique. simpl.
  repeat constructor; simpl; intuition discriminate.
Defined.

Lemma processSyncQueue_records_attempts_witness :
  DatabaseService.isInitialized (queue_world (fun n => Nat.eqb n 0)) = true
  /\ queue_ids_unique (queue_world (fun n => Nat.eqb n 0))
  /\ exists pendingItems w',
       DatabaseService.getPendingSyncItems (queue_world (fun n => Nat.eqb n 0))
       = (Ok pendingItems, queue_world (fun n => Nat.eqb n 0))
       /\ SyncService.processSyncQueue (queue_world (fun n => Nat.eqb n 0)) = (Ok tt, w')
       /\ forall k item, nth_error pendingItems k = Some item ->
            (Nat.eqb (0 + k) 0 = true ->
               ~ In (q_id item) (map q_id (sync_queue (tables w'))))
            /\ (Nat.eqb (0 + k) 0 = false ->
                exists n, (0 <= n)%nat
                  /\ In (mkSyncQueue (q_id item) (q_type item) (q_action item)
                           (q_entityId item) (q_data item) (q_attempts item + 1)
                           (Some (iso (sample_clock n))) (Some "Network error")
                           (q_createdAt item))
                       (sync_queue (tables w'))).
Proof.
  split; [reflexivity|]. split; [apply queue_world_ids_unique|].
  apply (processSyncQueue_records_attempts (queue_world (fun n => Nat.eqb n 0)));
    [reflexivity | apply queue_world_ids_unique].
Defined.

Lemma saveDraft_then_getById_witness :
  DatabaseService.isInitialized (device false (fun _ => true)) = true
  /\ exists w1 s q,
       SyncService.saveSubmissionOffline "r1" "u1" (JObj [("f1", JStr "hello")])
         SyncService.fill_draft (device false (fun _ => true))
       = (Ok "lr0k0x", w1)
       /\ fst (getById "u1" "lr0k0x" w1) = Ok (Some s)
       /\ s_id s = "lr0k0x" /\ s_reportId s = "r1" /\ s_userId s = "u1"
       /\ s_data s = JObj [("f1", JStr "hello")] /\ s_status s = draft
       /\ s_syncStatus s = pending
       /\ active_entries_for "lr0k0x" w1 = [q]
       /\ q_type q = t_submission /\ q_action q = a_create
       /\ q_entityId q = "lr0k0x" /\ q_attempts q = 0.
Proof.
  split; [reflexivity|].
  apply (saveDraft_then_getById "r1" "u1" (JObj [("f1", JStr "hello")])
           SyncService.fill_draft (device false (fun _ => true)));
    reflexivity.
Defined.

Lemma update_merges_supplied_fields_witness :
  DatabaseService.isInitialized literal_world = true
  /\ fst (DatabaseService.updateSubmission "s9" (only_syncStatus error) literal_world) = Ok tt
  /\ fst (DatabaseService.updateReport "r1" no_report_fields literal_world) = Ok tt.
Proof.
  split; [reflexivity|].
  destruct (update_merges_supplied_fields literal_world eq_refl) as [Hs Hr].
  split.
  - exact (proj1 (Hs "s9" (only_syncStatus error))).
  - exact (proj1 (Hr "r1" no_report_fields)).
Defined.

Lemma store_without_database_witness :
  platform (dbs browser) = web
  /\ DatabaseService.isInitialized browser = false
  /\ DatabaseService.init browser = (Ok tt, browser)
  /\ DatabaseService.getSubmissionsByUserId "u1" browser = (Ok [], browser)
  /\ DatabaseService.removeSyncQueueItem "q1" browser
     = (Throw (Error "Database not initialized"), browser).
Proof.
  split; [reflexivity|]. split; [reflexivity|].
  pose proof (store_without_database browser eq_refl eq_refl) as H. cbv zeta in H.
  destruct H as (Hinit & _ & _ & _ & _ & _ & Hsubs & H8).
  split; [exact Hinit|]. split; [exact (Hsubs "u1")|].
  destruct H8 as (_ & _ & _ & _ & _ & _ & _ & _ & _ & _ & _ & _ & _ & _ & Hrm & _).
  exact (Hrm "q1").
Defined.

Lemma login_creates_admin_register_creates_user_witness :
  DatabaseService.isInitialized (device false (fun _ => true)) = true
  /\ fst (Auth.login (mkCredentials "bob@example.com" "anything")
            (device false (fun _ => true))) = Ok tt
  /\ users (tables (after (Auth.login (mkCredentials "bob@example.com" "anything"))
                      (device false (fun _ => true))))
     = [mkUser "lr0k0x" "bob@example.com" "bob" role_admin
          "2024-01-01T00:00:02.000Z" "2024-01-01T00:00:02.000Z"].
Proof.
  split; [reflexivity|].
  destruct (login_creates_admin_register_creates_user (device false (fun _ => true)) eq_refl)
    as [Hlogin _].
  destruct (Hlogin (mkCredentials "bob@example.com" "anything") eq_refl eq_refl)
    as (Hok & Husers & _).
  split; [exact Hok | exact Husers].
Defined.

(** * Further properties *)

(** ** Opening and closing the database *)

(** X1. On a device whose database is closed, the methods that start with
    [ensureInitialized] open it and answer from the stored rows
    ([getProjectsByUserId], [getProjectById], [getAllReports],
    [getReportById], [getSubmissionsByUserId], [updateReport],
    [deleteReport]); the methods that only check the handle throw
    ["Database not initialized"] and leave it closed. *)
Theorem closed_database_opens_on_demand (w : World) :
  platform (dbs w) = native ->
  DatabaseService.isInitialized w = false ->
  let opened := set_handle true w in
  (forall u, DatabaseService.getProjectsByUserId u w
             = (Ok (order_by (desc p_createdAt)
                      (where_eq p_ownerId u (projects (tables w)))), opened))
  /\ (forall i, DatabaseService.getProjectById i w
                = (Ok (first_row (where_eq p_id i (projects (tables w)))), opened))
  /\ DatabaseService.getAllReports w
     = (Ok (order_by (desc r_createdAt) (reports (tables w))), opened)
  /\ (forall i, DatabaseService.getReportById i w
                = (Ok (first_row (where_eq r_id i (reports (tables w)))), opened))
  /\ (forall u, DatabaseService.getSubmissionsByUserId u w
                = (Ok (order_by (desc s_lastModified)
                         (where_eq s_userId u (report_submissions (tables w)))), opened))
  /\ (forall i r, fst (DatabaseService.updateReport i r w) = Ok tt
                  /\ DatabaseService.isInitialized
                       (after (DatabaseService.updateReport i r) w) = true)
  /\ (forall i, fst (DatabaseService.deleteReport i w) = Ok tt
                /\ DatabaseService.isInitialized
                     (after (DatabaseService.deleteReport i) w) = true)
  /\ (forall e, DatabaseService.getUserByEmail e w
                = (Throw (Error "Database not initialized"), w))
  /\ (forall r, DatabaseService.getSubmissionsByReportId r w
                = (Throw (Error "Database not initialized"), w))
  /\ (forall p, DatabaseService.getReportsByProjectId p w
                = (Throw (Error "Database not initialized"), w))
  /\ DatabaseService.getPendingSyncItems w
     = (Throw (Error "Database not initialized"), w)
  /\ (forall r u d s sa v o ss,
        DatabaseService.createSubmission r u d s sa v o ss w
        = (Throw (Error "Database not initialized"), w)).
Proof.
  open_world w. crunch. intros -> ->. repeat split.
Qed.

(** ** Users *)

(** X2. [createUser] on an open database with a new id and a new email
    returns the id drawn and appends one user, which [getUserById] and
    [getUserByEmail] then return; both timestamps are the time of the
    insertion, not those of the argument. *)
Theorem createUser_then_lookup (email name : string) (role : Role) (w : World) :
  DatabaseService.isInitialized w = true ->
  taken u_id (next_id w) (users (tables w)) = false ->
  taken u_email email (users (tables w)) = false ->
  let u := mkUser (next_id w) email name role (now_of w) (now_of w) in
  let w1 := after (DatabaseService.createUser email name role) w in
  fst (DatabaseService.createUser email name role w) = Ok (next_id w)
  /\ fst (DatabaseService.getUserById (next_id w) w1) = Ok (Some u)
  /\ fst (DatabaseService.getUserByEmail email w1) = Ok (Some u)
  /\ users (tables w1) = users (tables w) ++ [u].
Proof.
  open_world w. crunch. intros -> Hi He. rewrite Hi, He. crunch.
  rewrite (where_eq_new u_id (ig dr) us
             (mkUser (ig dr) email name role (iso (ck tk)) (iso (ck tk))) eq_refl Hi).
  rewrite (where_eq_new u_email email us
             (mkUser (ig dr) email name role (iso (ck tk)) (iso (ck tk))) eq_refl He).
  repeat split.
Qed.

Lemma taken_true_iff {A : Type} (col : A -> string) (v : string) (l : list A) :
  taken col v l = true <-> In v (map col l).
Proof.
  destruct (taken col v l) eqn:E.
  - split; [intros _|reflexivity].
    unfold taken in E. apply existsb_exists in E as (x & Hx & Hv).
    apply String.eqb_eq in Hv. subst v. apply in_map, Hx.
  - split; [discriminate|]. intros H. apply taken_false_iff in E. contradiction.
Qed.

(** X3. [createUser] with an email that a stored user has throws (the
    column is UNIQUE) and leaves every table as it was. *)
Theorem createUser_rejects_stored_email (email name : string) (role : Role) (w : World) :
  DatabaseService.isInitialized w = true ->
  In email (map u_email (users (tables w))) ->
  exists e,
    fst (DatabaseService.createUser email name role w) = Throw e
    /\ tables (after (DatabaseService.createUser email name role) w) = tables w.
Proof.
  intros Hopen He. apply taken_true_iff in He. revert Hopen He.
  open_world w. crunch. intros -> He.
  destruct (taken u_id (ig dr) us); [|rewrite He]; eexists; split; reflexivity.
Qed.

(** ** Queries *)

Section Selection.

Context {Row : Type} (col key : Row -> string) (v : string) (rows : list Row).

Lemma select_desc_spec :
  let l := order_by (desc key) (where_eq col v rows) in
  Permutation l (filter (fun r => String.eqb (col r) v) rows)
  /\ (forall r, In r l <-> In r rows /\ col r = v)
  /\ StronglySorted (fun a b => String.leb (key b) (key a) = true) l.
Proof.
  cbv zeta. split; [apply (order_by_perm (desc key))|]. split.
  - intros r. rewrite order_by_In. apply where_eq_In.
  - apply Sorted_StronglySorted.
    + intros a b c Hab Hbc. exact (String_leb_trans _ _ _ Hbc Hab).
    + apply (order_by_sorted (desc key)). intros a b. apply desc_total.
Qed.

End Selection.

(** X4. [getProjectsByUserId] on an open database returns the projects
    whose owner is the user, each once, latest [createdAt] first, and
    changes nothing. *)
Theorem getProjectsByUserId_owned_newest_first (userId : string) (w : World) :
  DatabaseService.isInitialized w = true ->
  exists l,
    DatabaseService.getProjectsByUserId userId w = (Ok l, w)
    /\ Permutation l (filter (fun p => String.eqb (p_ownerId p) userId) (projects (tables w)))
    /\ (forall p, In p l <-> In p (projects (tables w)) /\ p_ownerId p = userId)
    /\ StronglySorted (fun a b => String.leb (p_createdAt b) (p_createdAt a) = true) l.
Proof.
  intros H. exists (order_by (desc p_createdAt) (where_eq p_ownerId userId (projects (tables w)))).
  split; [|apply select_desc_spec].
  revert H. open_world w. crunch. intros ->. reflexivity.
Qed.

(** X5. [getSubmissionsByUserId] and [getSubmissionsByReportId] on an open
    database return the submissions of the user, or of the report, each
    once, latest [lastModified] first, and change nothing. *)
Theorem submissions_selected_latest_first (w : World) :
  DatabaseService.isInitialized w = true ->
  (forall userId, exists l,
     DatabaseService.getSubmissionsByUserId userId w = (Ok l, w)
     /\ Permutation l (filter (fun s => String.eqb (s_userId s) userId)
                         (report_submissions (tables w)))
     /\ (forall s, In s l <-> In s (report_submissions (tables w)) /\ s_userId s = userId)
     /\ StronglySorted (fun a b => String.leb (s_lastModified b) (s_lastModified a) = true) l)
  /\ (forall reportId, exists l,
     DatabaseService.getSubmissionsByReportId reportId w = (Ok l, w)
     /\ Permutation l (filter (fun s => String.eqb (s_reportId s) reportId)
                         (report_submissions (tables w)))
     /\ (forall s, In s l <-> In s (report_submissions (tables w)) /\ s_reportId s = reportId)
     /\ StronglySorted (fun a b => String.leb (s_lastModified b) (s_lastModified a) = true) l).
Proof.
  intros H. split; intros x.
  - exists (order_by (desc s_lastModified) (where_eq s_userId x (report_submissions (tables w)))).
    split; [|apply select_desc_spec].
    revert H. open_world w. crunch. intros ->. reflexivity.
  - exists (order_by (desc s_lastModified) (where_eq s_reportId x (report_submissions (tables w)))).
    split; [|apply select_desc_spec].
    revert H. open_world w. crunch. intros ->. reflexivity.
Qed.

(** ** Deleting a report *)

Lemma delete_where_In {A : Type} (col : A -> string) (v : string) (l : list A) (x : A) :
  In x (delete_where col v l) <-> In x l /\ col x <> v.
Proof.
  unfold delete_where. rewrite filter_In, negb_true_iff, String.eqb_neq. tauto.
Qed.

(** X6. [deleteReport] on an open database returns, whether or not the
    report exists; it removes the report and every submission of it, keeps
    every other report and submission, and leaves the queue, the users and
    the projects as they were: the queue entries of the deleted submissions
    stay. *)
Theorem deleteReport_cascades (id : string) (w : World) :
  DatabaseService.isInitialized w = true ->
  let w1 := after (DatabaseService.deleteReport id) w in
  fst (DatabaseService.deleteReport id w) = Ok tt
  /\ (forall r, In r (reports (tables w1)) <-> In r (reports (tables w)) /\ r_id r <> id)
  /\ (forall s, In s (report_submissions (tables w1)) <->
                In s (report_submissions (tables w)) /\ s_reportId s <> id)
  /\ sync_queue (tables w1) = sync_queue (tables w)
  /\ users (tables w1) = users (tables w)
  /\ projects (tables w1) = projects (tables w).
Proof.
  open_world w. crunch. intros ->. crunch.
  split; [reflexivity|].
  split; [intros r; apply delete_where_In|].
  split; [intros s; apply delete_where_In|].
  repeat split.
Qed.

(** ** When a pass runs *)

(** When [startSync] leaves at its guard or at the check of the database. *)
Lemma startSync_skipped (w : World) :
  isOnline (sync w) = false \/ syncInProgress (sync w) = true
  \/ DatabaseService.isInitialized w = false ->
  SyncService.startSync w = (Ok tt, w).
Proof.
  open_world w. crunch. unfold SyncService.startSync. crunch.
  destruct on, ip, h; crunch; intros [H|[H|H]]; try discriminate; reflexivity.
Qed.

Lemma process_item_one_request (item : SyncQueue) :
  one_request (SyncService.process_item item).
Proof.
  intros w. open_world w. crunch. intros ->. destruct (nt rq); crunch; repeat split.
Qed.

Lemma sync_pending_one_request (x : ReportSubmission) :
  one_request (SyncService.sync_pending x).
Proof.
  intros w. open_world w. crunch. intros ->. destruct (nt rq); crunch; repeat split.
Qed.

Lemma for_of_requests {A : Type} (body : A -> M unit) (L : list A) :
  (forall x, one_request (body x)) ->
  forall w, DatabaseService.isInitialized w = true ->
    fst (for_of L body w) = Ok tt
    /\ DatabaseService.isInitialized (after (for_of L body) w) = true
    /\ requests (env (after (for_of L body) w)) = (requests (env w) + List.length L)%nat
    /\ sync (after (for_of L body) w) = sync w.
Proof.
  intros Hbody. induction L as [|x L IH]; intros w Hw.
  - simpl. unfold after, ret. simpl. repeat split; auto.
  - destruct (Hbody x w Hw) as (Hok & Hopen & Hreq & Hsync).
    assert (E : for_of (x :: L) body w
                = match body x w with
                  | (Ok _, w1) => for_of L body w1
                  | (Throw e, w1) => (Throw e, w1)
                  end) by reflexivity.
    unfold after in *. rewrite E. clear E.
    destruct (body x w) as [[[]|e] w1]; simpl in *; [|discriminate].
    destruct (IH w1 Hopen) as (Hok' & Hopen' & Hreq' & Hsync').
    repeat split; auto.
    + rewrite Hreq', Hreq. lia.
    + rewrite Hsync'. exact Hsync.
Qed.

Lemma processSyncQueue_run (w : World) :
  DatabaseService.isInitialized w = true ->
  fst (SyncService.processSyncQueue w) = Ok tt
  /\ DatabaseService.isInitialized (after SyncService.processSyncQueue w) = true
  /\ requests (env (after SyncService.processSyncQueue w))
     = (requests (env w) + List.length (active_entries w))%nat
  /\ sync (after SyncService.processSyncQueue w) = sync w.
Proof.
  intros H. unfold SyncService.processSyncQueue, after, bind.
  rewrite (getPendingSyncItems_ok w H).
  apply (for_of_requests SyncService.process_item _ process_item_one_request w H).
Qed.

Lemma getSubmissionsByUserId_ok (userId : string) (w : World) :
  DatabaseService.isInitialized w = true ->
  DatabaseService.getSubmissionsByUserId userId w
  = (Ok (order_by (desc s_lastModified)
           (where_eq s_userId userId (report_submissions (tables w)))), w).
Proof. open_world w. crunch. intros ->. reflexivity. Qed.

Lemma syncPendingSubmissions_run (w : World) :
  DatabaseService.isInitialized w = true ->
  fst (SyncService.syncPendingSubmissions w) = Ok tt
  /\ DatabaseService.isInitialized (after SyncService.syncPendingSubmissions w) = true
  /\ requests (env (after SyncService.syncPendingSubmissions w))
     = (requests (env w) + List.length (pushed_submissions w))%nat
  /\ sync (after SyncService.syncPendingSubmissions w) = sync w.
Proof.
  intros H. unfold SyncService.syncPendingSubmissions, after, bind.
  rewrite (getSubmissionsByUserId_ok _ w H).
  apply (for_of_requests SyncService.sync_pending _ sync_pending_one_request w H).
Qed.

(** X8. [startSync] on an open database, online and with no pass in flight:
    it returns; it makes one request for each active entry of the queue and
    one for each pending submission of ['current_user_id'], no more; and it
    ends with [syncInProgress] reset, the 30 s timer armed and the database
    open. *)
Theorem startSync_runs_one_pass (w : World) :
  isOnline (sync w) = true ->
  syncInProgress (sync w) = false ->
  DatabaseService.isInitialized w = true ->
  let w1 := after SyncService.startSync w in
  fst (SyncService.startSync w) = Ok tt
  /\ requests (env w1)
     = (requests (env w) + List.length (active_entries w)
        + List.length (pushed_submissions w))%nat
  /\ sync w1 = mkSyncService true false true
  /\ DatabaseService.isInitialized w1 = true.
Proof.
  intros Hon Hip Hopen.
  assert (Hl : SyncService.startSync_launch w = (SyncService.set_syncInProgress true w, true)).
  { revert Hon Hip Hopen. open_world w. crunch. intros -> -> ->. reflexivity. }
  set (w0 := SyncService.set_syncInProgress true w).
  assert (Hopen0 : DatabaseService.isInitialized w0 = true).
  { revert Hopen. open_world w. crunch. auto. }
  assert (Ht0 : tables w0 = tables w) by (open_world w; reflexivity).
  assert (Hr0 : requests (env w0) = requests (env w)) by (open_world w; reflexivity).
  assert (Hs0 : sync w0 = mkSyncService true true (syncInterval (sync w))).
  { revert Hon. open_world w. crunch. intros ->. reflexivity. }
  destruct (processSyncQueue_run w0 Hopen0) as (Hok1 & Hopen1 & Hreq1 & Hsync1).
  pose proof (processSyncQueue_submissions w0) as Hsubs1.
  unfold after in *.
  cbv zeta. unfold SyncService.startSync. rewrite Hl. fold w0.
  unfold SyncService.startSync_pass, finally, try_catch, bind.
  destruct (SyncService.processSyncQueue w0) as [[[]|e] w1]; simpl in *; [|discriminate].
  destruct (syncPendingSubmissions_run w1 Hopen1) as (Hok2 & Hopen2 & Hreq2 & Hsync2).
  unfold after in *.
  assert (Hp : pushed_submissions w1 = pushed_submissions w).
  { unfold pushed_submissions. rewrite Hsubs1, Ht0. reflexivity. }
  assert (Ha : active_entries w0 = active_entries w).
  { unfold active_entries. rewrite Ht0. reflexivity. }
  destruct (SyncService.syncPendingSubmissions w1) as [[[]|e] w2]; simpl in *; [|discriminate].
  rewrite Hp in Hreq2. rewrite Ha in Hreq1.
  rewrite Hsync1, Hs0 in Hsync2.
  rewrite Hreq1 in Hreq2.
  remember (requests (env w)) as R eqn:HR. clear HR.
  revert Hopen2 Hreq2 Hsync2. open_world w2. crunch. intros Ho Hr Hs.
  injection Hs as -> -> ->. subst h rq. repeat split.
Qed.

(** ** The queue through a pass *)

Lemma attempt_step_same (q : SyncQueue) : attempt_step q q.
Proof. repeat split. left. reflexivity. Qed.

(** What one entry of the pass does to the queue, whatever the state. *)
Lemma process_item_queue (item : SyncQueue) (w : World) :
  let qs' := sync_queue (tables (after (SyncService.process_item item) w)) in
  qs' = sync_queue (tables w)
  \/ qs' = delete_where q_id (q_id item) (sync_queue (tables w))
  \/ exists now e,
       qs' = update_where q_id (q_id item)
               (DatabaseService.set_attempt (q_attempts item + 1) now e)
               (sync_queue (tables w)).
Proof.
  open_world w. crunch. destruct (nt rq), h; crunch; auto; right; right; eauto.
Qed.

Lemma sync_pending_queue (x : ReportSubmission) (w : World) :
  sync_queue (tables (after (SyncService.sync_pending x) w)) = sync_queue (tables w).
Proof. open_world w. crunch. destruct (nt rq), h; reflexivity. Qed.

Lemma update_where_In {A : Type} (col : A -> string) (v : string) (f : A -> A)
  (l : list A) (y : A) :
  In y (update_where col v f l) ->
  In y l \/ exists x, In x l /\ col x = v /\ y = f x.
Proof.
  unfold update_where. intros H. apply in_map_iff in H as (x & Hx & Hin).
  destruct (String.eqb (col x) v) eqn:E.
  - right. exists x. apply String.eqb_eq in E. auto.
  - left. subst y. exact Hin.
Qed.

Section QueueThroughPass.

Variable w0 : World.

Hypothesis ids : queue_ids_unique w0.

Lemma inv_start : queue_inv w0 w0.
Proof.
  unfold queue_inv. split.
  - intros q Hq. exists q. split; [exact Hq | apply attempt_step_same].
  - auto.
Qed.

Lemma inv_process_item (item : SyncQueue) (w : World) :
  In item (sync_queue (tables w0)) -> q_attempts item < 3 ->
  queue_inv w0 w -> queue_inv w0 (after (SyncService.process_item item) w).
Proof.
  intros Hitem Hlt [Hfrom Hkept].
  destruct (process_item_queue item w) as [E|[E|(now & e & E)]];
    cbv zeta in E; split; rewrite E.
  - exact Hfrom.
  - exact Hkept.
  - intros q' Hq'. apply delete_where_In in Hq' as [Hq' _]. auto.
  - intros q Hq Hge. apply delete_where_other; [auto|].
    intros Eid. assert (q = item) by (apply (same_key_same_row q_id _ ids); auto).
    subst q. lia.
  - intros q' Hq'. apply update_where_In in Hq' as [Hq'|(x & Hx & Hid & ->)]; [auto|].
    destruct (Hfrom x Hx) as (q & Hq & Hqid & Hty & Hac & Hen & Hda & Hcr & _).
    exists q. split; [exact Hq|].
    assert (q = item).
    { apply (same_key_same_row q_id _ ids); auto. congruence. }
    subst q. unfold DatabaseService.set_attempt. simpl. repeat split; auto.
  - intros q Hq Hge. apply update_where_other; [auto|].
    intros Eid. assert (q = item) by (apply (same_key_same_row q_id _ ids); auto).
    subst q. lia.
Qed.

Lemma inv_processSyncQueue : queue_inv w0 (after SyncService.processSyncQueue w0).
Proof.
  unfold SyncService.processSyncQueue, after, bind.
  destruct (DatabaseService.isInitialized w0) eqn:Hopen.
  - rewrite (getPendingSyncItems_ok w0 Hopen).
    apply (for_of_invariant (queue_inv w0)); [|apply inv_start].
    intros x w Hx. apply order_by_In, filter_In in Hx as [Hx Hlt].
    apply Z.ltb_lt in Hlt. apply inv_process_item; assumption.
  - assert (E : DatabaseService.getPendingSyncItems w0
                = (Throw (Error "Database not initialized"), w0)).
    { revert Hopen. clear. open_world w0. crunch. intros ->. reflexivity. }
    rewrite E. apply inv_start.
Qed.

End QueueThroughPass.

Lemma syncPendingSubmissions_queue (w : World) :
  sync_queue (tables (after SyncService.syncPendingSubmissions w)) = sync_queue (tables w).
Proof.
  destruct (getSubmissionsByUserId_cases "current_user_id" w) as (L & w1 & E & Ht & _).
  unfold SyncService.syncPendingSubmissions, after, bind. rewrite E.
  rewrite <- Ht.
  apply (for_of_invariant
           (fun w' => sync_queue (tables w') = sync_queue (tables w1))); [|reflexivity].
  intros x w' _ Hw'. rewrite sync_pending_queue. exact Hw'.
Qed.

(** The queue after a pass is the queue after its first loop. *)
Lemma startSync_pass_queue (w : World) :
  sync_queue (tables (after SyncService.startSync_pass w))
  = sync_queue (tables (after SyncService.processSyncQueue w)).
Proof.
  unfold SyncService.startSync_pass, after, finally, try_catch, bind.
  destruct (SyncService.processSyncQueue w) as [[[]|e] w1]; simpl.
  - pose proof (syncPendingSubmissions_queue w1) as H. unfold after in H.
    destruct (SyncService.syncPendingSubmissions w1) as [[[]|e] w2]; simpl in H;
      rewrite <- H; open_world w2; reflexivity.
  - open_world w1. reflexivity.
Qed.

(** X9. A drain pass over a queue with unique ids.  Every entry left in the
    queue is an entry of before, unchanged or with [attempts] one higher,
    which happens only to entries below the cap; so [attempts] never
    decreases, and never exceeds 3 when it did not before.  Every entry at
    or above the cap is left in the queue as it was. *)
Theorem pass_respects_attempt_cap (w : World) :
  queue_ids_unique w ->
  let w1 := after SyncService.startSync_pass w in
  (forall q', In q' (sync_queue (tables w1)) ->
     exists q, In q (sync_queue (tables w))
       /\ attempt_step q q'
       /\ q_attempts q <= q_attempts q'
       /\ (q_attempts q <= 3 -> q_attempts q' <= 3))
  /\ (forall q, In q (sync_queue (tables w)) -> 3 <= q_attempts q ->
        In q (sync_queue (tables w1))).
Proof.
  intros Hids. cbv zeta. rewrite startSync_pass_queue.
  destruct (inv_processSyncQueue w Hids) as [Hfrom Hkept].
  split; [|exact Hkept].
  intros q' Hq'. destruct (Hfrom q' Hq') as (q & Hq & Hstep).
  exists q. split; [exact Hq|]. split; [exact Hstep|].
  destruct Hstep as (_ & _ & _ & _ & _ & _ & [->|[Hlt Hinc]]); split; lia.
Qed.

(** X10. A pass with nothing to send: when no entry is below the cap and no
    submission of ['current_user_id'] is pending, [startSync] on an open
    database makes no request and leaves every table as it was. *)
Theorem idle_pass_changes_nothing (w : World) :
  DatabaseService.isInitialized w = true ->
  (forall q, In q (sync_queue (tables w)) -> 3 <= q_attempts q) ->
  (forall s, In s (report_submissions (tables w)) ->
     s_userId s = "current_user_id" -> s_syncStatus s <> pending) ->
  fst (SyncService.startSync w) = Ok tt
  /\ tables (after SyncService.startSync w) = tables w
  /\ requests (env (after SyncService.startSync w)) = requests (env w).
Proof.
  intros Hopen Hq Hs.
  assert (Ha : filter (fun q => q_attempts q <? 3) (sync_queue (tables w)) = []).
  { apply filter_none. intros q Hin. apply Z.ltb_ge. auto. }
  assert (Hp : filter (fun s => SyncStatus_eqb (s_syncStatus s) pending)
                 (order_by (desc s_lastModified)
                    (where_eq s_userId "current_user_id"
                       (report_submissions (tables w)))) = []).
  { apply filter_none. intros s Hin. apply order_by_In, where_eq_In in Hin as [Hin Hu].
    destruct (SyncStatus_eqb (s_syncStatus s) pending) eqn:E; [|reflexivity].
    apply SyncStatus_eqb_eq in E. exfalso. exact (Hs s Hin Hu E). }
  assert (Hidle : forall w', DatabaseService.isInitialized w' = true ->
            tables w' = tables w ->
            SyncService.processSyncQueue w' = (Ok tt, w')
            /\ SyncService.syncPendingSubmissions w' = (Ok tt, w')).
  { intros w' Hopen' Ht. split.
    - unfold SyncService.processSyncQueue, bind.
      rewrite (getPendingSyncItems_ok w' Hopen'), Ht, Ha. reflexivity.
    - unfold SyncService.syncPendingSubmissions, bind.
      rewrite (getSubmissionsByUserId_ok _ w' Hopen'), Ht, Hp. reflexivity. }
  destruct (isOnline (sync w)) eqn:Hon;
    [destruct (syncInProgress (sync w)) eqn:Hip|];
    try (unfold after; rewrite startSync_skipped by auto; repeat split; reflexivity).
  assert (Hl : SyncService.startSync_launch w = (SyncService.set_syncInProgress true w, true)).
  { revert Hon Hip Hopen. clear. open_world w. crunch. intros -> -> ->. reflexivity. }
  destruct (Hidle (SyncService.set_syncInProgress true w)) as [E1 E2].
  { revert Hopen. clear. open_world w. crunch. auto. }
  { clear. open_world w. reflexivity. }
  assert (Epass : SyncService.startSync_pass (SyncService.set_syncInProgress true w)
                  = (Ok tt,
                     SyncService.set_syncInProgress false
                       (after SyncService.scheduleSyncInterval
                          (SyncService.set_syncInProgress true w)))).
  { unfold SyncService.startSync_pass, finally, try_catch, bind.
    rewrite E1, E2. reflexivity. }
  unfold after, SyncService.startSync. rewrite Hl, Epass.
  clear. open_world w. repeat split.
Qed.

(** ** Connectivity *)

(** X11. A connectivity event that reports no connection ([false] or
    [null]): the service is offline, the timer is cancelled, a pass in
    flight is not aborted, no table and no counter changes; afterwards
    [startSync] and the timer do nothing and [forcSync] throws. *)
Theorem going_offline_stops_scheduling (c : option bool) (w : World) :
  c = Some false \/ c = None ->
  let w1 := after (SyncService.onNetInfo c) w in
  fst (SyncService.onNetInfo c w) = Ok tt
  /\ sync w1 = mkSyncService false (syncInProgress (sync w)) false
  /\ tables w1 = tables w
  /\ env w1 = env w
  /\ SyncService.startSync w1 = (Ok tt, w1)
  /\ SyncService.onInterval w1 = (Ok tt, w1)
  /\ SyncService.forcSync w1 = (Throw (Error "Cannot sync while offline"), w1).
Proof.
  intros [-> | ->]; open_world w; destruct on; crunch;
    unfold SyncService.startSync, SyncService.forcSync; crunch; repeat split.
Qed.

(** X12. A connectivity event that reports a connection.  When the service
    was already online nothing is launched.  When it was offline with no
    pass in flight, a pass is launched if the database is open, and
    otherwise nothing is launched and no timer is armed.  In every case no
    request has been made and no table changed when the listener returns. *)
Theorem coming_online_launches_one_pass (w : World) :
  let w1 := after (SyncService.onNetInfo (Some true)) w in
  fst (SyncService.onNetInfo (Some true) w) = Ok tt
  /\ tables w1 = tables w
  /\ env w1 = env w
  /\ isOnline (sync w1) = true
  /\ syncInterval (sync w1) = syncInterval (sync w)
  /\ (isOnline (sync w) = true -> syncInProgress (sync w1) = syncInProgress (sync w))
  /\ (isOnline (sync w) = false -> syncInProgress (sync w) = false ->
      syncInProgress (sync w1) = DatabaseService.isInitialized w).
Proof.
  open_world w. crunch. destruct on, ip, h; crunch; repeat split; intros; congruence.
Qed.

(** ** [forcSync] and the profile screen *)

(** X13. [handleSync] of the profile screen never shows the failure alert.
    Offline it shows the offline alert and changes nothing; online it shows
    the success alert whatever the outcomes of the requests are, also when
    no pass ran because one was in flight or the database was not open. *)
Theorem handleSync_never_reports_failure (w : World) :
  fst (ProfileScreen.handleSync w)
  <> ("Erro", "Falha na sincronização. Tente novamente.")
  /\ (isOnline (sync w) = false ->
      ProfileScreen.handleSync w
      = (("Erro", "Você está offline. Conecte-se à internet para sincronizar."), w))
  /\ (isOnline (sync w) = true ->
      forall outcome,
        fst (ProfileScreen.handleSync (with_net outcome w))
        = ("Sucesso", "Sincronização concluída com sucesso!"))
  /\ (isOnline (sync w) = true ->
      syncInProgress (sync w) = true \/ DatabaseService.isInitialized w = false ->
      ProfileScreen.handleSync w = (("Sucesso", "Sincronização concluída com sucesso!"), w)).
Proof.
  assert (Hforc : forall w', isOnline (sync w') = true ->
            fst (SyncService.forcSync w') = Ok tt).
  { intros w' H. unfold SyncService.forcSync. rewrite H. simpl. apply startSync_returns. }
  unfold ProfileScreen.handleSync, SyncService.isConnected.
  split; [|split; [|split]].
  - destruct (isOnline (sync w)) eqn:Hon; simpl; [|discriminate].
    pose proof (Hforc w Hon) as H. destruct (SyncService.forcSync w) as [[[]|e] w1];
      simpl in *; discriminate.
  - intros ->. reflexivity.
  - intros Hon outcome.
    assert (Hon' : isOnline (sync (with_net outcome w)) = true)
      by (revert Hon; clear; open_world w; auto).
    rewrite Hon'. simpl. pose proof (Hforc _ Hon') as H.
    destruct (SyncService.forcSync (with_net outcome w)) as [[[]|e] w1];
      simpl in *; [reflexivity | discriminate].
  - intros Hon Hskip. rewrite Hon. simpl. unfold SyncService.forcSync. rewrite Hon. simpl.
    rewrite startSync_skipped by tauto. reflexivity.
Qed.

(** ** Editing a submission *)

(** X14. [updateSubmissionOffline] on an open database, with a new id for
    the entry.  It returns and appends an [update] entry for the id given,
    whether or not a submission has this id: when none has, no submission
    changes.  A submission that has the id receives the data, [syncStatus =
    pending], the status when one is given and [submittedAt] when it is
    [submitted]; its version and its other columns stay. *)
Theorem updateSubmissionOffline_always_enqueues (submissionId : string) (data : json)
  (status : option SyncService.FillStatus) (w : World) :
  DatabaseService.isInitialized w = true ->
  taken q_id (next_id w) (sync_queue (tables w)) = false ->
  let w1 := after (SyncService.updateSubmissionOffline submissionId data status) w in
  fst (SyncService.updateSubmissionOffline submissionId data status w) = Ok tt
  /\ (exists payload createdAt,
        sync_queue (tables w1)
        = sync_queue (tables w)
          ++ [mkSyncQueue (next_id w) t_submission a_update submissionId payload 0
                None None createdAt])
  /\ (taken s_id submissionId (report_submissions (tables w)) = false ->
      report_submissions (tables w1) = report_submissions (tables w))
  /\ (forall s, In s (report_submissions (tables w)) -> s_id s = submissionId ->
        exists submittedAt lastModified,
          In (mkSubmission (s_id s) (s_reportId s) (s_userId s) data
                (match status with
                 | Some st => SyncService.status_of st
                 | None => s_status s
                 end)
                submittedAt lastModified (s_version s) (s_isOffline s) pending)
             (report_submissions (tables w1))
          /\ (status <> Some SyncService.fill_submitted -> submittedAt = s_submittedAt s)).
Proof.
  open_world w. crunch. intros -> Hq.
  destruct status as [[]|], on, ip; crunch; rewrite Hq; crunch;
    (split; [reflexivity|]); (split; [do 2 eexists; reflexivity|]);
    (split; [intros Hab; rewrite update_where_absent by exact Hab; reflexivity|]);
    intros s Hs <-;
    match goal with
    | |- context [update_where s_id _ (DatabaseService.set_submission ?D ?N) ss] =>
        pose proof (update_where_hit s_id (DatabaseService.set_submission D N) ss s Hs)
          as Hin
    end;
    unfold DatabaseService.set_submission, SyncService.updateData_of in Hin;
    cbn [ps_data ps_status ps_submittedAt ps_syncStatus SyncService.status_of] in Hin;
    do 2 eexists; (split; [exact Hin|]);
    first [ intros _; reflexivity | intros H; exfalso; apply H; reflexivity ].
Qed.

(** ** Saving when the store refuses *)

(** X15. [saveSubmissionOffline] when a write fails.  With the database not
    open, or with an id drawn for the submission that is taken, it throws
    and leaves every table and the flags as they were.  With the submission
    inserted and the id drawn for the queue entry taken, it throws after the
    insertion: the submission is stored, [pending], with no entry in the
    queue for it, and no pass is launched. *)
Theorem saveSubmissionOffline_failures (reportId userId : string) (data : json)
  (status : SyncService.FillStatus) (w : World) :
  let w1 := after (SyncService.saveSubmissionOffline reportId userId data status) w in
  (DatabaseService.isInitialized w = false ->
   fst (SyncService.saveSubmissionOffline reportId userId data status w)
   = Throw (Error "Database not initialized")
   /\ tables w1 = tables w /\ sync w1 = sync w)
  /\ (DatabaseService.isInitialized w = true ->
      taken s_id (next_id w) (report_submissions (tables w)) = true ->
      (exists e, fst (SyncService.saveSubmissionOffline reportId userId data status w)
                 = Throw e)
      /\ tables w1 = tables w /\ sync w1 = sync w)
  /\ (DatabaseService.isInitialized w = true ->
      taken s_id (next_id w) (report_submissions (tables w)) = false ->
      taken q_id (next_id (draw w)) (sync_queue (tables w)) = true ->
      (exists e, fst (SyncService.saveSubmissionOffline reportId userId data status w)
                 = Throw e)
      /\ (exists submittedAt lastModified,
            report_submissions (tables w1)
            = report_submissions (tables w)
              ++ [mkSubmission (next_id w) reportId userId data
                    (SyncService.status_of status) submittedAt lastModified 1 true pending])
      /\ sync_queue (tables w1) = sync_queue (tables w)
      /\ sync w1 = sync w).
Proof.
  open_world w. crunch. split; [|split].
  - intros ->. destruct status; crunch; repeat split.
  - intros -> Hs. destruct status; crunch; rewrite Hs; crunch; repeat split; eauto.
  - intros -> Hs Hq. destruct status; crunch; rewrite Hs; crunch; rewrite Hq; crunch;
      repeat split; eauto.
Qed.

(** ** Statistics of the queue *)

(** X16. [getSyncStats] on an open database changes nothing; [pendingItems]
    is the number of entries below the cap and [failedItems] is 0 whatever
    the queue holds, also when it holds entries at or above the cap. *)
Theorem getSyncStats_counts (w : World) :
  DatabaseService.isInitialized w = true ->
  SyncService.getSyncStats w
  = (Ok (SyncService.mkSyncStats
           (List.length (filter (fun q => q_attempts q <? 3) (sync_queue (tables w))))
           0 None), w).
Proof.
  intros H. unfold SyncService.getSyncStats, bind.
  rewrite (getPendingSyncItems_ok w H), no_failed_among_pending.
  unfold ret. simpl. do 3 f_equal.
  apply Permutation_length, order_by_perm.
Qed.

(** ** What no operation changes in a submission *)

Lemma same_identity_refl (s : ReportSubmission) : same_identity s s.
Proof. repeat split. Qed.

Lemma same_identity_trans (a b c : ReportSubmission) :
  same_identity a b -> same_identity b c -> same_identity a c.
Proof. unfold same_identity. intuition congruence. Qed.

Lemma evolves_by_same (l : list ReportSubmission) : evolves_by same_identity l l.
Proof. apply by_rows, Forall2_same, same_identity_refl. Qed.

Lemma evolves_by_nil (l : list ReportSubmission) : evolves_by same_identity l [].
Proof.
  rewrite <- (filter_none (fun _ => false) l) by reflexivity. apply by_delete.
Qed.

Lemma evolves_by_update (id now : string) (data : PartialSubmission)
  (l : list ReportSubmission) :
  evolves_by same_identity l
    (update_where s_id id (DatabaseService.set_submission data now) l).
Proof.
  apply by_rows, update_where_Forall2; [apply same_identity_refl|].
  intros r _. repeat split.
Qed.

Lemma evolves_by_identity (l l' : list ReportSubmission) :
  NoDup (map s_id l) -> evolves_by same_identity l l' ->
  forall s s', In s l -> In s' l' -> s_id s = s_id s' -> same_identity s s'.
Proof.
  intros Hnd [l1 Hrows|x Hx|p] s s' Hs Hs' E.
  - apply (Forall2_by_id same_identity l l1); auto. intros a b [H _]. exact H.
  - apply in_app_or in Hs' as [Hs'|[<-|[]]].
    + rewrite (same_key_same_row s_id l Hnd s s' Hs Hs' E). apply same_identity_refl.
    + exfalso. apply (proj1 (taken_false_iff s_id _ _) Hx). rewrite <- E. apply in_map, Hs.
  - apply filter_In in Hs' as [Hs' _].
    rewrite (same_key_same_row s_id l Hnd s s' Hs Hs' E). apply same_identity_refl.
Qed.

Lemma sync_pending_identity (x : ReportSubmission) (w : World) :
  Forall2 same_identity (report_submissions (tables w))
    (report_submissions (tables (after (SyncService.sync_pending x) w))).
Proof.
  open_world w. crunch.
  destruct (nt rq), h; crunch; try (apply Forall2_same, same_identity_refl);
    apply update_where_Forall2; try apply same_identity_refl; intros r _; repeat split.
Qed.

Lemma startSync_pass_identity (w : World) :
  Forall2 same_identity (report_submissions (tables w))
    (report_submissions (tables (after SyncService.startSync_pass w))).
Proof.
  assert (Hsame : forall l, Forall2 same_identity l l)
    by (intros l; apply Forall2_same, same_identity_refl).
  unfold SyncService.startSync_pass, after, finally, try_catch, bind.
  pose proof (processSyncQueue_submissions w) as H1. unfold after in H1.
  destruct (SyncService.processSyncQueue w) as [[[]|e] w1]; simpl in H1.
  - assert (H2 : Forall2 same_identity (report_submissions (tables w1))
                   (report_submissions (tables (after SyncService.syncPendingSubmissions w1)))).
    { destruct (getSubmissionsByUserId_cases "current_user_id" w1) as (L & w2 & E & Ht & _).
      unfold SyncService.syncPendingSubmissions, after, bind. rewrite E.
      replace (report_submissions (tables w1)) with (report_submissions (tables w2))
        by (rewrite Ht; reflexivity).
      apply (for_of_invariant
               (fun w' => Forall2 same_identity (report_submissions (tables w2))
                            (report_submissions (tables w')))); [|apply Hsame].
      intros x w' _ Hw'.
      eapply Forall2_compose; [|exact Hw'|apply (sync_pending_identity x w')].
      apply same_identity_trans. }
    unfold after in H2. rewrite H1 in H2.
    destruct (SyncService.syncPendingSubmissions w1) as [[[]|e] w2]; simpl in H2;
      open_world w2; exact H2.
  - open_world w1. simpl in *. rewrite H1. apply Hsame.
Qed.

Lemma startSync_identity (w : World) :
  evolves_by same_identity (report_submissions (tables w))
    (report_submissions (tables (after SyncService.startSync w))).
Proof.
  unfold after, SyncService.startSync.
  pose proof (startSync_launch_tables w) as Ht.
  destruct (SyncService.startSync_launch w) as [w1 go]. simpl in Ht.
  destruct go; simpl.
  - rewrite <- Ht. apply by_rows, startSync_pass_identity.
  - rewrite Ht. apply evolves_by_same.
Qed.

Lemma step_identity (o : Op) (w : World) :
  evolves_by same_identity (report_submissions (tables w))
    (report_submissions (tables (step o w))).
Proof.
  destruct o; simpl step; try apply startSync_identity.
  all: try (open_world w; case_split;
            first [ apply evolves_by_same
                  | apply evolves_by_nil
                  | apply evolves_by_update
                  | apply by_delete
                  | apply by_insert; assumption ]).
  - destruct (syncInProgress (sync w)); [|apply evolves_by_same].
    apply by_rows, startSync_pass_identity.
  - unfold after, SyncService.forcSync.
    destruct (negb (isOnline (sync w))); [apply evolves_by_same | apply startSync_identity].
  - rewrite clearFailedSyncItems_tables. apply evolves_by_same.
Qed.

(** X17. Whatever operation of the application runs on a store with unique
    submission ids, a submission found before and after it has the same
    [reportId], [userId], [version] and [isOffline]: no operation, a local
    edit included, changes the version of a submission. *)
Theorem submission_identity_is_kept (o : Op) (w : World) (s s' : ReportSubmission) :
  submission_ids_unique w ->
  In s (report_submissions (tables w)) ->
  In s' (report_submissions (tables (step o w))) ->
  s_id s = s_id s' ->
  s_reportId s' = s_reportId s /\ s_userId s' = s_userId s
  /\ s_version s' = s_version s /\ s_isOffline s' = s_isOffline s.
Proof.
  intros Hnd Hs Hs' E.
  destruct (evolves_by_identity _ _ Hnd (step_identity o w) s s' Hs Hs' E)
    as (_ & H1 & H2 & H3 & H4).
  auto.
Qed.

(** ** Sessions *)

Lemma first_row_unique {Row : Type} (col : Row -> string) (rows : list Row) (x : Row) :
  NoDup (map col rows) -> In x rows ->
  first_row (where_eq col (col x) rows) = Some x.
Proof.
  intros Hnd Hx. unfold first_row, where_eq.
  induction rows as [|a r IH]; simpl in *; [contradiction|].
  inversion Hnd as [|? ? Hn Hr]; subst.
  destruct (String.eqb (col a) (col x)) eqn:E.
  - simpl. f_equal. apply String.eqb_eq in E.
    destruct Hx as [->|Hx]; [reflexivity|].
    exfalso. apply Hn. rewrite E. apply in_map, Hx.
  - destruct Hx as [->|Hx]; [rewrite String.eqb_refl in E; discriminate|]. auto.
Qed.

(** X18. [login] with the email of a stored user, on an open database whose
    emails are unique: it returns, creates no user and draws no id; the
    stored user, with the role it has, becomes the authenticated user and is
    written to the secure store; the password plays no part. *)
Theorem login_with_stored_email (c : LoginCredentials) (u : User) (w : World) :
  DatabaseService.isInitialized w = true ->
  NoDup (map u_email (users (tables w))) ->
  In u (users (tables w)) ->
  u_email u = lc_email c ->
  let w1 := after (Auth.login c) w in
  fst (Auth.login c w) = Ok tt
  /\ tables w1 = tables w
  /\ drawn (env w1) = drawn (env w)
  /\ isAuthenticated (state (authp w1)) = true
  /\ auth_user (state (authp w1)) = Some u
  /\ user_data (secure (authp w1)) = Some u
  /\ isLoading (authp w1) = false
  /\ (forall password, Auth.login (mkCredentials (lc_email c) password) w = Auth.login c w).
Proof.
  intros Hopen Hnd Hu He.
  pose proof (first_row_unique u_email _ u Hnd Hu) as Hfirst. rewrite He in Hfirst.
  revert Hopen Hfirst. clear. destruct c as [email password].
  open_world w. crunch. intros -> Hfirst. rewrite Hfirst. crunch. repeat split.
Qed.

(** X19. [register] and then [login] with the same email and any password,
    on an open database where the email is new and the id drawn is new:
    both return; the second creates no user and authenticates the user that
    the first inserted, whose role is [user]. *)
Theorem register_then_login (d : RegisterData) (password : string) (w : World) :
  DatabaseService.isInitialized w = true ->
  taken u_email (rd_email d) (users (tables w)) = false ->
  taken u_id (next_id w) (users (tables w)) = false ->
  let w1 := after (Auth.register d) w in
  let w2 := after (Auth.login (mkCredentials (rd_email d) password)) w1 in
  exists u,
    fst (Auth.register d w) = Ok tt
    /\ fst (Auth.login (mkCredentials (rd_email d) password) w1) = Ok tt
    /\ u_id u = next_id w /\ u_email u = rd_email d /\ u_name u = rd_name d
    /\ u_role u = role_user
    /\ users (tables w1) = users (tables w) ++ [u]
    /\ users (tables w2) = users (tables w1)
    /\ auth_user (state (authp w2)) = Some u.
Proof.
  destruct d as [email pw name]. open_world w. crunch. intros -> He Hi.
  rewrite (where_eq_absent u_email email us He). cbn [first_row hd_error].
  rewrite Hi, He.
  rewrite (where_eq_new u_id (ig dr) us (mkUser (ig dr) email name role_user
                                     (iso (ck (S (S tk)))) (iso (ck (S (S tk))))) eq_refl Hi).
  cbn [first_row hd_error]. crunch.
  rewrite (where_eq_new u_email email us (mkUser (ig dr) email name role_user
                                     (iso (ck (S (S tk)))) (iso (ck (S (S tk))))) eq_refl He).
  cbn [first_row hd_error]. crunch.
  exists (mkUser (ig dr) email name role_user (iso (ck (S (S tk)))) (iso (ck (S (S tk))))).
  repeat split.
Qed.

(** X20. The session outlives the process.  After a [login] that returned,
    [checkAuthState] in a new process restores the same user and the same
    token as authenticated; after [logout] it restores nothing.  In both
    cases it ends with [isLoading = false]. *)
Theorem session_survives_restart (c : LoginCredentials) (w : World) :
  fst (Auth.login c w) = Ok tt ->
  let w1 := after (Auth.login c) w in
  let w2 := after Auth.checkAuthState (restart w1) in
  let w3 := after Auth.checkAuthState (restart (after Auth.logout w1)) in
  isAuthenticated (state (authp w1)) = true
  /\ state (authp w2) = state (authp w1)
  /\ isLoading (authp w2) = false
  /\ state (authp w3) = Auth.initialState
  /\ isLoading (authp w3) = false.
Proof.
  destruct c as [email password]. open_world w. unfold restart. crunch.
  destruct h; crunch; [|discriminate].
  destruct (first_row (where_eq u_email email us)) as [u|]; crunch.
  - intros _. repeat split.
  - destruct (taken u_id (ig dr) us); crunch; [discriminate|].
    destruct (taken u_email email us); crunch; [discriminate|].
    destruct (first_row (where_eq u_id (ig dr) _)); crunch; [|discriminate].
    intros _. repeat split.
Qed.

(** X21. [login] and [register] always end with [isLoading = false].  When
    one of them throws, the tables, the authentication state and the secure
    store are as before the call.  On an open database with a new id drawn,
    [login] returns for every email and every password. *)
Theorem login_failure_leaves_session (c : LoginCredentials) (d : RegisterData) (w : World) :
  (isLoading (authp (after (Auth.login c) w)) = false
   /\ isLoading (authp (after (Auth.register d) w)) = false)
  /\ (forall e, fst (Auth.login c w) = Throw e ->
        tables (after (Auth.login c) w) = tables w
        /\ state (authp (after (Auth.login c) w)) = state (authp w)
        /\ secure (authp (after (Auth.login c) w)) = secure (authp w))
  /\ (forall e, fst (Auth.register d w) = Throw e ->
        tables (after (Auth.register d) w) = tables w
        /\ state (authp (after (Auth.register d) w)) = state (authp w)
        /\ secure (authp (after (Auth.register d) w)) = secure (authp w))
  /\ (DatabaseService.isInitialized w = true ->
      taken u_id (next_id w) (users (tables w)) = false ->
      fst (Auth.login c w) = Ok tt).
Proof.
  destruct c as [email password], d as [email' password' name'].
  open_world w. crunch.
  split; [|split; [|split]].
  - destruct h; crunch; [|split; reflexivity]. split.
    + destruct (first_row (where_eq u_email email us)); crunch; [reflexivity|].
      destruct (taken u_id (ig dr) us); crunch; [reflexivity|].
      destruct (taken u_email email us); crunch; [reflexivity|].
      destruct (first_row (where_eq u_id (ig dr) _)); reflexivity.
    + destruct (first_row (where_eq u_email email' us)); crunch; [reflexivity|].
      destruct (taken u_id (ig dr) us); crunch; [reflexivity|].
      destruct (taken u_email email' us); crunch; [reflexivity|].
      destruct (first_row (where_eq u_id (ig dr) _)); reflexivity.
  - intros e. destruct h; crunch; [|intros _; repeat split].
    destruct (first_row (where_eq u_email email us)); crunch; [discriminate|].
    destruct (taken u_id (ig dr) us) eqn:Hi; crunch; [intros _; repeat split|].
    destruct (taken u_email email us) eqn:He; crunch; [intros _; repeat split|].
    rewrite (where_eq_new u_id (ig dr) us
               (mkUser (ig dr) email (split_at_0 email) role_admin
                  (iso (ck (S (S tk)))) (iso (ck (S (S tk))))) eq_refl Hi).
    cbn [first_row hd_error]. crunch. discriminate.
  - intros e. destruct h; crunch; [|intros _; repeat split].
    destruct (first_row (where_eq u_email email' us)); crunch; [intros _; repeat split|].
    destruct (taken u_id (ig dr) us) eqn:Hi; crunch; [intros _; repeat split|].
    destruct (taken u_email email' us) eqn:He; crunch; [intros _; repeat split|].
    rewrite (where_eq_new u_id (ig dr) us
               (mkUser (ig dr) email' name' role_user
                  (iso (ck (S (S tk)))) (iso (ck (S (S tk))))) eq_refl Hi).
    cbn [first_row hd_error]. crunch. discriminate.
  - intros -> Hi.
    destruct (first_row (where_eq u_email email us)) eqn:Hf; crunch; [reflexivity|].
    rewrite Hi.
    assert (He : taken u_email email us = false).
    { destruct (taken u_email email us) eqn:He; [|reflexivity].
      destruct (where_eq_present u_email email us He) as [x Hx]. congruence. }
    rewrite He.
    rewrite (where_eq_new u_id (ig dr) us
               (mkUser (ig dr) email (split_at_0 email) role_admin
                  (iso (ck (S (S tk)))) (iso (ck (S (S tk))))) eq_refl Hi).
    reflexivity.
Qed.

(** X22. In the browser [init] returns with the handle absent, and then
    every [login], [register], [loginWithGoogle] and [loginWithMicrosoft]
    throws ["Database not initialized"] and nobody is authenticated. *)
Theorem no_authentication_in_browser (w : World) :
  platform (dbs w) = web ->
  let w0 := after DatabaseService.init w in
  fst (DatabaseService.init w) = Ok tt
  /\ DatabaseService.isInitialized w0 = false
  /\ (forall c, fst (Auth.login c w0) = Throw (Error "Database not initialized")
               /\ state (authp (after (Auth.login c) w0)) = state (authp w))
  /\ (forall d, fst (Auth.register d w0) = Throw (Error "Database not initialized")
               /\ state (authp (after (Auth.register d) w0)) = state (authp w))
  /\ fst (Auth.loginWithGoogle w0) = Throw (Error "Database not initialized")
  /\ fst (Auth.loginWithMicrosoft w0) = Throw (Error "Database not initialized").
Proof.
  open_world w. crunch. intros ->. repeat split.
Qed.

(** ** Filling a report *)

Ltac open_screen sc :=
  destruct sc as [rid sid ld sv rep sub fd al wb].

(** X23. With a report loaded and a user signed in, "Salvar Rascunho" always
    ends with the alert ["Rascunho salvo com sucesso!"] and no other, and
    with [saving] reset.  When the database is closed (always so in the
    browser) no table has changed and the screen holds the submission it
    held: the draft was not saved. *)
Theorem handleSaveDraft_always_reports_success
  (sc : FillReportScreen.Screen) (r : Report) (u : User) (w : World) :
  FillReportScreen.report sc = Some r ->
  auth_user (state (authp w)) = Some u ->
  let sc1 := fst (FillReportScreen.handleSaveDraft sc w) in
  let w1 := snd (FillReportScreen.handleSaveDraft sc w) in
  FillReportScreen.alerts sc1
  = FillReportScreen.alerts sc ++ [("Sucesso", "Rascunho salvo com sucesso!")]
  /\ FillReportScreen.saving sc1 = false
  /\ (DatabaseService.isInitialized w = false ->
      tables w1 = tables w
      /\ FillReportScreen.submission sc1 = FillReportScreen.submission sc).
Proof.
  open_screen sc. simpl. intros -> Hu.
  unfold FillReportScreen.handleSaveDraft, FillReportScreen.autoSave.
  cbn [FillReportScreen.report FillReportScreen.submission FillReportScreen.setSaving
       FillReportScreen.formData].
  rewrite Hu.
  destruct sub as [s|].
  - destruct (SyncService.updateSubmissionOffline (s_id s) fd None w) as [[[]|e] w1] eqn:E;
      cbn; (split; [reflexivity|]); (split; [reflexivity|]); intros Hc;
      (split; [|reflexivity]).
    all: replace w1 with (after (SyncService.updateSubmissionOffline (s_id s) fd None) w)
      by (unfold after; rewrite E; reflexivity).
    all: clear E Hu; revert Hc; open_world w; crunch; intros ->; reflexivity.
  - destruct (SyncService.saveSubmissionOffline (r_id r) (u_id u) fd SyncService.fill_draft w)
      as [[i|e] w1] eqn:E.
    + destruct (DatabaseService.getSubmissionsByUserId (u_id u) w1) as [[l|e] w2] eqn:E2.
      * destruct (find _ l); cbn; (split; [reflexivity|]); (split; [reflexivity|]);
          intros Hc; exfalso; clear E2 Hu; revert Hc E; open_world w; crunch;
          intros ->; discriminate.
      * cbn. split; [reflexivity|]. split; [reflexivity|].
        intros Hc; exfalso; clear E2 Hu; revert Hc E; open_world w; crunch;
          intros ->; discriminate.
    + cbn. split; [reflexivity|]. split; [reflexivity|]. intros Hc. split; [|reflexivity].
      replace w1 with (after (SyncService.saveSubmissionOffline (r_id r) (u_id u) fd
                                SyncService.fill_draft) w)
        by (unfold after; rewrite E; reflexivity).
      clear E Hu; revert Hc; open_world w; crunch; intros ->; reflexivity.
Qed.

(** The row just stored is the one that [find] returns among the
    submissions of its user. *)
Lemma find_created (ss : list ReportSubmission) (x : ReportSubmission) :
  taken s_id (s_id x) ss = false ->
  find (fun s => String.eqb (s_id s) (s_id x))
    (order_by (desc s_lastModified) (where_eq s_userId (s_userId x) (ss ++ [x])))
  = Some x.
Proof.
  intros Hnew. apply find_the_one.
  - apply order_by_In, where_eq_In. split; [|reflexivity].
    apply in_or_app. right. left. reflexivity.
  - apply String.eqb_refl.
  - intros y Hy Hid. apply String.eqb_eq in Hid.
    apply order_by_In, where_eq_In in Hy as [Hy _].
    apply in_app_or in Hy as [Hy|[Hy|[]]]; [|auto].
    apply taken_false_iff in Hnew. exfalso. apply Hnew.
    rewrite <- Hid. apply in_map, Hy.
Qed.

Lemma taken_after_insert {Row : Type} (col : Row -> string) (v : string)
  (rows : list Row) (x : Row) :
  taken col v (rows ++ [x]) = taken col v rows || String.eqb (col x) v.
Proof.
  unfold taken. rewrite existsb_app. simpl. rewrite orb_false_r. reflexivity.
Qed.

Lemma update_where_new {Row : Type} (col : Row -> string) (v : string) (f : Row -> Row)
  (rows : list Row) (x : Row) :
  col x = v -> taken col v rows = false ->
  update_where col v f (rows ++ [x]) = rows ++ [f x].
Proof.
  intros <- Hnew. unfold update_where. rewrite map_app.
  fold (update_where col (col x) f rows). rewrite (update_where_absent _ _ _ _ Hnew).
  simpl. rewrite String.eqb_refl. reflexivity.
Qed.

(** X24. "Salvar Rascunho" pressed twice on a form with no draft yet, on an
    open database and with new identifiers drawn: the first press stores
    one submission and the screen holds it; the second press, with other
    data in the form, rewrites that row and stores no second one.  The
    queue receives a [create] and then an [update] entry for the same
    submission. *)
Theorem second_save_updates_the_draft
  (sc : FillReportScreen.Screen) (r : Report) (u : User) (data2 : json) (w : World) :
  FillReportScreen.report sc = Some r ->
  FillReportScreen.submission sc = None ->
  auth_user (state (authp w)) = Some u ->
  DatabaseService.isInitialized w = true ->
  taken s_id (next_id w) (report_submissions (tables w)) = false ->
  taken q_id (next_id (draw w)) (sync_queue (tables w)) = false ->
  taken q_id (next_id (draw (draw w))) (sync_queue (tables w)) = false ->
  next_id (draw (draw w)) <> next_id (draw w) ->
  let sc1 := fst (FillReportScreen.handleSaveDraft sc w) in
  let w1 := snd (FillReportScreen.handleSaveDraft sc w) in
  let sc2 :=
    fst (FillReportScreen.handleSaveDraft (FillReportScreen.setFormData data2 sc1) w1) in
  let w2 :=
    snd (FillReportScreen.handleSaveDraft (FillReportScreen.setFormData data2 sc1) w1) in
  exists t1 t2 c1 c2 p1 p2,
    FillReportScreen.submission sc1
    = Some (mkSubmission (next_id w) (r_id r) (u_id u) (FillReportScreen.formData sc)
              draft None t1 1 true pending)
    /\ report_submissions (tables w1)
       = report_submissions (tables w)
         ++ [mkSubmission (next_id w) (r_id r) (u_id u) (FillReportScreen.formData sc)
               draft None t1 1 true pending]
    /\ report_submissions (tables w2)
       = report_submissions (tables w)
         ++ [mkSubmission (next_id w) (r_id r) (u_id u) data2 draft None t2 1 true pending]
    /\ sync_queue (tables w2)
       = sync_queue (tables w)
         ++ [mkSyncQueue (next_id (draw w)) t_submission a_create (next_id w) p1 0
               None None c1;
             mkSyncQueue (next_id (draw (draw w))) t_submission a_update (next_id w) p2 0
               None None c2]
    /\ FillReportScreen.alerts sc2
       = FillReportScreen.alerts sc
         ++ [("Sucesso", "Rascunho salvo com sucesso!");
             ("Sucesso", "Rascunho salvo com sucesso!")].
Proof.
  open_screen sc. simpl FillReportScreen.report. simpl FillReportScreen.submission.
  simpl FillReportScreen.formData. simpl FillReportScreen.alerts.
  intros -> -> Hu Hopen Hs Hq Hq' Hne.
  unfold FillReportScreen.handleSaveDraft, FillReportScreen.autoSave.
  cbn [FillReportScreen.report FillReportScreen.submission FillReportScreen.setSaving
       FillReportScreen.formData].
  revert Hu Hopen Hs Hq Hq' Hne. open_world w.
  cbn [authp state env drawn idgen]. crunch. intros Hu -> Hs Hq Hq' Hne.
  rewrite Hu, Hs, Hq.
  pose proof (find_created ss
                (mkSubmission (ig dr) (r_id r) (u_id u) fd draft None (iso (ck (S tk))) 1
                   true pending) Hs) as Hfind.
  cbn [s_id s_userId] in Hfind.
  assert (Hq2 : taken q_id (ig (S (S dr)))
                  (qs ++ [mkSyncQueue (ig (S dr)) t_submission a_create (ig dr)
                            (SyncService.create_payload (r_id r) (u_id u) fd
                               SyncService.fill_draft None)
                            0 None None (iso (ck (S (S (S tk)))))]) = false).
  { rewrite taken_after_insert, Hq'. cbn [q_id orb].
    apply String.eqb_neq. intros E. apply Hne. symmetry. exact E. }
  destruct on, ip; crunch; rewrite Hfind;
    cbn [FillReportScreen.report FillReportScreen.submission FillReportScreen.setSaving
         FillReportScreen.formData FillReportScreen.setSubmission FillReportScreen.alert
         FillReportScreen.setFormData FillReportScreen.alerts fst snd s_id];
    crunch; rewrite ?Hu; crunch; cbn [or_null] in *; rewrite Hq2;
    (rewrite update_where_new; [|reflexivity|exact Hs]);
    unfold DatabaseService.set_submission, SyncService.updateData_of;
    cbn [FillReportScreen.alerts FillReportScreen.alert FillReportScreen.setSaving
         FillReportScreen.submission fst snd
         ps_data ps_status ps_submittedAt ps_syncStatus
         s_id s_reportId s_userId s_data s_status s_submittedAt s_version s_isOffline
         s_syncStatus];
    do 6 eexists;
    (split; [reflexivity|]); (split; [reflexivity|]); (split; [reflexivity|]);
    (split; [rewrite <- ?app_assoc; reflexivity|]);
    cbn; rewrite <- ?app_assoc; reflexivity.
Qed.

Lemma is_draft_of_iff (reportData : Report) (s : ReportSubmission) :
  FillReportScreen.is_draft_of reportData s = true
  <-> s_reportId s = r_id reportData /\ s_status s = draft.
Proof.
  unfold FillReportScreen.is_draft_of. rewrite andb_true_iff, String.eqb_eq.
  destruct (s_status s); simpl; intuition discriminate.
Qed.

(** In rows sorted latest first, the first row that passes a test is the
    latest of those that pass it. *)
Lemma first_found_is_latest {Row : Type} (key : Row -> string) (test : Row -> bool)
  (rows : list Row) (x : Row) :
  find test (order_by (desc key) rows) = Some x ->
  In x rows /\ test x = true
  /\ forall y, In y rows -> test y = true -> String.leb (key y) (key x) = true.
Proof.
  intros Hfind.
  assert (Hsorted : StronglySorted (fun a b => String.leb (key b) (key a) = true)
                      (order_by (desc key) rows)).
  { apply Sorted_StronglySorted.
    - intros a b c Hab Hbc. exact (String_leb_trans _ _ _ Hbc Hab).
    - apply (order_by_sorted (desc key)). intros a b. apply desc_total. }
  assert (Hall : forall y, In y (order_by (desc key) rows) -> test y = true ->
                           String.leb (key y) (key x) = true).
  { revert Hfind Hsorted. generalize (order_by (desc key) rows) as sorted.
    induction sorted as [|a rest IH]; simpl; intros Hfind Hsorted y Hy Hty; [contradiction|].
    apply StronglySorted_inv in Hsorted as [Hrest Ha].
    destruct (test a) eqn:Hta.
    - injection Hfind as ->. destruct Hy as [->|Hy].
      + destruct (String.leb_total (key y) (key y)); assumption.
      + rewrite Forall_forall in Ha. apply Ha, Hy.
    - destruct Hy as [->|Hy]; [congruence|]. apply (IH Hfind Hrest y Hy Hty). }
  apply find_some in Hfind as [Hin Htest].
  split; [apply (order_by_In (desc key)), Hin|]. split; [exact Htest|].
  intros y Hy. apply Hall, order_by_In, Hy.
Qed.

Lemma first_row_In {Row : Type} (col : Row -> string) (v : string) (rows : list Row)
  (x : Row) :
  first_row (where_eq col v rows) = Some x -> In x rows /\ col x = v.
Proof.
  intros H. apply where_eq_In. unfold first_row in H.
  destruct (where_eq col v rows) as [|a rest]; [discriminate|].
  injection H as ->. left. reflexivity.
Qed.

(** X25. Opening the form of a report on a device, with a user signed in and
    no submission named in the route: the database is opened if need be and
    no table changes.  When no report has the id of the route the screen
    shows ["Relatório não encontrado"] and goes back.  Otherwise it holds
    the report, and resumes the draft of this user for this report that was
    modified last, with its data in the form; it holds no submission only
    when the user has no draft for the report. *)
Theorem loadReportAndSubmission_resumes_latest_draft (rid : string) (u : User) (w : World) :
  platform (dbs w) = native ->
  auth_user (state (authp w)) = Some u ->
  let opened := FillReportScreen.loadReportAndSubmission (FillReportScreen.mount rid None) w in
  let sc := fst opened in
  let mine s :=
    In s (report_submissions (tables w)) /\ s_userId s = u_id u
    /\ s_reportId s = rid /\ s_status s = draft in
  FillReportScreen.loading sc = false
  /\ tables (snd opened) = tables w
  /\ DatabaseService.isInitialized (snd opened) = true
  /\ (taken r_id rid (reports (tables w)) = false ->
      FillReportScreen.report sc = None
      /\ FillReportScreen.wentBack sc = true
      /\ FillReportScreen.alerts sc = [("Erro", "Relatório não encontrado")])
  /\ (taken r_id rid (reports (tables w)) = true ->
      (exists r, FillReportScreen.report sc = Some r
                 /\ In r (reports (tables w)) /\ r_id r = rid)
      /\ FillReportScreen.wentBack sc = false
      /\ FillReportScreen.alerts sc = []
      /\ match FillReportScreen.submission sc with
         | Some s =>
             mine s /\ FillReportScreen.formData sc = s_data s
             /\ forall s', mine s' ->
                  String.leb (s_lastModified s') (s_lastModified s) = true
         | None => FillReportScreen.formData sc = JObj [] /\ forall s', ~ mine s'
         end).
Proof.
  unfold FillReportScreen.loadReportAndSubmission, FillReportScreen.mount.
  cbn [FillReportScreen.reportId FillReportScreen.submissionId truthy or_null].
  open_world w. crunch. intros -> Hu. rewrite Hu.
  destruct h; crunch.
  all: destruct (first_row (where_eq r_id rid rs)) as [r|] eqn:Hr; crunch.
  all: try (split; [reflexivity|]; split; [reflexivity|]; split; [reflexivity|]; split;
            [intros Hnone; rewrite (where_eq_absent _ _ _ Hnone) in Hr; discriminate|]).
  all: try (split; [reflexivity|]; split; [reflexivity|]; split; [reflexivity|]; split;
            [intros _; repeat split
            |intros Hsome; destruct (where_eq_present _ _ _ Hsome) as [x Hx]; congruence]).
  all: destruct (first_row_In _ _ _ _ Hr) as [Hin Hrid].
  all: destruct (find (FillReportScreen.is_draft_of r)
                   (order_by (desc s_lastModified) (where_eq s_userId (u_id u) ss)))
         as [s|] eqn:Hfind; cbn.
  all: try (split; [reflexivity|]; split; [reflexivity|]; split; [reflexivity|]).
  all: try (split; [intros Hnone; rewrite (where_eq_absent _ _ _ Hnone) in Hr; discriminate|]).
  all: intros _; split; [exists r; auto|]; split; [reflexivity|]; split; [reflexivity|].
  all: try (apply first_found_is_latest in Hfind as (Hs & Hdraft & Hlatest);
            apply where_eq_In in Hs as [Hs Hmine];
            apply is_draft_of_iff in Hdraft as [Hrep Hst];
            split; [repeat split; congruence|]; split; [reflexivity|];
            intros s' (Hs' & Hu' & Hr' & Hst'); apply Hlatest;
            [apply where_eq_In; auto | apply is_draft_of_iff; split; congruence]).
  all: split; [reflexivity|]; intros s' (Hs' & Hu' & Hr' & Hst').
  all: assert (Hd : FillReportScreen.is_draft_of r s' = true)
         by (apply is_draft_of_iff; split; congruence).
  all: rewrite (find_none _ _ Hfind s') in Hd; [discriminate|].
  all: apply order_by_In, where_eq_In; auto.
Qed.

(** The row just stored is the draft that [find] returns when its user had
    no draft for the report. *)
Lemma find_only_draft (ss : list ReportSubmission) (r : Report) (x : ReportSubmission) :
  s_reportId x = r_id r -> s_status x = draft ->
  (forall s, In s ss -> s_userId s = s_userId x -> s_reportId s = r_id r ->
             s_status s <> draft) ->
  find (FillReportScreen.is_draft_of r)
    (order_by (desc s_lastModified) (where_eq s_userId (s_userId x) (ss ++ [x])))
  = Some x.
Proof.
  intros Hrep Hst Hnone. apply find_the_one.
  - apply order_by_In, where_eq_In. split; [|reflexivity].
    apply in_or_app. right. left. reflexivity.
  - apply is_draft_of_iff. auto.
  - intros y Hy Hdraft. apply is_draft_of_iff in Hdraft as [Hyr Hys].
    apply order_by_In, where_eq_In in Hy as [Hy Hyu].
    apply in_app_or in Hy as [Hy|[Hy|[]]]; [|auto].
    exfalso. exact (Hnone y Hy Hyu Hyr Hys).
Qed.

(** X26. A draft that "Salvar Rascunho" stored is resumed when the form of
    the report is opened again: on an open database, for a user who had no
    draft for the report, the screen that mounts after the save holds the
    stored submission and shows the data that was saved. *)
Theorem saved_draft_is_resumed
  (sc : FillReportScreen.Screen) (r : Report) (u : User) (w : World) :
  FillReportScreen.report sc = Some r ->
  FillReportScreen.submission sc = None ->
  auth_user (state (authp w)) = Some u ->
  DatabaseService.isInitialized w = true ->
  first_row (where_eq r_id (r_id r) (reports (tables w))) = Some r ->
  (forall s, In s (report_submissions (tables w)) -> s_userId s = u_id u ->
             s_reportId s = r_id r -> s_status s <> draft) ->
  taken s_id (next_id w) (report_submissions (tables w)) = false ->
  taken q_id (next_id (draw w)) (sync_queue (tables w)) = false ->
  let w1 := snd (FillReportScreen.handleSaveDraft sc w) in
  let sc' :=
    fst (FillReportScreen.loadReportAndSubmission (FillReportScreen.mount (r_id r) None) w1) in
  FillReportScreen.report sc' = Some r
  /\ FillReportScreen.formData sc' = FillReportScreen.formData sc
  /\ FillReportScreen.alerts sc' = []
  /\ FillReportScreen.wentBack sc' = false
  /\ exists s,
       FillReportScreen.submission sc' = Some s
       /\ In s (report_submissions (tables w1))
       /\ s_id s = next_id w /\ s_data s = FillReportScreen.formData sc
       /\ s_status s = draft /\ s_syncStatus s = pending.
Proof.
  open_screen sc. simpl FillReportScreen.report. simpl FillReportScreen.submission.
  simpl FillReportScreen.formData.
  intros -> -> Hu Hopen Hr Hnone Hs Hq.
  unfold FillReportScreen.handleSaveDraft, FillReportScreen.autoSave,
    FillReportScreen.loadReportAndSubmission, FillReportScreen.mount.
  cbn [FillReportScreen.report FillReportScreen.submission FillReportScreen.setSaving
       FillReportScreen.formData FillReportScreen.reportId FillReportScreen.submissionId
       truthy or_null].
  revert Hu Hopen Hr Hnone Hs Hq. open_world w.
  cbn [authp state env drawn idgen]. crunch. intros Hu -> Hr Hnone Hs Hq.
  rewrite Hu, Hs, Hq.
  pose proof (find_created ss
                (mkSubmission (ig dr) (r_id r) (u_id u) fd draft None (iso (ck (S tk))) 1
                   true pending) Hs) as Hfind.
  pose proof (find_only_draft ss r
                (mkSubmission (ig dr) (r_id r) (u_id u) fd draft None (iso (ck (S tk))) 1
                   true pending) eq_refl eq_refl Hnone) as Hdraft.
  cbn [s_id s_userId] in Hfind, Hdraft.
  destruct on, ip; crunch; rewrite Hfind; cbn [fst snd]; crunch;
    rewrite ?Hu, Hr; crunch; rewrite ?Hu; crunch; rewrite Hdraft; cbn;
    (split; [reflexivity|]); (split; [reflexivity|]); (split; [reflexivity|]);
    (split; [reflexivity|]);
    eexists; (split; [reflexivity|]);
    (split; [apply in_or_app; right; left; reflexivity|]); repeat split.
Qed.

(** * The transport and [syncStatus] *)

(** ** What a pass writes to the submissions *)

Lemma index_of_absent (id : string) (L : list ReportSubmission) :
  ~ In id (map s_id L) -> index_of id L = None.
Proof.
  induction L as [|x L IH]; simpl; intros H; [reflexivity|].
  destruct (String.eqb (s_id x) id) eqn:E.
  - exfalso. apply H. left. apply String.eqb_eq, E.
  - rewrite IH; [reflexivity|]. intros Hin. apply H. right. exact Hin.
Qed.

Lemma index_of_listed (id : string) (L : list ReportSubmission) :
  In id (map s_id L) -> index_of id L <> None.
Proof.
  induction L as [|x L IH]; simpl; intros H; [contradiction|].
  destruct (String.eqb (s_id x) id) eqn:E; [discriminate|].
  destruct H as [H|H]; [apply String.eqb_neq in E; contradiction|].
  specialize (IH H). destruct (index_of id L); [discriminate | contradiction].
Qed.

(** One iteration of the loop of [syncPendingSubmissions] on an open
    database: one request, and [syncStatus] of the rows with the id of the
    submission written by its outcome. *)
Lemma sync_pending_run (x : ReportSubmission) (w : World) :
  DatabaseService.isInitialized w = true ->
  let w1 := after (SyncService.sync_pending x) w in
  fst (SyncService.sync_pending x w) = Ok tt
  /\ DatabaseService.isInitialized w1 = true
  /\ net (env w1) = net (env w)
  /\ requests (env w1) = S (requests (env w))
  /\ exists now,
       report_submissions (tables w1)
       = update_where s_id (s_id x)
           (DatabaseService.set_submission
              (only_syncStatus (if next_outcome w then synced else error)) now)
           (report_submissions (tables w)).
Proof.
  open_world w. crunch. intros ->.
  destruct (nt rq); crunch; repeat split; eexists; reflexivity.
Qed.

Lemma update_where_exact {Row : Type} (col : Row -> string) (v : string)
  (f : Row -> Row) (rows : list Row) :
  Forall2 (fun r r' => r' = if String.eqb (col r) v then f r else r)
    rows (update_where col v f rows).
Proof.
  unfold update_where. induction rows as [|r rows IH]; simpl; constructor; auto.
Qed.

(** The loop of [syncPendingSubmissions] over submissions with distinct
    ids, on an open database: the [k]-th submission makes the [k]-th request
    of the loop and its row is written [synced] when the request resolves
    and [error] when it fails; the other rows keep their [syncStatus]. *)
Lemma for_of_sync_pending_exact (L : list ReportSubmission) : forall w : World,
  DatabaseService.isInitialized w = true ->
  NoDup (map s_id L) ->
  fst (for_of L SyncService.sync_pending w) = Ok tt
  /\ Forall2 (pushed_row (net (env w)) (requests (env w)) L)
       (report_submissions (tables w))
       (report_submissions (tables (after (for_of L SyncService.sync_pending) w))).
Proof.
  induction L as [|x L IH]; intros w Hopen Hnd.
  - split; [reflexivity|]. apply Forall2_same. intros s. split; reflexivity.
  - simpl in Hnd. inversion Hnd as [|? ? Hx HL]; subst.
    destruct (sync_pending_run x w Hopen) as (Hok & Hopen1 & Hnet & Hreq & now & Hrows).
    assert (E : for_of (x :: L) SyncService.sync_pending w
                = match SyncService.sync_pending x w with
                  | (Ok _, w1) => for_of L SyncService.sync_pending w1
                  | (Throw e, w1) => (Throw e, w1)
                  end) by reflexivity.
    unfold after in *. rewrite E. clear E.
    destruct (SyncService.sync_pending x w) as [[[]|e] w1]; simpl in *; [|discriminate].
    destruct (IH w1 Hopen1 HL) as [Hok' Hrest]. split; [exact Hok'|].
    rewrite Hnet, Hreq, Hrows in Hrest.
    eapply Forall2_compose; [|apply update_where_exact|exact Hrest].
    intros s s1 s' -> [Hid Hst]. unfold pushed_row. simpl.
    rewrite String.eqb_sym.
    destruct (String.eqb (s_id s) (s_id x)) eqn:Es.
    + apply String.eqb_eq in Es. simpl in Hid, Hst.
      rewrite (index_of_absent (s_id s) L) in Hst by (rewrite Es; exact Hx).
      split; [exact Hid|]. rewrite Hst, Nat.add_0_r. reflexivity.
    + split; [exact Hid|]. rewrite Hst.
      destruct (index_of (s_id s) L) as [k|]; [|reflexivity].
      replace (S (requests (env w)) + k)%nat with (requests (env w) + S k)%nat by lia.
      reflexivity.
Qed.

Lemma process_item_net (item : SyncQueue) (w : World) :
  net (env (after (SyncService.process_item item) w)) = net (env w).
Proof. open_world w. crunch. destruct (nt rq), h; reflexivity. Qed.

Lemma processSyncQueue_net (w : World) :
  net (env (after SyncService.processSyncQueue w)) = net (env w).
Proof.
  unfold SyncService.processSyncQueue, after, bind.
  destruct (DatabaseService.getPendingSyncItems w) as [[L|e] w1] eqn:E.
  - assert (w1 = w) as ->.
    { revert E. open_world w. crunch. destruct h; congruence. }
    apply (for_of_invariant (fun w' => net (env w') = net (env w))); [|reflexivity].
    intros x w' _ Hw'. rewrite process_item_net. exact Hw'.
  - revert E. open_world w. crunch. destruct h; [discriminate|].
    intros E. injection E as _ <-. reflexivity.
Qed.

Lemma pushed_ids_unique (w : World) :
  submission_ids_unique w -> NoDup (map s_id (pushed_submissions w)).
Proof.
  intros H. unfold pushed_submissions. apply unique_keys_filter.
  eapply Permutation_NoDup.
  - apply Permutation_map, Permutation_sym, order_by_perm.
  - apply unique_keys_filter, H.
Qed.

(** A pass on an open database writes [syncStatus] of every submission it
    pushes by the outcome of its request, and of no other. *)
Lemma startSync_pass_exact (w : World) :
  DatabaseService.isInitialized w = true ->
  submission_ids_unique w ->
  Forall2 (pass_row w)
    (report_submissions (tables w))
    (report_submissions (tables (after SyncService.startSync_pass w))).
Proof.
  intros Hopen Hnd.
  destruct (processSyncQueue_run w Hopen) as (Hok1 & Hopen1 & Hreq1 & _).
  pose proof (processSyncQueue_submissions w) as Hsubs1.
  pose proof (processSyncQueue_net w) as Hnet1.
  unfold after in *.
  unfold SyncService.startSync_pass, finally, try_catch, bind.
  destruct (SyncService.processSyncQueue w) as [[[]|e] w1]; simpl in *; [|discriminate].
  assert (Hp : pushed_submissions w1 = pushed_submissions w).
  { unfold pushed_submissions. rewrite Hsubs1. reflexivity. }
  assert (Hloop : SyncService.syncPendingSubmissions w1
                  = for_of (pushed_submissions w) SyncService.sync_pending w1).
  { unfold SyncService.syncPendingSubmissions, bind.
    rewrite (getSubmissionsByUserId_ok _ w1 Hopen1). fold (pushed_submissions w1).
    rewrite Hp. reflexivity. }
  destruct (for_of_sync_pending_exact (pushed_submissions w) w1 Hopen1
              (pushed_ids_unique w Hnd)) as [Hok2 Hrows].
  unfold after in Hrows. rewrite Hloop.
  rewrite Hsubs1, Hnet1, Hreq1 in Hrows.
  assert (Hgoal : Forall2 (pass_row w) (report_submissions (tables w))
                    (report_submissions
                       (tables (snd (for_of (pushed_submissions w)
                                       SyncService.sync_pending w1))))).
  { eapply Forall2_In_impl; [|exact Hrows].
    intros s s' _ [Hid Hst]. split; [exact Hid|]. rewrite Hst. unfold push_outcome.
    destruct (index_of (s_id s) (pushed_submissions w)); reflexivity. }
  destruct (for_of (pushed_submissions w) SyncService.sync_pending w1) as [[[]|e] w2];
    simpl in *; [|discriminate].
  open_world w2. exact Hgoal.
Qed.

Lemma startSync_pass_closed (w : World) :
  DatabaseService.isInitialized w = false ->
  tables (after SyncService.startSync_pass w) = tables w.
Proof.
  intros Hclosed.
  assert (E : SyncService.processSyncQueue w = (Throw (Error "Database not initialized"), w)).
  { unfold SyncService.processSyncQueue, bind.
    revert Hclosed. open_world w. crunch. intros ->. reflexivity. }
  unfold after, SyncService.startSync_pass, finally, try_catch, bind. rewrite E.
  open_world w. reflexivity.
Qed.

(** A submission is pushed by a pass exactly when it is [pending] and
    belongs to ['current_user_id']. *)
Lemma push_outcome_pending (w : World) (s : ReportSubmission) :
  submission_ids_unique w ->
  In s (report_submissions (tables w)) ->
  push_outcome w s <> None
  <-> s_syncStatus s = pending /\ s_userId s = "current_user_id".
Proof.
  intros Hnd Hs.
  assert (Hin : forall x, In x (pushed_submissions w) <->
                  In x (report_submissions (tables w))
                  /\ s_userId x = "current_user_id" /\ s_syncStatus x = pending).
  { intros x. unfold pushed_submissions.
    rewrite filter_In, order_by_In, where_eq_In, SyncStatus_eqb_eq. tauto. }
  unfold push_outcome. split.
  - intros H.
    destruct (index_of (s_id s) (pushed_submissions w)) eqn:E; [|contradiction].
    assert (Hl : In (s_id s) (map s_id (pushed_submissions w))).
    { destruct (in_dec string_dec (s_id s) (map s_id (pushed_submissions w))) as [Hi|Hn];
        [exact Hi|]. rewrite (index_of_absent _ _ Hn) in E. discriminate. }
    apply in_map_iff in Hl as (x & Hx & Hxin). apply Hin in Hxin as (Hxs & Hu & Hp).
    rewrite (same_key_same_row s_id _ Hnd x s Hxs Hs Hx) in Hu, Hp. auto.
  - intros [Hp Hu].
    assert (Hl : index_of (s_id s) (pushed_submissions w) <> None).
    { apply index_of_listed, in_map, Hin. auto. }
    destruct (index_of (s_id s) (pushed_submissions w)); [discriminate | contradiction].
Qed.

(** ** [syncStatus] through the operations *)

Lemma op_row_same (o : Op) (w : World) (l : list ReportSubmission) :
  (forall s, status_after o w s = s_syncStatus s) -> Forall2 (op_row o w) l l.
Proof. intros H. apply Forall2_same. intros s. split; [reflexivity | symmetry; apply H]. Qed.

Lemma startSync_rows (o : Op) (w : World) :
  o = Sync_startSync \/ o = Sync_forcSync ->
  submission_ids_unique w ->
  Forall2 (op_row o w) (report_submissions (tables w))
    (report_submissions (tables (after SyncService.startSync w))).
Proof.
  intros Ho Hnd.
  assert (Hst : forall s, status_after o w s
                  = if runs_pass o w
                    then match push_outcome w s with
                         | Some true => synced
                         | Some false => error
                         | None => s_syncStatus s
                         end
                    else s_syncStatus s) by (destruct Ho as [-> | ->]; reflexivity).
  assert (Hrun : runs_pass o w
                 = isOnline (sync w) && negb (syncInProgress (sync w))
                   && DatabaseService.isInitialized w)
    by (destruct Ho as [-> | ->]; reflexivity).
  destruct (runs_pass o w) eqn:Hr.
  - symmetry in Hrun. apply andb_true_iff in Hrun as [Hrun Hopen].
    apply andb_true_iff in Hrun as [Hon Hip]. apply negb_true_iff in Hip.
    assert (Hl : SyncService.startSync_launch w
                 = (SyncService.set_syncInProgress true w, true)).
    { revert Hon Hip Hopen. clear. open_world w. crunch. intros -> -> ->. reflexivity. }
    unfold after, SyncService.startSync. rewrite Hl.
    assert (H0 : Forall2 (pass_row (SyncService.set_syncInProgress true w))
                   (report_submissions (tables (SyncService.set_syncInProgress true w)))
                   (report_submissions
                      (tables (after SyncService.startSync_pass
                                 (SyncService.set_syncInProgress true w))))).
    { apply startSync_pass_exact.
      - revert Hopen. clear. open_world w. crunch. auto.
      - revert Hnd. clear. open_world w. auto. }
    replace (report_submissions (tables (SyncService.set_syncInProgress true w)))
      with (report_submissions (tables w)) in H0 by (clear; open_world w; reflexivity).
    eapply Forall2_In_impl; [|exact H0].
    intros s s' _ [Hid Hs]. split; [exact Hid|]. rewrite Hs, Hst.
    clear. open_world w. reflexivity.
  - assert (Ht : tables (after SyncService.startSync w) = tables w).
    { unfold after. rewrite startSync_skipped; [reflexivity|].
      symmetry in Hrun. apply andb_false_iff in Hrun as [Hrun|Hrun]; [|auto].
      apply andb_false_iff in Hrun as [Hrun|Hrun]; [auto|].
      apply negb_false_iff in Hrun. auto. }
    rewrite Ht. apply op_row_same. exact Hst.
Qed.

Lemma pass_completes_rows (w : World) :
  submission_ids_unique w ->
  Forall2 (op_row Sync_pass_completes w) (report_submissions (tables w))
    (report_submissions (tables (step Sync_pass_completes w))).
Proof.
  intros Hnd. unfold op_row, status_after, runs_pass. simpl step.
  destruct (syncInProgress (sync w)); simpl; [|apply Forall2_same; auto].
  destruct (DatabaseService.isInitialized w) eqn:Hopen.
  - apply (startSync_pass_exact w Hopen Hnd).
  - rewrite (startSync_pass_closed w Hopen). apply Forall2_same; auto.
Qed.

(** The two operations that update a submission by its id. *)
Lemma update_rows (o : Op) (w : World) :
  is_local_edit o = true \/ is_direct_update o = true ->
  Forall2 (op_row o w) (report_submissions (tables w))
    (report_submissions (tables (step o w))).
Proof.
  intros Ho. unfold op_row.
  destruct o; simpl in Ho; try (destruct Ho; discriminate); clear Ho; simpl step.
  - open_world w. crunch. destruct h; crunch; [|apply Forall2_same; auto].
    eapply Forall2_In_impl; [|apply update_where_exact].
    intros s s' _ ->. unfold status_after. crunch.
    destruct (String.eqb (s_id s) id); [|auto].
    split; [reflexivity|]. unfold DatabaseService.set_submission. simpl.
    destruct (ps_syncStatus data); reflexivity.
  - open_world w.
    assert (Hclosed : h = false ->
              forall l, l = ss ->
              Forall2 (fun s s' => s_id s' = s_id s
                         /\ s_syncStatus s'
                            = status_after (Sync_updateSubmissionOffline submissionId data status)
                                (mkWorld (mkDatabaseService pl h (mkTables us ps rs ss qs))
                                   (mkSyncService on ip iv) (mkEnv ck tk ig dr nt rq)
                                   (mkAuthProvider st il se)) s) ss l).
    { intros -> l ->. apply Forall2_same. auto. }
    assert (Hopen : h = true ->
              forall now l,
              l = update_where s_id submissionId
                    (DatabaseService.set_submission
                       (SyncService.updateData_of data status now)
                       (iso (ck (match status with
                                 | Some SyncService.fill_submitted => S tk
                                 | _ => tk
                                 end)))) ss ->
              Forall2 (fun s s' => s_id s' = s_id s
                         /\ s_syncStatus s'
                            = status_after (Sync_updateSubmissionOffline submissionId data status)
                                (mkWorld (mkDatabaseService pl h (mkTables us ps rs ss qs))
                                   (mkSyncService on ip iv) (mkEnv ck tk ig dr nt rq)
                                   (mkAuthProvider st il se)) s) ss l).
    { intros -> now l ->.
      eapply Forall2_In_impl; [|apply update_where_exact].
      intros s s' _ ->. unfold status_after. crunch.
      destruct (String.eqb (s_id s) submissionId); auto. }
    destruct h; [specialize (Hopen eq_refl); clear Hclosed
                | specialize (Hclosed eq_refl); clear Hopen].
    + destruct status as [[]|]; crunch;
        destruct (taken q_id (ig dr) qs); crunch; try destruct on; try destruct ip; crunch;
        eapply Hopen; reflexivity.
    + destruct status as [[]|]; crunch; apply Hclosed; reflexivity.
Qed.

(** The other operations change no row: a row found afterwards was there
    before, or has an id that was new. *)
Lemma step_other_rows (o : Op) (w : World) :
  is_sync o = false -> is_local_edit o = false -> is_direct_update o = false ->
  forall s', In s' (report_submissions (tables (step o w))) ->
    In s' (report_submissions (tables w))
    \/ taken s_id (s_id s') (report_submissions (tables w)) = false.
Proof.
  intros H1 H2 H3.
  destruct o; simpl in H1, H2, H3; try discriminate; clear H1 H2 H3; simpl step.
  all: try (rewrite clearFailedSyncItems_tables; auto).
  all: open_world w; case_split; intros s' Hin; auto.
  all: try contradiction.
  all: try (apply filter_In in Hin as [Hin _]; auto).
  all: try (apply in_app_or in Hin as [Hin|[<-|[]]]; auto).
Qed.

Lemma status_after_other (o : Op) (w : World) (s : ReportSubmission) :
  is_sync o = false -> is_local_edit o = false -> is_direct_update o = false ->
  status_after o w s = s_syncStatus s.
Proof. destruct o; simpl; intros; try discriminate; reflexivity. Qed.

(** Every operation, row by row. *)
Lemma step_op_row (o : Op) (w : World) (s s' : ReportSubmission) :
  submission_ids_unique w ->
  In s (report_submissions (tables w)) ->
  In s' (report_submissions (tables (step o w))) ->
  s_id s = s_id s' ->
  op_row o w s s'.
Proof.
  intros Hnd Hs Hs' E.
  assert (Hrows : Forall2 (op_row o w) (report_submissions (tables w))
                    (report_submissions (tables (step o w))) -> op_row o w s s').
  { intros H. apply (Forall2_by_id (op_row o w) _ _ (fun a b Hab => proj1 Hab) Hnd H);
      assumption. }
  destruct (is_sync o) eqn:H1; [|destruct (is_local_edit o) eqn:H2;
                                  [|destruct (is_direct_update o) eqn:H3]].
  - apply Hrows. destruct o; try discriminate.
    + apply startSync_rows; auto.
    + apply pass_completes_rows, Hnd.
    + simpl step. unfold after, SyncService.forcSync.
      destruct (negb (isOnline (sync w))) eqn:Hoff.
      * apply op_row_same. intros r. unfold status_after, runs_pass.
        apply negb_true_iff in Hoff. rewrite Hoff. reflexivity.
      * apply (startSync_rows Sync_forcSync w); auto.
  - apply Hrows, update_rows. auto.
  - apply Hrows, update_rows. auto.
  - destruct (step_other_rows o w H1 H2 H3 s' Hs') as [Hold|Hnew].
    + rewrite (same_key_same_row s_id _ Hnd s s' Hs Hold E).
      split; [reflexivity|]. symmetry. apply status_after_other; assumption.
    + exfalso. apply (proj1 (taken_false_iff s_id _ _) Hnew).
      rewrite <- E. apply in_map, Hs.
Qed.

(** *** C9 *)

(** C9 as the specification states it fails for a direct call of the
    store's [updateSubmission]: a submission that a pass has set to [synced]
    goes to [error], with no request made. *)
Lemma updateSubmission_moves_synced_to_error :
  let w := step Sync_startSync literal_world in
  let w' := step (Db_updateSubmission "s9" (only_syncStatus error)) w in
  map s_id (report_submissions (tables w)) = ["s9"]
  /\ map s_syncStatus (report_submissions (tables w)) = [synced]
  /\ map s_id (report_submissions (tables w')) = ["s9"]
  /\ map s_syncStatus (report_submissions (tables w')) = [error]
  /\ requests (env w') = requests (env w).
Proof. repeat split. Qed.

(** C9, amended.  In a store whose submission ids are unique, for every
    operation and every submission found before and after it, [syncStatus]
    afterwards is [status_after]: unchanged, except that an operation that
    runs a pass moves a submission that the pass pushes (it is [pending]
    and belongs to ['current_user_id']) to [synced] when its request
    resolves and to [error] when it fails; that [updateSubmissionOffline]
    moves the submission of the id given to [pending]; and that a direct
    [updateSubmission] writes what its argument carries.  So where
    [syncStatus] changes, it went from [pending] to [synced] by a resolved
    request, or from [pending] to [error] by a failed one, or to [pending]
    by a local edit, or the operation was a direct [updateSubmission].  The
    request of a submission is counted in the lists that the pass gets from
    [getPendingSyncItems] and [getSubmissionsByUserId]. *)
Theorem syncStatus_after_operation (o : Op) (w : World) (s s' : ReportSubmission) :
  submission_ids_unique w ->
  In s (report_submissions (tables w)) ->
  In s' (report_submissions (tables (step o w))) ->
  s_id s = s_id s' ->
  s_syncStatus s' = status_after o w s
  /\ (push_outcome w s <> None
      <-> s_syncStatus s = pending /\ s_userId s = "current_user_id")
  /\ (s_syncStatus s' <> s_syncStatus s ->
      (s_syncStatus s = pending /\ runs_pass o w = true
       /\ ((push_outcome w s = Some true /\ s_syncStatus s' = synced)
           \/ (push_outcome w s = Some false /\ s_syncStatus s' = error)))
      \/ (is_local_edit o = true /\ s_syncStatus s' = pending)
      \/ is_direct_update o = true)
  /\ (runs_pass o w = true ->
      DatabaseService.getPendingSyncItems w = (Ok (active_entries w), w)
      /\ exists submissions,
           DatabaseService.getSubmissionsByUserId "current_user_id" w = (Ok submissions, w)
           /\ pushed_submissions w
              = filter (fun x => SyncStatus_eqb (s_syncStatus x) pending) submissions).
Proof.
  intros Hnd Hs Hs' E.
  destruct (step_op_row o w s s' Hnd Hs Hs' E) as [_ Hst].
  pose proof (push_outcome_pending w s Hnd Hs) as Hpush.
  split; [exact Hst|]. split; [exact Hpush|].
  split.
  2:{ intros Hrun.
      assert (Hopen : DatabaseService.isInitialized w = true).
      { destruct o; try discriminate; simpl in Hrun;
          apply andb_true_iff in Hrun as [_ Hrun]; exact Hrun. }
      split; [apply getPendingSyncItems_ok, Hopen|].
      eexists. split; [apply getSubmissionsByUserId_ok, Hopen | reflexivity]. }
  rewrite Hst. clear Hst. intros Hch.
  destruct (is_direct_update o) eqn:H3; [auto|].
  destruct (is_local_edit o) eqn:H2.
  - right. left. split; [reflexivity|].
    destruct o; try discriminate. simpl in *.
    destruct (DatabaseService.isInitialized w && String.eqb (s_id s) submissionId);
      [reflexivity | contradiction].
  - left.
    assert (Hpass : runs_pass o w = true
                    /\ status_after o w s = match push_outcome w s with
                                            | Some true => synced
                                            | Some false => error
                                            | None => s_syncStatus s
                                            end).
    { destruct o; try discriminate; simpl in *; try contradiction;
        match goal with
        | H : (if ?c then _ else _) <> _ |- _ =>
            destruct c; [split; reflexivity | contradiction]
        end. }
    destruct Hpass as [Hrun Hst]. rewrite Hst in *.
    destruct (push_outcome w s) as [[]|] eqn:Ho; [| |contradiction].
    + assert (Hp : s_syncStatus s = pending) by (apply Hpush; discriminate).
      auto.
    + assert (Hp : s_syncStatus s = pending) by (apply Hpush; discriminate).
      auto.
Qed.

(** ** A failure of the transport, seen from the store *)

Lemma startSync_pass_open (w : World) :
  DatabaseService.isInitialized w = true ->
  DatabaseService.isInitialized (after SyncService.startSync_pass w) = true.
Proof.
  intros Hopen.
  destruct (processSyncQueue_run w Hopen) as (Hok1 & Hopen1 & _).
  unfold after in *. unfold SyncService.startSync_pass, finally, try_catch, bind.
  destruct (SyncService.processSyncQueue w) as [[[]|e] w1]; simpl in *; [|discriminate].
  destruct (syncPendingSubmissions_run w1 Hopen1) as (Hok2 & Hopen2 & _).
  unfold after in *.
  destruct (SyncService.syncPendingSubmissions w1) as [[[]|e] w2]; simpl in *; [|discriminate].
  revert Hopen2. clear. open_world w2. auto.
Qed.

(** What any number of passes keeps: the database open, the ids unique, and
    every submission of a user other than ['current_user_id']. *)
Lemma passes_keep (n : nat) (w : World) (s : ReportSubmission) :
  DatabaseService.isInitialized w = true ->
  ids_unique w ->
  In s (report_submissions (tables w)) ->
  s_userId s <> "current_user_id" ->
  DatabaseService.isInitialized (passes n w) = true
  /\ ids_unique (passes n w)
  /\ In s (report_submissions (tables (passes n w))).
Proof.
  intros Hopen Hnd Hs Hu. induction n as [|n (IHo & IHn & IHs)]; simpl; [auto|].
  split; [apply startSync_pass_open, IHo|].
  split; [apply startSync_pass_keeps, IHn|].
  apply startSync_pass_other_users; [apply IHn | exact IHs | exact Hu].
Qed.

Lemma saveSubmissionOffline_net (reportId userId : string) (data : json)
  (status : SyncService.FillStatus) (w : World) :
  net (env (after (SyncService.saveSubmissionOffline reportId userId data status) w))
  = net (env w).
Proof. open_world w. case_split; reflexivity. Qed.

(** *** C2 *)

(** The same draft saved online while every request resolves, after the
    same three passes: the readings of [syncStatus] and of [failedItems]
    are those of [three_failures_scenario]. *)
Example three_successes_scenario :
  sync_queue (tables three_successes) = []
  /\ map s_syncStatus (report_submissions (tables three_successes)) = [pending]
  /\ fst (SyncService.getSyncStats three_successes) = Ok (SyncService.mkSyncStats 0 0 None).
Proof. repeat split. Qed.

(** C2. [saveSubmissionOffline] (a draft or a submitted form) for a user
    other than the literal ['current_user_id'], on an open database with
    unique ids, when the identifiers drawn are new.  The call returns the
    new id with the same result and state whatever the outcomes of the
    requests are, no request made by then (and so does
    [updateSubmissionOffline], the submit of a stored draft).  It has
    stored the submission with [syncStatus = pending] and queued one
    [create] entry for it with [attempts = 0].  The pass that follows makes
    one request for this entry and records its outcome on the entry:
    removed when the request resolves, kept with [attempts = 1] and the
    error when it fails.  But however many passes run and whatever their
    outcomes, no pass throws, the stored submission is left exactly as it
    was saved, [pending], and [getSyncStats] reports [failedItems = 0]: the
    failure shows in neither of the two places where the specification
    wants it seen. *)
Theorem transport_failure_not_observable (reportId userId : string) (data : json)
  (status : SyncService.FillStatus) (w : World) :
  DatabaseService.isInitialized w = true ->
  ids_unique w ->
  taken s_id (next_id w) (report_submissions (tables w)) = false ->
  taken q_id (next_id (draw w)) (sync_queue (tables w)) = false ->
  userId <> "current_user_id" ->
  let w1 := after (SyncService.saveSubmissionOffline reportId userId data status) w in
  (forall submissionId status',
     taken q_id (next_id w) (sync_queue (tables w)) = false ->
     let w2 := after (SyncService.updateSubmissionOffline submissionId data status') w in
     (forall outcome,
        SyncService.updateSubmissionOffline submissionId data status' (with_net outcome w)
        = (Ok tt, with_net outcome w2))
     /\ requests (env w2) = requests (env w))
  /\ exists saved entry,
    (forall outcome,
       SyncService.saveSubmissionOffline reportId userId data status (with_net outcome w)
       = (Ok (next_id w), with_net outcome w1))
    /\ requests (env w1) = requests (env w)
    /\ report_submissions (tables w1) = report_submissions (tables w) ++ [saved]
    /\ s_id saved = next_id w /\ s_userId saved = userId /\ s_data saved = data
    /\ s_status saved = SyncService.status_of status /\ s_syncStatus saved = pending
    /\ sync_queue (tables w1) = sync_queue (tables w) ++ [entry]
    /\ q_id entry = next_id (draw w) /\ q_entityId entry = next_id w
    /\ q_action entry = a_create /\ q_attempts entry = 0
    /\ (exists k,
          nth_error (active_entries w1) k = Some entry
          /\ (net (env w) (requests (env w) + k)%nat = true ->
              ~ In (q_id entry) (map q_id (sync_queue (tables (passes 1 w1)))))
          /\ (net (env w) (requests (env w) + k)%nat = false ->
              exists now,
                In (DatabaseService.set_attempt 1 now (Some "Network error") entry)
                  (sync_queue (tables (passes 1 w1)))))
    /\ (forall n,
          fst (SyncService.startSync_pass (passes n w1)) = Ok tt
          /\ In saved (report_submissions (tables (passes n w1)))
          /\ exists p,
               SyncService.getSyncStats (passes n w1)
               = (Ok (SyncService.mkSyncStats p 0 None), passes n w1)).
Proof.
  intros Hopen [Hsu Hqu] Hs Hq Hu w1.
  destruct (saveSubmissionOffline_run reportId userId data status w Hopen Hs Hq)
    as (sa & lm & pl & ca & Hrun & Hopen1 & Hsubs & Hqueue & Hreq).
  fold w1 in Hrun, Hopen1, Hsubs, Hqueue, Hreq.
  pose proof (saveSubmissionOffline_net reportId userId data status w) as Hnet.
  fold w1 in Hnet.
  set (saved := mkSubmission (next_id w) reportId userId data (SyncService.status_of status)
                  sa lm 1 true pending) in *.
  set (entry := mkSyncQueue (next_id (draw w)) t_submission a_create (next_id w) pl 0
                  None None ca) in *.
  assert (Hnd1 : ids_unique w1).
  { split.
    - unfold submission_ids_unique. rewrite Hsubs.
      apply unique_keys_insert; [exact Hsu | exact Hs].
    - unfold queue_ids_unique. rewrite Hqueue.
      apply unique_keys_insert; [exact Hqu | exact Hq]. }
  assert (Hsaved : In saved (report_submissions (tables w1))).
  { rewrite Hsubs. apply in_or_app. right. left. reflexivity. }
  assert (Hentry : In entry (sync_queue (tables w1))).
  { rewrite Hqueue. apply in_or_app. right. left. reflexivity. }
  split; [intros submissionId status' Hq';
          exact (updateSubmissionOffline_run submissionId data status' w Hopen Hq')|].
  exists saved, entry.
  split; [exact Hrun|]. split; [exact Hreq|]. split; [exact Hsubs|].
  do 5 (split; [reflexivity|]). split; [exact Hqueue|].
  do 4 (split; [reflexivity|]). split.
  - assert (Hactive : In entry (active_entries w1)).
    { unfold active_entries. apply order_by_In, filter_In. split; [exact Hentry|reflexivity]. }
    apply In_nth_error in Hactive as [k Hk]. exists k. split; [exact Hk|].
    destruct (for_of_process_items (active_entries w1) w1 Hopen1
                (pending_ids_unique _ (proj2 Hnd1)))
      as (w' & Hloop & _ & _ & _ & _ & _ & Hrec).
    assert (Hq1 : sync_queue (tables (passes 1 w1)) = sync_queue (tables w')).
    { simpl. rewrite startSync_pass_queue.
      unfold after, SyncService.processSyncQueue, bind.
      rewrite (getPendingSyncItems_ok w1 Hopen1). fold (active_entries w1).
      rewrite Hloop. reflexivity. }
    rewrite Hq1. destruct (Hrec k entry Hk) as [Hgood Hbad].
    rewrite Hnet, Hreq in Hgood, Hbad. split; [exact Hgood|].
    intros Hfail. destruct (Hbad Hfail Hentry) as (n & _ & Hin).
    eexists. exact Hin.
  - intros n.
    destruct (passes_keep n w1 saved Hopen1 Hnd1 Hsaved Hu) as (Ho & _ & Hin).
    split; [apply startSync_pass_returns|]. split; [exact Hin|].
    apply getSyncStats_failedItems, Ho.
Qed.

(** * The theorems on sample states, continued *)

Lemma closed_database_opens_on_demand_witness :
  platform (dbs closed_device) = native
  /\ DatabaseService.isInitialized closed_device = false
  /\ DatabaseService.getReportById "r1" closed_device
     = (Ok (Some sample_report), literal_world)
  /\ DatabaseService.getPendingSyncItems closed_device
     = (Throw (Error "Database not initialized"), closed_device).
Proof.
  split; [reflexivity|]. split; [reflexivity|].
  pose proof (closed_database_opens_on_demand closed_device eq_refl eq_refl) as H.
  cbv zeta in H.
  destruct H as (_ & _ & _ & Hreport & _ & _ & _ & _ & _ & _ & Hpending & _).
  split; [exact (Hreport "r1") | exact Hpending].
Defined.

Lemma createUser_then_lookup_witness :
  DatabaseService.isInitialized literal_world = true
  /\ fst (DatabaseService.createUser "bob@example.com" "bob" role_user literal_world)
     = Ok "lr0k0x"
  /\ fst (DatabaseService.getUserByEmail "bob@example.com"
            (after (DatabaseService.createUser "bob@example.com" "bob" role_user)
               literal_world))
     = Ok (Some (mkUser "lr0k0x" "bob@example.com" "bob" role_user
                   "2024-01-01T00:00:00.000Z" "2024-01-01T00:00:00.000Z")).
Proof.
  split; [reflexivity|].
  destruct (createUser_then_lookup "bob@example.com" "bob" role_user literal_world
              eq_refl eq_refl eq_refl) as (Hid & _ & Hemail & _).
  split; [exact Hid | exact Hemail].
Defined.

Lemma createUser_rejects_stored_email_witness :
  DatabaseService.isInitialized literal_world = true
  /\ In "ana@example.com" (map u_email (users (tables literal_world)))
  /\ exists e,
       fst (DatabaseService.createUser "ana@example.com" "Ana" role_user literal_world)
       = Throw e
       /\ tables (after (DatabaseService.createUser "ana@example.com" "Ana" role_user)
                    literal_world)
          = tables literal_world.
Proof.
  split; [reflexivity|]. split; [left; reflexivity|].
  apply (createUser_rejects_stored_email "ana@example.com" "Ana" role_user literal_world);
    [reflexivity | left; reflexivity].
Defined.

Lemma getProjectsByUserId_owned_newest_first_witness :
  DatabaseService.isInitialized listing_world = true
  /\ projects (tables listing_world) = [project_old; project_other; project_new]
  /\ DatabaseService.getProjectsByUserId "u1" listing_world
     = (Ok [project_new; project_old], listing_world)
  /\ exists l,
       DatabaseService.getProjectsByUserId "u1" listing_world = (Ok l, listing_world)
       /\ Permutation l
            (filter (fun p => String.eqb (p_ownerId p) "u1") (projects (tables listing_world)))
       /\ (forall p, In p l <-> In p (projects (tables listing_world)) /\ p_ownerId p = "u1")
       /\ StronglySorted (fun a b => String.leb (p_createdAt b) (p_createdAt a) = true) l.
Proof.
  split; [reflexivity|]. split; [reflexivity|]. split; [reflexivity|].
  apply (getProjectsByUserId_owned_newest_first "u1" listing_world). reflexivity.
Defined.

Lemma submissions_selected_latest_first_witness :
  DatabaseService.isInitialized listing_world = true
  /\ report_submissions (tables listing_world)
     = [ana_draft; other_submission; late_submission]
  /\ DatabaseService.getSubmissionsByUserId "u1" listing_world
     = (Ok [late_submission; ana_draft], listing_world)
  /\ DatabaseService.getSubmissionsByReportId "r1" listing_world
     = (Ok [other_submission; ana_draft], listing_world)
  /\ (exists l,
        DatabaseService.getSubmissionsByUserId "u1" listing_world = (Ok l, listing_world)
        /\ Permutation l
             (filter (fun s => String.eqb (s_userId s) "u1")
                (report_submissions (tables listing_world)))
        /\ (forall s, In s l <->
              In s (report_submissions (tables listing_world)) /\ s_userId s = "u1")
        /\ StronglySorted
             (fun a b => String.leb (s_lastModified b) (s_lastModified a) = true) l)
  /\ (exists l,
        DatabaseService.getSubmissionsByReportId "r1" listing_world = (Ok l, listing_world)
        /\ Permutation l
             (filter (fun s => String.eqb (s_reportId s) "r1")
                (report_submissions (tables listing_world)))
        /\ (forall s, In s l <->
              In s (report_submissions (tables listing_world)) /\ s_reportId s = "r1")
        /\ StronglySorted
             (fun a b => String.leb (s_lastModified b) (s_lastModified a) = true) l).
Proof.
  split; [reflexivity|]. split; [reflexivity|]. split; [reflexivity|].
  split; [reflexivity|].
  destruct (submissions_selected_latest_first listing_world eq_refl) as [Huser Hreport].
  split; [exact (Huser "u1") | exact (Hreport "r1")].
Defined.

Lemma deleteReport_cascades_witness :
  DatabaseService.isInitialized literal_world = true
  /\ fst (DatabaseService.deleteReport "r1" literal_world) = Ok tt
  /\ (forall s, In s (report_submissions
                        (tables (after (DatabaseService.deleteReport "r1") literal_world)))
                <-> In s (report_submissions (tables literal_world)) /\ s_reportId s <> "r1").
Proof.
  split; [reflexivity|].
  destruct (deleteReport_cascades "r1" literal_world eq_refl) as (Hok & _ & Hsubs & _).
  split; [exact Hok | exact Hsubs].
Defined.

Lemma startSync_runs_one_pass_witness :
  isOnline (sync literal_world) = true
  /\ syncInProgress (sync literal_world) = false
  /\ DatabaseService.isInitialized literal_world = true
  /\ fst (SyncService.startSync literal_world) = Ok tt
  /\ requests (env (after SyncService.startSync literal_world))
     = (requests (env literal_world) + List.length (active_entries literal_world)
        + List.length (pushed_submissions literal_world))%nat
  /\ sync (after SyncService.startSync literal_world) = mkSyncService true false true.
Proof.
  split; [reflexivity|]. split; [reflexivity|]. split; [reflexivity|].
  destruct (startSync_runs_one_pass literal_world eq_refl eq_refl eq_refl)
    as (Hok & Hreq & Hsync & _).
  split; [exact Hok|]. split; [exact Hreq | exact Hsync].
Defined.

Lemma pass_respects_attempt_cap_witness :
  queue_ids_unique (queue_world (fun _ => false))
  /\ forall q, In q (sync_queue (tables (queue_world (fun _ => false)))) ->
       3 <= q_attempts q ->
       In q (sync_queue (tables (after SyncService.startSync_pass
                                   (queue_world (fun _ => false))))).
Proof.
  split; [apply queue_world_ids_unique|].
  exact (proj2 (pass_respects_attempt_cap (queue_world (fun _ => false))
                  (queue_world_ids_unique (fun _ => false)))).
Defined.

Lemma exhausted_world_is_idle :
  (forall q, In q (sync_queue (tables exhausted_world)) -> 3 <= q_attempts q)
  /\ (forall s, In s (report_submissions (tables exhausted_world)) ->
        s_userId s = "current_user_id" -> s_syncStatus s <> pending).
Proof.
  split.
  - intros q [<-|[]]. simpl. lia.
  - intros s [].
Defined.

Lemma idle_pass_changes_nothing_witness :
  DatabaseService.isInitialized exhausted_world = true
  /\ fst (SyncService.startSync exhausted_world) = Ok tt
  /\ tables (after SyncService.startSync exhausted_world) = tables exhausted_world
  /\ requests (env (after SyncService.startSync exhausted_world))
     = requests (env exhausted_world).
Proof.
  split; [reflexivity|].
  apply (idle_pass_changes_nothing exhausted_world eq_refl
           (proj1 exhausted_world_is_idle) (proj2 exhausted_world_is_idle)).
Defined.

Lemma going_offline_stops_scheduling_witness :
  (Some false = Some false \/ Some false = @None bool)
  /\ sync (after (SyncService.onNetInfo (Some false)) literal_world)
     = mkSyncService false false false
  /\ SyncService.forcSync (after (SyncService.onNetInfo (Some false)) literal_world)
     = (Throw (Error "Cannot sync while offline"),
        after (SyncService.onNetInfo (Some false)) literal_world).
Proof.
  split; [left; reflexivity|].
  destruct (going_offline_stops_scheduling (Some false) literal_world
              (or_introl eq_refl)) as (_ & Hsync & _ & _ & _ & _ & Hforc).
  split; [exact Hsync | exact Hforc].
Defined.

Lemma updateSubmissionOffline_always_enqueues_witness :
  DatabaseService.isInitialized literal_world = true
  /\ taken q_id (next_id literal_world) (sync_queue (tables literal_world)) = false
  /\ fst (SyncService.updateSubmissionOffline "s9" (JObj [("f1", JStr "x")]) None
            literal_world) = Ok tt
  /\ exists payload createdAt,
       sync_queue (tables (after (SyncService.updateSubmissionOffline "s9"
                                    (JObj [("f1", JStr "x")]) None) literal_world))
       = sync_queue (tables literal_world)
         ++ [mkSyncQueue (next_id literal_world) t_submission a_update "s9" payload 0
               None None createdAt].
Proof.
  split; [reflexivity|]. split; [reflexivity|].
  destruct (updateSubmissionOffline_always_enqueues "s9" (JObj [("f1", JStr "x")]) None
              literal_world eq_refl eq_refl) as (Hok & Hqueue & _).
  split; [exact Hok | exact Hqueue].
Defined.

Lemma getSyncStats_counts_witness :
  DatabaseService.isInitialized (queue_world (fun _ => true)) = true
  /\ SyncService.getSyncStats (queue_world (fun _ => true))
     = (Ok (SyncService.mkSyncStats 2 0 None), queue_world (fun _ => true)).
Proof.
  split; [reflexivity|].
  exact (getSyncStats_counts (queue_world (fun _ => true)) eq_refl).
Defined.

Lemma submission_identity_is_kept_witness :
  submission_ids_unique literal_world
  /\ In literal_submission (report_submissions (tables literal_world))
  /\ In literal_submission_synced
       (report_submissions (tables (step Sync_startSync literal_world)))
  /\ s_version literal_submission_synced = s_version literal_submission.
Proof.
  assert (Hnd : submission_ids_unique literal_world).
  { unfold submission_ids_unique. simpl. repeat constructor. simpl. tauto. }
  assert (Hs : In literal_submission (report_submissions (tables literal_world))).
  { left. reflexivity. }
  assert (Hs' : In literal_submission_synced
                  (report_submissions (tables (step Sync_startSync literal_world)))).
  { left. reflexivity. }
  split; [exact Hnd|]. split; [exact Hs|]. split; [exact Hs'|].
  destruct (submission_identity_is_kept Sync_startSync literal_world literal_submission
              literal_submission_synced Hnd Hs Hs' eq_refl) as (_ & _ & Hv & _).
  exact Hv.
Defined.

Lemma ana_email_unique : NoDup (map u_email (users (tables literal_world))).
Proof. simpl. repeat constructor. simpl. tauto. Defined.

Lemma login_with_stored_email_witness :
  DatabaseService.isInitialized literal_world = true
  /\ NoDup (map u_email (users (tables literal_world)))
  /\ In ana (users (tables literal_world))
  /\ fst (Auth.login (mkCredentials "ana@example.com" "wrong") literal_world) = Ok tt
  /\ auth_user (state (authp (after (Auth.login (mkCredentials "ana@example.com" "wrong"))
                                literal_world)))
     = Some ana.
Proof.
  split; [reflexivity|]. split; [apply ana_email_unique|]. split; [left; reflexivity|].
  destruct (login_with_stored_email (mkCredentials "ana@example.com" "wrong") ana
              literal_world eq_refl ana_email_unique (or_introl eq_refl) eq_refl)
    as (Hok & _ & _ & _ & Huser & _).
  split; [exact Hok | exact Huser].
Defined.

Lemma register_then_login_witness :
  DatabaseService.isInitialized literal_world = true
  /\ taken u_email (rd_email carla) (users (tables literal_world)) = false
  /\ taken u_id (next_id literal_world) (users (tables literal_world)) = false
  /\ exists u,
       fst (Auth.register carla literal_world) = Ok tt
       /\ u_role u = role_user
       /\ auth_user (state (authp (after (Auth.login (mkCredentials (rd_email carla) "other"))
                                     (after (Auth.register carla) literal_world))))
          = Some u.
Proof.
  split; [reflexivity|]. split; [reflexivity|]. split; [reflexivity|].
  destruct (register_then_login carla "other" literal_world eq_refl eq_refl eq_refl)
    as (u & Hreg & _ & _ & _ & _ & Hrole & _ & _ & Huser).
  exists u. split; [exact Hreg|]. split; [exact Hrole | exact Huser].
Defined.

Lemma session_survives_restart_witness :
  fst (Auth.login (mkCredentials "ana@example.com" "pw") literal_world) = Ok tt
  /\ state (authp (after Auth.checkAuthState
                     (restart (after (Auth.login (mkCredentials "ana@example.com" "pw"))
                                 literal_world))))
     = state (authp (after (Auth.login (mkCredentials "ana@example.com" "pw"))
                       literal_world)).
Proof.
  split; [reflexivity|].
  destruct (session_survives_restart (mkCredentials "ana@example.com" "pw") literal_world
              eq_refl) as (_ & Hsame & _).
  exact Hsame.
Defined.

Lemma no_authentication_in_browser_witness :
  platform (dbs browser) = web
  /\ fst (Auth.login (mkCredentials "ana@example.com" "pw")
            (after DatabaseService.init browser))
     = Throw (Error "Database not initialized")
  /\ fst (Auth.loginWithGoogle (after DatabaseService.init browser))
     = Throw (Error "Database not initialized").
Proof.
  split; [reflexivity|].
  pose proof (no_authentication_in_browser browser eq_refl) as H. cbv zeta in H.
  destruct H as (_ & _ & Hlogin & _ & Hgoogle & _).
  split; [exact (proj1 (Hlogin (mkCredentials "ana@example.com" "pw"))) | exact Hgoogle].
Defined.

Lemma handleSaveDraft_always_reports_success_witness :
  FillReportScreen.report sample_form = Some sample_report
  /\ auth_user (state (authp (snd (DatabaseService.close ana_signed_in)))) = Some ana
  /\ DatabaseService.isInitialized (snd (DatabaseService.close ana_signed_in)) = false
  /\ FillReportScreen.alerts
       (fst (FillReportScreen.handleSaveDraft sample_form
               (snd (DatabaseService.close ana_signed_in))))
     = [("Sucesso", "Rascunho salvo com sucesso!")]
  /\ tables (snd (FillReportScreen.handleSaveDraft sample_form
                    (snd (DatabaseService.close ana_signed_in))))
     = tables ana_signed_in.
Proof.
  split; [reflexivity|]. split; [reflexivity|]. split; [reflexivity|].
  destruct (handleSaveDraft_always_reports_success sample_form sample_report ana
              (snd (DatabaseService.close ana_signed_in)) eq_refl eq_refl)
    as (Halerts & _ & Hclosed).
  split; [exact Halerts | exact (proj1 (Hclosed eq_refl))].
Defined.

Lemma second_save_updates_the_draft_witness :
  FillReportScreen.report sample_form = Some sample_report
  /\ FillReportScreen.submission sample_form = None
  /\ auth_user (state (authp ana_signed_in)) = Some ana
  /\ DatabaseService.isInitialized ana_signed_in = true
  /\ next_id (draw (draw ana_signed_in)) <> next_id (draw ana_signed_in)
  /\ exists t2,
       report_submissions
         (tables (snd (FillReportScreen.handleSaveDraft
                         (FillReportScreen.setFormData (JObj [("f1", JStr "bye")])
                            (fst (FillReportScreen.handleSaveDraft sample_form
                                    ana_signed_in)))
                         (snd (FillReportScreen.handleSaveDraft sample_form ana_signed_in)))))
       = [mkSubmission "lr0k0x" "r1" "u1" (JObj [("f1", JStr "bye")]) draft None t2 1 true
            pending].
Proof.
  assert (Hne : next_id (draw (draw ana_signed_in)) <> next_id (draw ana_signed_in))
    by (vm_compute; discriminate).
  split; [reflexivity|]. split; [reflexivity|]. split; [reflexivity|].
  split; [reflexivity|]. split; [exact Hne|].
  destruct (second_save_updates_the_draft sample_form sample_report ana
              (JObj [("f1", JStr "bye")]) ana_signed_in
              eq_refl eq_refl eq_refl eq_refl eq_refl eq_refl eq_refl Hne)
    as (t1 & t2 & c1 & c2 & p1 & p2 & _ & _ & Hrows & _).
  exists t2. exact Hrows.
Defined.

Lemma loadReportAndSubmission_resumes_latest_draft_witness :
  platform (dbs ana_with_draft) = native
  /\ auth_user (state (authp ana_with_draft)) = Some ana
  /\ taken r_id "r1" (reports (tables ana_with_draft)) = true
  /\ FillReportScreen.submission
       (fst (FillReportScreen.loadReportAndSubmission (FillReportScreen.mount "r1" None)
               ana_with_draft))
     = Some ana_draft
  /\ FillReportScreen.alerts
       (fst (FillReportScreen.loadReportAndSubmission (FillReportScreen.mount "r1" None)
               ana_with_draft))
     = [].
Proof.
  split; [reflexivity|]. split; [reflexivity|]. split; [reflexivity|].
  split; [reflexivity|].
  pose proof (loadReportAndSubmission_resumes_latest_draft "r1" ana ana_with_draft
                eq_refl eq_refl) as H.
  cbv zeta in H. destruct H as (_ & _ & _ & _ & Hfound).
  destruct (Hfound eq_refl) as (_ & _ & Halerts & _). exact Halerts.
Defined.

Lemma ana_has_no_draft (s : ReportSubmission) :
  In s (report_submissions (tables ana_signed_in)) -> s_userId s = u_id ana ->
  s_reportId s = r_id sample_report -> s_status s <> draft.
Proof. intros []. Defined.

Lemma saved_draft_is_resumed_witness :
  FillReportScreen.report sample_form = Some sample_report
  /\ FillReportScreen.submission sample_form = None
  /\ auth_user (state (authp ana_signed_in)) = Some ana
  /\ DatabaseService.isInitialized ana_signed_in = true
  /\ first_row (where_eq r_id (r_id sample_report) (reports (tables ana_signed_in)))
     = Some sample_report
  /\ FillReportScreen.formData
       (fst (FillReportScreen.loadReportAndSubmission
               (FillReportScreen.mount (r_id sample_report) None)
               (snd (FillReportScreen.handleSaveDraft sample_form ana_signed_in))))
     = JObj [("f1", JStr "hello")].
Proof.
  split; [reflexivity|]. split; [reflexivity|]. split; [reflexivity|].
  split; [reflexivity|]. split; [reflexivity|].
  destruct (saved_draft_is_resumed sample_form sample_report ana ana_signed_in
              eq_refl eq_refl eq_refl eq_refl eq_refl ana_has_no_draft eq_refl eq_refl)
    as (_ & Hdata & _).
  exact Hdata.
Defined.

Lemma coming_online_launches_one_pass_witness :
  isOnline (sync (device false (fun _ => true))) = false
  /\ syncInProgress (sync (device false (fun _ => true))) = false
  /\ syncInProgress (sync (after (SyncService.onNetInfo (Some true))
                             (device false (fun _ => true))))
     = true.
Proof.
  split; [reflexivity|]. split; [reflexivity|].
  pose proof (coming_online_launches_one_pass (device false (fun _ => true))) as H.
  cbv zeta in H. destruct H as (_ & _ & _ & _ & _ & _ & Hlaunch).
  exact (Hlaunch eq_refl eq_refl).
Defined.

Lemma handleSync_never_reports_failure_witness :
  isOnline (sync literal_world) = true
  /\ fst (ProfileScreen.handleSync (with_net (fun _ => false) literal_world))
     = ("Sucesso", "Sincronização concluída com sucesso!").
Proof.
  split; [reflexivity|].
  destruct (handleSync_never_reports_failure literal_world) as (_ & _ & Honline & _).
  exact (Honline eq_refl (fun _ => false)).
Defined.

Lemma saveSubmissionOffline_failures_witness :
  DatabaseService.isInitialized clash_world = true
  /\ taken s_id (next_id clash_world) (report_submissions (tables clash_world)) = false
  /\ taken q_id (next_id (draw clash_world)) (sync_queue (tables clash_world)) = true
  /\ (exists e, fst (SyncService.saveSubmissionOffline "r1" "u1" (JObj [])
                       SyncService.fill_draft clash_world) = Throw e)
  /\ sync_queue (tables (after (SyncService.saveSubmissionOffline "r1" "u1" (JObj [])
                                  SyncService.fill_draft) clash_world))
     = [clashing_entry].
Proof.
  split; [reflexivity|]. split; [reflexivity|]. split; [reflexivity|].
  pose proof (saveSubmissionOffline_failures "r1" "u1" (JObj []) SyncService.fill_draft
                clash_world) as H.
  cbv zeta in H. destruct H as (_ & _ & Hclash).
  destruct (Hclash eq_refl eq_refl eq_refl) as (Hthrow & _ & Hqueue & _).
  split; [exact Hthrow | exact Hqueue].
Defined.

Lemma login_failure_leaves_session_witness :
  fst (Auth.login (mkCredentials "ana@example.com" "pw") closed_device)
  = Throw (Error "Database not initialized")
  /\ tables (after (Auth.login (mkCredentials "ana@example.com" "pw")) closed_device)
     = tables closed_device
  /\ state (authp (after (Auth.login (mkCredentials "ana@example.com" "pw")) closed_device))
     = state (authp closed_device).
Proof.
  split; [reflexivity|].
  destruct (login_failure_leaves_session (mkCredentials "ana@example.com" "pw") carla
              closed_device) as (_ & Hlogin & _).
  destruct (Hlogin (Error "Database not initialized") eq_refl) as (Htables & Hstate & _).
  split; [exact Htables | exact Hstate].
Defined.

(** ** The theorems on the transport on sample states *)

Lemma transport_failure_not_observable_witness :
  DatabaseService.isInitialized (device true (fun _ => false)) = true
  /\ ids_unique (device true (fun _ => false))
  /\ "u1" <> "current_user_id"
  /\ exists saved,
       s_syncStatus saved = pending
       /\ forall n,
            In saved
              (report_submissions
                 (tables (passes n
                            (after (SyncService.saveSubmissionOffline "r1" "u1" (JObj [])
                                      SyncService.fill_draft)
                               (device true (fun _ => false))))))
            /\ exists p,
                 SyncService.getSyncStats
                   (passes n
                      (after (SyncService.saveSubmissionOffline "r1" "u1" (JObj [])
                                SyncService.fill_draft)
                         (device true (fun _ => false))))
                 = (Ok (SyncService.mkSyncStats p 0 None),
                    passes n
                      (after (SyncService.saveSubmissionOffline "r1" "u1" (JObj [])
                                SyncService.fill_draft)
                         (device true (fun _ => false)))).
Proof.
  assert (Hids : ids_unique (device true (fun _ => false)))
    by (apply empty_ids_unique; reflexivity).
  assert (Hu : "u1" <> "current_user_id") by discriminate.
  split; [reflexivity|]. split; [exact Hids|]. split; [exact Hu|].
  destruct (transport_failure_not_observable "r1" "u1" (JObj []) SyncService.fill_draft
              (device true (fun _ => false)) eq_refl Hids eq_refl eq_refl Hu)
    as (_ & saved & entry & _ & _ & _ & _ & _ & _ & _ & Hp & _ & _ & _ & _ & _ & _ & Hn).
  exists saved. split; [exact Hp|]. intros n. exact (proj2 (Hn n)).
Defined.

Lemma syncStatus_after_operation_witness :
  submission_ids_unique (with_net (fun _ => false) literal_world)
  /\ In literal_submission
       (report_submissions (tables (with_net (fun _ => false) literal_world)))
  /\ In literal_submission_failed
       (report_submissions
          (tables (step Sync_startSync (with_net (fun _ => false) literal_world))))
  /\ push_outcome (with_net (fun _ => false) literal_world) literal_submission = Some false
  /\ s_syncStatus literal_submission_failed
     = status_after Sync_startSync (with_net (fun _ => false) literal_world)
         literal_submission.
Proof.
  assert (Hnd : submission_ids_unique (with_net (fun _ => false) literal_world)).
  { unfold submission_ids_unique. simpl. repeat constructor. simpl. tauto. }
  assert (Hs : In literal_submission
                 (report_submissions (tables (with_net (fun _ => false) literal_world)))).
  { left. reflexivity. }
  assert (Hs' : In literal_submission_failed
                  (report_submissions
                     (tables (step Sync_startSync
                                (with_net (fun _ => false) literal_world))))).
  { left. reflexivity. }
  split; [exact Hnd|]. split; [exact Hs|]. split; [exact Hs'|]. split; [reflexivity|].
  exact (proj1 (syncStatus_after_operation Sync_startSync
                  (with_net (fun _ => false) literal_world) literal_submission
                  literal_submission_failed Hnd Hs Hs' eq_refl)).
Defined.
